(** * FBRef match-log pipeline: fetch, cache, clean, merge

    A shallow embedding of [fbref_data_downloader.py] and of the driver
    loop shared by its [__main__] block and [update_specific_teams.py].

    - a numeric cell is an [int64], a [uint64] or an IEEE binary64 value,
      as the elements of a pandas column of that dtype are; integer
      arithmetic wraps around as numpy's does, and the missing marker of
      a numeric column is the binary64 NaN;
    - text is a string of bytes, the UTF-8 encoding of a Python [str];
    - a [DataFrame] is an ordered list of column labels and a list of rows,
      each row a finite map from label to cell; the labels of a frame are
      distinct, as those of a frame read by [pd.read_csv] are;
    - code that raises returns [Raise e]; code that reads or writes the
      disk, the network or the clock threads a [World];
    - the parsers of pandas (CSV, HTML, numbers, dates) and the remote
      server are parameters of the development. *)

From Stdlib Require Import ZArith String Ascii List.
From Stdlib Require Import Floats.SpecFloat.
From stdpp Require Import base option list gmap strings.

Local Open Scope Z_scope.

(** ** Numbers: binary64 *)

Module F64.

Definition t : Type := spec_float.

Definition prec : Z := 53.
Definition emax : Z := 1024.

Definition nan : t := S754_nan.
Definition zero : t := S754_zero false.

(** [x - y], [x > y] and [x == y] on numpy scalars. *)
Definition sub (x y : t) : t := SFsub prec emax x y.
Definition gtb (x y : t) : bool := SFltb y x.
Definition ltb (x y : t) : bool := SFltb x y.
Definition eqb (x y : t) : bool := SFeqb x y.

Definition is_nan (x : t) : bool :=
  match x with S754_nan => true | _ => false end.

(** The float nearest to an integer. *)
Definition of_Z (n : Z) : t :=
  match n with
  | Z0 => zero
  | Zpos p => binary_normalize prec emax (Zpos p) 0 false
  | Zneg p => binary_normalize prec emax (Zneg p) 0 true
  end.

(** The order of a Python [int] and a Python [float]: the two numbers
    are compared as they are, the integer is not rounded first; there
    is no order when the float is NaN. *)
Definition compare_Z (n : Z) (y : t) : option comparison :=
  match y with
  | S754_nan => None
  | S754_infinity s => Some (if s then Gt else Lt)
  | S754_zero _ => Some (n ?= 0)
  | S754_finite s m e =>
      let v := if s then Zneg m else Zpos m in
      Some (if 0 <=? e then n ?= v * 2 ^ e else n * 2 ^ (- e) ?= v)
  end.

End F64.

(** ** Numbers: 64-bit integers *)

Definition in_int64 (n : Z) : bool := (- 2 ^ 63 <=? n) && (n <? 2 ^ 63).
Definition in_uint64 (n : Z) : bool := (0 <=? n) && (n <? 2 ^ 64).

(** The [int64] and the [uint64] congruent to an integer: what numpy
    stores when a sum or a difference overflows. *)
Definition wrap_int64 (n : Z) : Z := (n + 2 ^ 63) mod 2 ^ 64 - 2 ^ 63.
Definition wrap_uint64 (n : Z) : Z := n mod 2 ^ 64.

(** ** Cells, rows, series and frames *)

Inductive cell : Type :=
  | CStr (s : string)      (* a Python str *)
  | CInt (n : Z)           (* an int64, or a Python int *)
  | CUInt (n : Z)          (* a uint64 *)
  | CNum (x : F64.t)       (* a float, NaN when missing *)
  | CDate (t : Z)          (* a Timestamp, as an offset from the epoch *)
  | CNaT.                  (* the missing Timestamp *)

Definition isna (c : cell) : bool :=
  match c with
  | CNum x => F64.is_nan x
  | CNaT => true
  | CStr _ | CInt _ | CUInt _ | CDate _ => false
  end.

Definition is_int64 (c : cell) : bool := match c with CInt _ => true | _ => false end.
Definition is_uint64 (c : cell) : bool := match c with CUInt _ => true | _ => false end.
Definition is_float64 (c : cell) : bool := match c with CNum _ => true | _ => false end.
Definition is_datetime (c : cell) : bool :=
  match c with CDate _ | CNaT => true | _ => false end.
Definition is_number (c : cell) : bool :=
  match c with CInt _ | CUInt _ | CNum _ => true | _ => false end.

(** The binary64 value of a number: an integer is rounded to the nearest
    float, as a cast of numpy or Python's [float(n)] does. *)
Definition float_of (c : cell) : F64.t :=
  match c with
  | CInt n | CUInt n => F64.of_Z n
  | CNum x => x
  | CStr _ | CDate _ | CNaT => F64.nan
  end.

#[global] Instance spec_float_eq_dec : EqDecision spec_float.
Proof. solve_decision. Defined.

#[global] Instance cell_eq_dec : EqDecision cell.
Proof. solve_decision. Defined.

Definition Series : Type := list cell.

(** The dtype of a column, read off its cells: a column that is not of
    one numeric kind, or of timestamps, holds Python objects. *)
Inductive dtype : Type := int64 | uint64 | float64 | datetime64 | object.

#[global] Instance dtype_eq_dec : EqDecision dtype.
Proof. solve_decision. Defined.

Definition dtype_of (s : Series) : dtype :=
  if forallb is_float64 s then float64
  else if forallb is_int64 s then int64
  else if forallb is_uint64 s then uint64
  else if forallb is_datetime s then datetime64
  else object.

Definition is_numeric_dtype (d : dtype) : bool :=
  match d with int64 | uint64 | float64 => true | datetime64 | object => false end.

(** A frame: its labels, which are taken to be distinct, and its rows. *)
Record DataFrame : Type := mkFrame {
  columns : list string;
  rows : list (gmap string cell)
}.

(** A table as [pd.read_html] returns it: the header is flat or
    hierarchical, the body is positional. *)
Inductive Labels : Type :=
  | Index (labels : list string)
  | MultiIndex (labels : list (list string)).

Record Table : Type := mkTable {
  header : Labels;
  body : list (list cell)
}.

(** ** Exceptions *)

Inductive exn : Type :=
  | KeyError (key : string)
  | TypeError
  | ValueError.

Inductive result (A : Type) : Type :=
  | Ok (a : A)
  | Raise (e : exn).
Arguments Ok {A} a.
Arguments Raise {A} e.

#[global] Instance result_ret : MRet result := fun A a => Ok a.
#[global] Instance result_bind : MBind result := fun A B f m =>
  match m with
  | Ok a => f a
  | Raise e => Raise e
  end.

Fixpoint traverse {A B : Type} (f : A -> result B) (l : list A) : result (list B) :=
  match l with
  | [] => Ok []
  | a :: l' => b ← f a; bs ← traverse f l'; Ok (b :: bs)
  end.

(** ** The pandas functions the program calls *)

Class Pandas : Type := {
  (** text of a file on disk *)
  Content : Type;
  (** a [strftime] pattern *)
  DateFormat : Type;
  (** [pd.read_csv]; [None] when it raises *)
  read_csv : Content -> option DataFrame;
  (** [DataFrame.to_csv(index=False)] *)
  to_csv : DataFrame -> Content;
  (** [pd.read_html] on a response body; [None] when it raises *)
  read_html : string -> option (list Table);
  (** the numeric value of a string, [None] when it has none *)
  str_to_float : string -> option F64.t;
  (** the integer a string spells, [None] when it spells none *)
  str_to_int : string -> option Z;
  (** the pattern [pd.to_datetime] infers for a column *)
  guess_datetime_format : list cell -> DateFormat;
  (** a string read under a pattern, [None] when it does not match *)
  str_to_datetime : DateFormat -> string -> option Z;
  (** a number read as an offset from the epoch *)
  float_to_datetime : F64.t -> option Z;
  int_to_datetime : Z -> option Z
}.

Section Frames.

Context {pd : Pandas}.

Definition missing : cell := CNum F64.nan.

(** The cell of a row under a label. *)
Definition cell_at (col : string) (r : gmap string cell) : cell :=
  default missing (r !! col).

(** [df[col]] *)
Definition df_getitem (df : DataFrame) (col : string) : result Series :=
  if bool_decide (col ∈ columns df)
  then Ok (map (cell_at col) (rows df))
  else Raise (KeyError col).

(** [df[col] = values], [values] computed from [df] itself: a new label
    is appended, an old one keeps its place. *)
Definition add_label (c : string) (cols : list string) : list string :=
  if bool_decide (c ∈ cols) then cols else cols ++ [c].

Definition df_setitem (df : DataFrame) (col : string) (values : Series) : DataFrame :=
  {| columns := add_label col (columns df);
     rows := zip_with (fun (r : gmap string cell) v => <[col := v]> r) (rows df) values |}.

(** [df[col] = scalar] *)
Definition df_setitem_scalar (df : DataFrame) (col : string) (v : cell) : DataFrame :=
  df_setitem df col (map (fun _ => v) (rows df)).

(** [df[cols].copy()] *)
Definition df_select (df : DataFrame) (cols : list string) : result DataFrame :=
  match filter (fun c => c ∉ columns df) cols with
  | [] => Ok {| columns := cols;
                rows := map (fun r : gmap string cell =>
                               filter (fun kv : string * cell => kv.1 ∈ cols) r) (rows df) |}
  | c :: _ => Raise (KeyError c)
  end.

(** [r[col]] on a row *)
Definition row_getitem (r : gmap string cell) (col : string) : result cell :=
  match r !! col with
  | Some c => Ok c
  | None => Raise (KeyError col)
  end.

(** The column under a label. *)
Definition column (col : string) (df : DataFrame) : Series :=
  map (cell_at col) (rows df).

(** The dtype of [df.values]: that of the columns when they agree on an
    integer dtype, [float64] when all are numeric, [object] otherwise. *)
Definition values_dtype (df : DataFrame) : dtype :=
  let ds := map (fun col => dtype_of (column col df)) (columns df) in
  if forallb (fun d => bool_decide (d = int64)) ds then int64
  else if forallb (fun d => bool_decide (d = uint64)) ds then uint64
  else if forallb is_numeric_dtype ds then float64
  else object.

(** A row of [df.values] as [apply] hands it to the function: under
    [float64] every number has been cast to a float; otherwise the cells
    are the elements themselves (Python objects under [object]). *)
Definition row_values (d : dtype) (r : gmap string cell) : gmap string cell :=
  match d with
  | float64 => (fun c => CNum (float_of c)) <$> r
  | int64 | uint64 | datetime64 | object => r
  end.

(** [df.apply(f, axis=1)] *)
Definition df_apply_rows (df : DataFrame) (f : gmap string cell -> result cell)
  : result Series :=
  traverse f (map (row_values (values_dtype df)) (rows df)).

(** [pd.to_numeric(s, errors='coerce')].

    A column of a numeric dtype is returned as it is and a column of
    timestamps as the integers that store them.  In a column of objects
    every cell is read as a number: when all are integers that fit
    [int64] the result is [int64], when all are integers that fit
    [uint64] it is [uint64], and in every other case it is [float64],
    with NaN for what has no numeric value. *)
Definition int_of (c : cell) : option Z :=
  match c with
  | CInt n | CUInt n => Some n
  | CStr s => str_to_int s
  | CNum _ | CDate _ | CNaT => None
  end.

Definition to_float (c : cell) : F64.t :=
  match c with
  | CStr s => default F64.nan (str_to_float s)
  | CInt _ | CUInt _ | CNum _ | CDate _ | CNaT => float_of c
  end.

Inductive conversion : Type := Keep | View | ToInt64 | ToUInt64 | ToFloat64.

Definition conversion_of (s : Series) : conversion :=
  match dtype_of s with
  | int64 | uint64 | float64 => Keep
  | datetime64 => View
  | object =>
      match mapM int_of s with
      | Some ns =>
          if forallb in_int64 ns then ToInt64
          else if forallb in_uint64 ns then ToUInt64
          else ToFloat64
      | None => ToFloat64
      end
  end.

Definition convert (k : conversion) (c : cell) : cell :=
  match k with
  | Keep => c
  | View => match c with CDate t => CInt t | _ => CInt (- 2 ^ 63) end
  | ToInt64 => CInt (default 0 (int_of c))
  | ToUInt64 => CUInt (default 0 (int_of c))
  | ToFloat64 => CNum (to_float c)
  end.

Definition to_numeric (s : Series) : Series := map (convert (conversion_of s)) s.

(** [pd.to_datetime(s, errors='coerce')] *)
Definition to_datetime_cell (fmt : DateFormat) (c : cell) : cell :=
  match c with
  | CStr s => match str_to_datetime fmt s with Some t => CDate t | None => CNaT end
  | CInt n | CUInt n => match int_to_datetime n with Some t => CDate t | None => CNaT end
  | CNum x => if F64.is_nan x then CNaT
              else match float_to_datetime x with Some t => CDate t | None => CNaT end
  | CDate t => CDate t
  | CNaT => CNaT
  end.

Definition to_datetime (s : Series) : Series :=
  map (to_datetime_cell (guess_datetime_format s)) s.

(** [a - b] on the elements of two numeric columns: within [int64] and
    within [uint64] the difference wraps around; an [int64] and a
    [uint64], or a float and any number, are both cast to [float64]
    first. *)
Definition cell_sub (a b : cell) : result cell :=
  match a, b with
  | CInt x, CInt y => Ok (CInt (wrap_int64 (x - y)))
  | CUInt x, CUInt y => Ok (CUInt (wrap_uint64 (x - y)))
  | _, _ =>
      if is_number a && is_number b
      then Ok (CNum (F64.sub (float_of a) (float_of b)))
      else Raise TypeError
  end.

(** [s1 - s2] on two numeric series of one frame *)
Definition series_sub (s1 s2 : Series) : result Series :=
  traverse (fun p : cell * cell => cell_sub p.1 p.2) (zip s1 s2).

(** [a > b]: two integers and an integer and a float are compared as
    the numbers they are. *)
Definition cell_gt (a b : cell) : result bool :=
  match a, b with
  | CNum x, CNum y => Ok (F64.gtb x y)
  | (CInt x | CUInt x), (CInt y | CUInt y) => Ok (y <? x)
  | (CInt x | CUInt x), CNum y =>
      Ok (match F64.compare_Z x y with Some Gt => true | _ => false end)
  | CNum x, (CInt y | CUInt y) =>
      Ok (match F64.compare_Z y x with Some Lt => true | _ => false end)
  | CStr s, CStr t => Ok (String.ltb t s)
  | CDate s, CDate t => Ok (t <? s)
  | CNaT, (CDate _ | CNaT) | CDate _, CNaT => Ok false
  | _, _ => Raise TypeError
  end.

(** [a == b] *)
Definition cell_eq (a b : cell) : bool :=
  match a, b with
  | CNum x, CNum y => F64.eqb x y
  | (CInt x | CUInt x), (CInt y | CUInt y) => x =? y
  | (CInt x | CUInt x), CNum y | CNum y, (CInt x | CUInt x) =>
      match F64.compare_Z x y with Some Eq => true | _ => false end
  | CStr s, CStr t => bool_decide (s = t)
  | CDate s, CDate t => s =? t
  | _, _ => false
  end.

(** [df.dropna(subset=cols)] *)
Definition row_has_na (cols : list string) (r : gmap string cell) : bool :=
  existsb (fun c => isna (cell_at c r)) cols.

Definition df_dropna (df : DataFrame) (subset : list string) : result DataFrame :=
  match filter (fun c => c ∉ columns df) subset with
  | [] => Ok {| columns := columns df;
                rows := filter (fun r => row_has_na subset r = false) (rows df) |}
  | c :: _ => Raise (KeyError c)
  end.

End Frames.

(** ** The Cleaner: [clean_matchlog] *)

Section Cleaner.

Context {pd : Pandas}.

Definition useful_cols : list string :=
  ["Date"; "Comp"; "Venue"; "Result"; "GF"; "GA"; "xG"; "xGA"; "Poss";
   "Opponent"; "Team"; "Season"].

Definition numeric_cols : list string := ["GF"; "GA"; "xG"; "xGA"; "Poss"].

(** [for col in cols: df[col] = pd.to_numeric(df[col], errors='coerce')] *)
Fixpoint coerce_columns (cols : list string) (df : DataFrame) : result DataFrame :=
  match cols with
  | [] => Ok df
  | col :: cols' =>
      s ← df_getitem df col;
      coerce_columns cols' (df_setitem df col (to_numeric s))
  end.

(** [lambda r: 'Win' if r['GF'] > r['GA'] else
               ('Draw' if r['GF'] == r['GA'] else 'Loss')] *)
Definition outcome_of_row (r : gmap string cell) : result cell :=
  gf ← row_getitem r "GF";
  ga ← row_getitem r "GA";
  gt ← cell_gt gf ga;
  if gt : bool then Ok (CStr "Win")
  else
    gf' ← row_getitem r "GF";
    ga' ← row_getitem r "GA";
    if cell_eq gf' ga' then Ok (CStr "Draw") else Ok (CStr "Loss").

Definition clean_matchlog (df : DataFrame) : result DataFrame :=
  df ← df_select df (filter (fun c => c ∈ columns df) useful_cols);
  df ← coerce_columns numeric_cols df;
  gf ← df_getitem df "GF";
  ga ← df_getitem df "GA";
  goal_diff ← series_sub gf ga;
  let df := df_setitem df "GoalDiff" goal_diff in
  xg ← df_getitem df "xG";
  xga ← df_getitem df "xGA";
  xg_diff ← series_sub xg xga;
  let df := df_setitem df "xGDiff" xg_diff in
  outcome ← df_apply_rows df outcome_of_row;
  let df := df_setitem df "Outcome" outcome in
  date ← df_getitem df "Date";
  let df := df_setitem df "Date" (to_datetime date) in
  df_dropna df ["Date"].

End Cleaner.

(** ** Strings *)

Definition lower_ascii (a : ascii) : ascii :=
  let n := nat_of_ascii a in
  if (65 <=? n)%nat && (n <=? 90)%nat then ascii_of_nat (n + 32) else a.

(** [s.lower()], on the letters of ASCII *)
Fixpoint lower (s : string) : string :=
  match s with
  | EmptyString => EmptyString
  | String a s' => String (lower_ascii a) (lower s')
  end.

(** [s.replace(old, new)] for single characters *)
Fixpoint replace_char (old new : ascii) (s : string) : string :=
  match s with
  | EmptyString => EmptyString
  | String a s' =>
      String (if bool_decide (a = old) then new else a) (replace_char old new s')
  end.

(** The white space of [str.strip()]: the ASCII characters 9 to 13 and
    28 to 32, and the other white space of Unicode (U+0085, U+00A0,
    U+1680, U+2000 to U+200A, U+2028, U+2029, U+202F, U+205F, U+3000),
    each by the bytes that encode it. *)
Definition is_space (a : ascii) : bool :=
  let n := nat_of_ascii a in
  ((9 <=? n)%nat && (n <=? 13)%nat) || ((28 <=? n)%nat && (n <=? 32)%nat).

Definition bytes (l : list Z) : list ascii := map (fun n => ascii_of_nat (Z.to_nat n)) l.

Definition wide_spaces : list (list ascii) :=
  [bytes [194; 133]; bytes [194; 160]; bytes [225; 154; 128]]
  ++ map (fun n => bytes [226; 128; n]) (seqZ 128 11)
  ++ [bytes [226; 128; 168]; bytes [226; 128; 169]; bytes [226; 128; 175];
      bytes [226; 129; 159]; bytes [227; 128; 128]].

(** [s] without the prefix [p], when it starts with [p]. *)
Fixpoint skip (p s : list ascii) : option (list ascii) :=
  match p, s with
  | [], _ => Some s
  | a :: p', b :: s' => if bool_decide (a = b) then skip p' s' else None
  | _ :: _, [] => None
  end.

(** [s] without its first character, when that is white space; [wide]
    lists the encodings of the white space of more than one byte. *)
Definition drop_space (wide : list (list ascii)) (s : list ascii) : option (list ascii) :=
  match s with
  | [] => None
  | a :: s' =>
      if is_space a then Some s'
      else head (omap (fun p => skip p s) wide)
  end.

Fixpoint drop_spaces (n : nat) (wide : list (list ascii)) (s : list ascii) : list ascii :=
  match n with
  | O => s
  | S n' =>
      match drop_space wide s with
      | Some s' => drop_spaces n' wide s'
      | None => s
      end
  end.

Definition lstrip (s : string) : string :=
  let l := list_ascii_of_string s in
  string_of_list_ascii (drop_spaces (length l) wide_spaces l).

Definition rstrip (s : string) : string :=
  let l := rev (list_ascii_of_string s) in
  string_of_list_ascii (rev (drop_spaces (length l) (map (@rev ascii) wide_spaces) l)).

(** [s.strip()] *)
Definition strip (s : string) : string := rstrip (lstrip s).

(** [sep.join(parts)] *)
Fixpoint join (sep : string) (parts : list string) : string :=
  match parts with
  | [] => EmptyString
  | [p] => p
  | p :: ps => p +:+ sep +:+ join sep ps
  end.

(** ** Concatenation of frames *)

Section Concat.

Context {pd : Pandas}.

(** The labels of [l] not yet in [seen], appended in order of first
    appearance. *)
Fixpoint union_labels (seen l : list string) : list string :=
  match l with
  | [] => seen
  | c :: l' =>
      if bool_decide (c ∈ seen) then union_labels seen l'
      else union_labels (seen ++ [c]) l'
  end.

(** A row laid out on the labels [cols]: a label the row lacks holds
    the missing marker. *)
Definition reindex (cols : list string) (r : gmap string cell) : gmap string cell :=
  list_to_map (map (fun c => (c, cell_at c r)) cols).

Definition concat_frames (dfs : list DataFrame) : DataFrame :=
  let cols := union_labels [] (concat (map columns dfs)) in
  {| columns := cols;
     rows := concat (map (fun df => map (reindex cols) (rows df)) dfs) |}.

(** [pd.concat(dfs, ignore_index=True)] *)
Definition pd_concat (dfs : list DataFrame) : result DataFrame :=
  match dfs with
  | [] => Raise ValueError
  | _ :: _ => Ok (concat_frames dfs)
  end.

End Concat.

(** ** The world: disk, network and clock *)

Record Response : Type := mkResponse {
  status_code : Z;
  content : string
}.

(** What [requests.get] does: it returns a response or raises. *)
Inductive reply : Type :=
  | Answered (r : Response)
  | Failed.

Inductive event : Type :=
  | Get (url : string)            (* [requests.get(url, headers=...)] *)
  | Sleep (secs : Z)              (* [time.sleep(secs)] *)
  | SleepUniform (lo hi : Z).     (* [time.sleep(random.uniform(lo, hi))] *)

Record World {pd : Pandas} : Type := mkWorld {
  fs : gmap string Content;       (* the files under the working directory *)
  trace : list event              (* what the process has done so far *)
}.

Record FBRefDownloader : Type := mkDownloader {
  headers : list (string * string);
  delay_range : Z * Z
}.

(** [FBRefDownloader(delay_range)] *)
Definition new_downloader (delay_range : Z * Z) : FBRefDownloader :=
  {| headers := [("User-Agent", "Mozilla/5.0 (Windows NT 10.0; Win64; x64)")];
     delay_range := delay_range |}.

Section Downloader.

Context {pd : Pandas}.

(** The server: its answer to a request depends on the url and on the
    history of the process (requests sent, time slept). *)
Variable remote : list event -> string -> reply.

Definition emit (e : event) (w : World) : World :=
  {| fs := fs w; trace := trace w ++ [e] |}.

Definition write_file (path : string) (c : Content) (w : World) : World :=
  {| fs := <[path := c]> (fs w); trace := trace w |}.

(** [safe_get]: [fuel] bounds the depth of the recursion on 429;
    [None] is a call that has not returned within that depth. *)
Fixpoint safe_get (fuel : nat) (self : FBRefDownloader) (url : string) (w : World)
  : option (option Response * World) :=
  match fuel with
  | O => None
  | S fuel' =>
      let w1 := emit (Get url) w in
      match remote (trace w) url with
      | Failed => Some (None, emit (Sleep 10) w1)
      | Answered response =>
          if status_code response =? 429 then
            safe_get fuel' self url (emit (Sleep 60) w1)
          else if negb (status_code response =? 200) then
            Some (None, w1)
          else
            Some (Some response,
                  emit (SleepUniform (delay_range self).1 (delay_range self).2) w1)
      end
  end.

Definition file_path (team_name : string) : string :=
  "data/" +:+ replace_char " " "-" (lower team_name) +:+ "_matchlogs.csv".

Definition matchlog_url (team_name team_id season : string) : string :=
  "https://fbref.com/en/squads/" +:+ team_id +:+ "/" +:+ season
    +:+ "/matchlogs/all_comps/schedule/" +:+ team_name
    +:+ "-Scores-and-Fixtures-All-Competitions".

(** [["_".join(col).strip() for col in df.columns]] under a hierarchical
    header, the labels as they are otherwise. *)
Definition flat_labels (h : Labels) : list string :=
  match h with
  | Index labels => labels
  | MultiIndex labels => map (fun col => strip (join "_" col)) labels
  end.

Definition frame_of_table (t : Table) : DataFrame :=
  let cols := flat_labels (header t) in
  {| columns := cols;
     rows := map (fun cells => list_to_map (zip cols cells)) (body t) |}.

(** One turn of [for season in seasons]. *)
Definition fetch_season (fuel : nat) (self : FBRefDownloader)
    (team_name team_id season : string) (all_logs : list DataFrame) (w : World)
  : option (list DataFrame * World) :=
  match safe_get fuel self (matchlog_url team_name team_id season) w with
  | None => None
  | Some (None, w') => Some (all_logs, w')
  | Some (Some resp, w') =>
      match read_html (content resp) with
      | None => Some (all_logs, w')
      | Some [] => Some (all_logs, w')
      | Some (t :: _) =>
          let df := frame_of_table t in
          let df := df_setitem_scalar df "Season" (CStr season) in
          let df := df_setitem_scalar df "Team" (CStr team_name) in
          Some (all_logs ++ [df], w')
      end
  end.

Fixpoint fetch_seasons (fuel : nat) (self : FBRefDownloader)
    (team_name team_id : string) (seasons : list string)
    (all_logs : list DataFrame) (w : World) : option (list DataFrame * World) :=
  match seasons with
  | [] => Some (all_logs, w)
  | season :: seasons' =>
      match fetch_season fuel self team_name team_id season all_logs w with
      | None => None
      | Some (all_logs', w') =>
          fetch_seasons fuel self team_name team_id seasons' all_logs' w'
      end
  end.

(** [download_matchlogs]: [Ok None] is Python's [None]. *)
Definition download_matchlogs (fuel : nat) (self : FBRefDownloader)
    (team_name team_id : string) (seasons : list string) (w : World)
  : option (result (option DataFrame) * World) :=
  let path := file_path team_name in
  match fs w !! path with
  | Some c => Some (Ok (read_csv c), w)
  | None =>
      match fetch_seasons fuel self team_name team_id seasons [] w with
      | None => None
      | Some ([], w') => Some (Ok None, w')
      | Some (all_logs, w') =>
          match pd_concat all_logs with
          | Ok combined => Some (Ok (Some combined), write_file path (to_csv combined) w')
          | Raise e => Some (Raise e, w')
          end
      end
  end.

(** [merge_teams], writing to [out]. *)
Definition merge_to (out : string) (dfs : list DataFrame) (w : World)
  : result DataFrame * World :=
  match pd_concat dfs with
  | Ok combined => (Ok combined, write_file out (to_csv combined) w)
  | Raise e => (Raise e, w)
  end.

Definition merge_teams : list DataFrame -> World -> result DataFrame * World :=
  merge_to "data/all_teams_training_data.csv".

(** [for team, tid in teams.items(): ...] of both scripts. *)
Fixpoint collect (fuel : nat) (self : FBRefDownloader)
    (teams : list (string * string)) (seasons : list string)
    (all_dfs : list DataFrame) (w : World) : option (result (list DataFrame) * World) :=
  match teams with
  | [] => Some (Ok all_dfs, w)
  | (team, tid) :: teams' =>
      match download_matchlogs fuel self team tid seasons w with
      | None => None
      | Some (Raise e, w') => Some (Raise e, w')
      | Some (Ok None, w') => collect fuel self teams' seasons all_dfs w'
      | Some (Ok (Some df), w') =>
          match clean_matchlog df with
          | Ok cleaned => collect fuel self teams' seasons (all_dfs ++ [cleaned]) w'
          | Raise e => Some (Raise e, w')
          end
      end
  end.

(** The driver: [Ok None] when no team gave a dataset. *)
Definition run (fuel : nat) (self : FBRefDownloader) (out : string)
    (teams : list (string * string)) (seasons : list string) (w : World)
  : option (result (option DataFrame) * World) :=
  match collect fuel self teams seasons [] w with
  | None => None
  | Some (Raise e, w') => Some (Raise e, w')
  | Some (Ok [], w') => Some (Ok None, w')
  | Some (Ok all_dfs, w') =>
      match merge_to out all_dfs w' with
      | (Ok combined, w'') => Some (Ok (Some combined), w'')
      | (Raise e, w'') => Some (Raise e, w'')
      end
  end.

(** [fbref_data_downloader.py] run as a script. *)
Definition main (fuel : nat) (teams : list (string * string)) (seasons : list string)
  : World -> option (result (option DataFrame) * World) :=
  run fuel (new_downloader (2, 6)) "data/all_teams_training_data.csv" teams seasons.

(** [update_specific_teams.py]. *)
Definition update_specific_teams (fuel : nat)
  : World -> option (result (option DataFrame) * World) :=
  run fuel (new_downloader (3, 7)) "data/qarabag_bilbao_2025_2026.csv"
    [("Qarabag-FK", "44b65410"); ("Athletic-Club-Bilbao", "2b390eca")] ["2025-2026"].

End Downloader.

(** * Vocabulary of the specification

    The functions and predicates in which the theorems are stated. *)

Section Vocabulary.

Context {pd : Pandas}.
Variable remote : list event -> string -> reply.

(** The columns [clean_matchlog] indexes after the projection. *)
Definition required_cols : list string := ["GF"; "GA"; "xG"; "xGA"; "Poss"; "Date"].

Definition kept_cols (df : DataFrame) : list string :=
  filter (fun c => c ∈ columns df) useful_cols.

Definition project (cols : list string) (r : gmap string cell) : gmap string cell :=
  filter (fun kv : string * cell => kv.1 ∈ cols) r.

(** The frame line 90 makes. *)
Definition selected (df : DataFrame) : DataFrame :=
  {| columns := kept_cols df; rows := map (project (kept_cols df)) (rows df) |}.

(** The label of line 95 for two floats, and for two numbers of any
    kind. *)
Definition outcome_label (gf ga : F64.t) : string :=
  if F64.gtb gf ga then "Win" else if F64.eqb gf ga then "Draw" else "Loss".

Definition cell_gtb (a b : cell) : bool :=
  match cell_gt a b with
  | Ok g => g
  | Raise _ => false
  end.

Definition outcome_of (a b : cell) : string :=
  if cell_gtb a b then "Win" else if cell_eq a b then "Draw" else "Loss".

(** The order of two numbers by their values, [None] when one of them
    is NaN or no number, and the label that goes with it. *)
Definition value_compare (a b : cell) : option comparison :=
  match a, b with
  | CNum x, CNum y => SFcompare x y
  | (CInt x | CUInt x), (CInt y | CUInt y) => Some (x ?= y)
  | (CInt x | CUInt x), CNum y => F64.compare_Z x y
  | CNum x, (CInt y | CUInt y) => option_map CompOpp (F64.compare_Z y x)
  | _, _ => None
  end.

Definition label_of (o : option comparison) : string :=
  match o with
  | Some Gt => "Win"
  | Some Eq => "Draw"
  | Some Lt | None => "Loss"
  end.

(** A number as a row of [df.values] of dtype [d] holds it. *)
Definition cast (d : dtype) (c : cell) : cell :=
  match d with
  | float64 => CNum (float_of c)
  | int64 | uint64 | datetime64 | object => c
  end.

(** What line 92 puts under [col] in a row of the frame [P]. *)
Definition coerce_at (P : DataFrame) (col : string) (r : gmap string cell) : cell :=
  convert (conversion_of (column col P)) (cell_at col r).

(** A row of [P] after the five numeric columns were coerced. *)
Definition coerced (P : DataFrame) (r : gmap string cell) : gmap string cell :=
  <["Poss" := coerce_at P "Poss" r]>
    (<["xGA" := coerce_at P "xGA" r]>
    (<["xG" := coerce_at P "xG" r]>
    (<["GA" := coerce_at P "GA" r]>
    (<["GF" := coerce_at P "GF" r]> r)))).

(** The difference of two numbers, as lines 93 and 94 compute it. *)
Definition difference (a b : cell) : cell :=
  match cell_sub a b with
  | Ok d => d
  | Raise _ => missing
  end.

(** The row with its two differences, and the frame of these rows: the
    frame on which line 95 calls [apply]. *)
Definition with_diffs (P : DataFrame) (r : gmap string cell) : gmap string cell :=
  <["xGDiff" := difference (coerce_at P "xG" r) (coerce_at P "xGA" r)]>
    (<["GoalDiff" := difference (coerce_at P "GF" r) (coerce_at P "GA" r)]>
    (coerced P r)).

Definition diffs_frame (P : DataFrame) : DataFrame :=
  {| columns := columns P ++ ["GoalDiff"; "xGDiff"];
     rows := map (with_diffs P) (rows P) |}.

(** The label line 95 gives a row handed over under the dtype [d]. *)
Definition outcome_cell (d : dtype) (r : gmap string cell) : cell :=
  CStr (outcome_of (cell_at "GF" (row_values d r)) (cell_at "GA" (row_values d r))).

(** The row with its three derived cells. *)
Definition derived_row (P : DataFrame) (r : gmap string cell) : gmap string cell :=
  <["Outcome" := outcome_cell (values_dtype (diffs_frame P)) (with_diffs P r)]>
    (with_diffs P r).

Definition derived_cols : list string := ["GoalDiff"; "xGDiff"; "Outcome"].

(** The frame on which line 96 looks up [Date]. *)
Definition derived (df : DataFrame) : DataFrame :=
  {| columns := kept_cols df ++ derived_cols;
     rows := map (derived_row (selected df)) (rows (selected df)) |}.

Definition date_series (df : DataFrame) : Series :=
  map (fun r => cell_at "Date" (project (kept_cols df) r)) (rows df).

(** What the Cleaner makes of one row of [df], before rows are
    dropped. *)
Definition clean_row (df : DataFrame) (r : gmap string cell) : gmap string cell :=
  <["Date" := to_datetime_cell (guess_datetime_format (date_series df))
                (cell_at "Date" (project (kept_cols df) r))]>
    (derived_row (selected df) (project (kept_cols df) r)).

Definition cleaned (df : DataFrame) : DataFrame :=
  {| columns := kept_cols df ++ derived_cols;
     rows := filter (fun r => row_has_na ["Date"] r = false)
               (map (clean_row df) (rows df)) |}.

(** The [Date] column as line 96 reads it. *)
Definition date_column (df : DataFrame) : Series := map (cell_at "Date") (rows df).

(** A date field parses: it is a text that matches the pattern inferred
    for the column, a number that is present and denotes an instant, or
    a timestamp already. *)
Definition date_parses (fmt : DateFormat) (c : cell) : bool :=
  match c with
  | CStr s => bool_decide (is_Some (str_to_datetime fmt s))
  | CInt n | CUInt n => bool_decide (is_Some (int_to_datetime n))
  | CNum x => negb (F64.is_nan x) && bool_decide (is_Some (float_to_datetime x))
  | CDate _ => true
  | CNaT => false
  end.

(** The date field of a row of [df] parses, under the pattern of the
    column. *)
Definition parseable (df : DataFrame) (r : gmap string cell) : bool :=
  date_parses (guess_datetime_format (date_column df)) (cell_at "Date" r).

(** The history after [k] rounds of rate limiting on [url]. *)
Definition retries (url : string) (k : nat) : list event :=
  concat (replicate k [Get url; Sleep 60]).

Definition is_429 (o : reply) : Prop :=
  exists r, o = Answered r /\ status_code r = 429.

(** What a reply other than 429 makes [safe_get] return and do. *)
Definition settle (self : FBRefDownloader) (url : string) (o : reply)
  : option Response * list event :=
  match o with
  | Failed => (None, [Get url; Sleep 10])
  | Answered r =>
      if status_code r =? 200
      then (Some r, [Get url; SleepUniform (delay_range self).1 (delay_range self).2])
      else (None, [Get url])
  end.

Definition extend (w : World) (evs : list event) : World :=
  {| fs := fs w; trace := trace w ++ evs |}.

(** A reply from which the season contributes no frame. *)
Definition unusable (o : reply) : Prop :=
  match o with
  | Failed => True
  | Answered r =>
      status_code r <> 429 /\
      (status_code r <> 200 \/ read_html (content r) = None \/ read_html (content r) = Some [])
  end.

(** From the history [h] a request for [url] is rate-limited [k] times,
    fewer than the depth bound, and then gets a reply that gives no
    frame. *)
Definition fails_at (fuel : nat) (url : string) (h : list event) (k : nat) : Prop :=
  (k < fuel)%nat /\
  (forall j, (j < k)%nat -> is_429 (remote (h ++ retries url j) url)) /\
  unusable (remote (h ++ retries url k) url).

(** The history once the request has failed so. *)
Definition after_failure (self : FBRefDownloader) (url : string) (h : list event) (k : nat)
  : list event :=
  h ++ retries url k ++ (settle self url (remote (h ++ retries url k) url)).2.

(** Every url of the list fails in turn, each from the history the
    process has reached when it asks for it. *)
Fixpoint all_fail (fuel : nat) (self : FBRefDownloader) (urls : list string)
    (h : list event) : Prop :=
  match urls with
  | [] => True
  | url :: urls' =>
      exists k, fails_at fuel url h k /\
                all_fail fuel self urls' (after_failure self url h k)
  end.

(** The urls of the seasons of a team, and of the seasons of every team
    of a list, in the order of the requests. *)
Definition season_urls (team tid : string) (seasons : list string) : list string :=
  map (matchlog_url team tid) seasons.

Definition team_urls (teams : list (string * string)) (seasons : list string) : list string :=
  concat (map (fun t : string * string => season_urls t.1 t.2 seasons) teams).

(** A cell that is there and is not the missing marker. *)
Definition nonnull (c : option cell) : Prop :=
  match c with
  | Some v => isna v = false
  | None => False
  end.

(** The frame has the column and no row is null under it. *)
Definition filled (c : string) (df : DataFrame) : Prop :=
  c ∈ columns df /\ Forall (fun r : gmap string cell => nonnull (r !! c)) (rows df).

Definition tagged (df : DataFrame) : Prop := filled "Team" df /\ filled "Season" df.

(** The cache file of every team of the list, when it is there and
    [read_csv] can read it, holds a tagged dataset. *)
Definition cache_tagged (teams : list (string * string)) (files : gmap string Content)
  : Prop :=
  forall t c df, t ∈ teams -> files !! file_path t.1 = Some c -> read_csv c = Some df ->
                 tagged df.

(** No two teams of the list have the same cache file. *)
Definition distinct_caches (teams : list (string * string)) : Prop :=
  NoDup (map (fun t : string * string => file_path t.1) teams).

End Vocabulary.

(** * A sample instance and sample data *)

(** A small instance of the parsers, for evaluating the program on
    concrete frames: files hold frames, numbers are runs of decimal
    digits, dates are [YYYY-MM-DD], and a page with a non-empty body holds
    one table of one fixture played on the date the body spells. *)
Module Toy.

Definition digit (a : ascii) : option Z :=
  let n := Z.of_nat (nat_of_ascii a) in
  if (48 <=? n) && (n <=? 57) then Some (n - 48) else None.

Fixpoint digits (acc : Z) (s : string) : option Z :=
  match s with
  | EmptyString => Some acc
  | String a s' => match digit a with
                   | Some d => digits (10 * acc + d) s'
                   | None => None
                   end
  end.

Definition number (s : string) : option Z :=
  match s with
  | EmptyString => None
  | _ => digits 0 s
  end.

(** [YYYY-MM-DD] read as the day count [372*Y + 31*M + D]: enough to
    tell a date from a string that is none. *)
Definition iso_date (s : string) : option Z :=
  if bool_decide (String.length s = 10%nat) then
    match number (substring 0 4 s), number (substring 5 2 s), number (substring 8 2 s) with
    | Some y, Some m, Some d =>
        if bool_decide (String.get 4 s = Some "-"%char /\ String.get 7 s = Some "-"%char
                        /\ 1 <= m <= 12 /\ 1 <= d <= 31)
        then Some (372 * y + 31 * m + d) else None
    | _, _, _ => None
    end
  else None.

#[export] Instance pandas : Pandas := {|
  Content := DataFrame;
  DateFormat := unit;
  read_csv := Some;
  to_csv := fun df => df;
  read_html := fun text =>
    if bool_decide (text = EmptyString) then Some []
    else Some [{| header := Index ["Date"; "GF"; "GA"; "xG"; "xGA"; "Poss"];
                  body := [[CStr text; CStr "1"; CStr "0"; CStr "1"; CStr "0"; CStr "50"]] |}];
  str_to_float := fun s => F64.of_Z <$> number s;
  str_to_int := number;
  guess_datetime_format := fun _ => tt;
  str_to_datetime := fun _ s => iso_date s;
  float_to_datetime := fun _ => None;
  int_to_datetime := fun n => Some n
|}.

(** The same parsers, with a [read_csv] that reads the text [NA] as a
    missing value, as that of pandas does. *)
Definition na_cell (c : cell) : cell :=
  match c with
  | CStr s => if bool_decide (s = "NA") then CNum F64.nan else c
  | _ => c
  end.

Definition read_na (df : DataFrame) : DataFrame :=
  {| columns := columns df; rows := map (fmap na_cell) (rows df) |}.

Definition pandas_na : Pandas := {|
  Content := DataFrame;
  DateFormat := unit;
  read_csv := fun df => Some (read_na df);
  to_csv := fun df => df;
  read_html := read_html (Pandas := pandas);
  str_to_float := fun s => F64.of_Z <$> number s;
  str_to_int := number;
  guess_datetime_format := fun _ => tt;
  str_to_datetime := fun _ s => iso_date s;
  float_to_datetime := fun _ => None;
  int_to_datetime := fun n => Some n
|}.

End Toy.

(** Sample frames. *)

Definition fixture (date gf ga xg xga poss : string) : gmap string cell :=
  list_to_map [("Date", CStr date); ("Comp", CStr "Champions Lg"); ("Venue", CStr "Home");
               ("GF", CStr gf); ("GA", CStr ga); ("xG", CStr xg); ("xGA", CStr xga);
               ("Poss", CStr poss); ("Team", CStr "Qarabag-FK"); ("Season", CStr "2025-2026")].

Definition fixture_cols : list string :=
  ["Date"; "Comp"; "Venue"; "GF"; "GA"; "xG"; "xGA"; "Poss"; "Team"; "Season"].

(** A draw, a fixture with an empty date, and a tie decided on penalties,
    whose score cells read [1 (4)] and [1 (3)]. *)
Definition sample_df : DataFrame :=
  {| columns := fixture_cols;
     rows := [fixture "2025-08-19" "2" "2" "1" "1" "55";
              fixture EmptyString "1" "0" "2" "1" "60";
              fixture "2025-08-27" "1 (4)" "1 (3)" "1" "1" "48"] |}.

Definition shootout_df : DataFrame :=
  {| columns := fixture_cols;
     rows := [fixture "2025-08-27" "1 (4)" "1 (3)" "1" "1" "48"] |}.

(** A table without the expected-goals columns. *)
Definition no_xg_df : DataFrame :=
  {| columns := ["Date"; "GF"; "GA"; "Poss"; "Team"; "Season"];
     rows := [list_to_map [("Date", CStr "2025-08-19"); ("GF", CStr "2"); ("GA", CStr "2");
                           ("Poss", CStr "55"); ("Team", CStr "Kairat");
                           ("Season", CStr "2025-2026")]] |}.

(** Sample servers and worlds. *)

Definition page (status : Z) (text : string) : reply :=
  Answered (mkResponse status text).

(** Rate-limits the first request of the process and serves afterwards. *)
Definition remote_429_once (h : list event) (url : string) : reply :=
  match h with
  | [] => page 429 EmptyString
  | _ => page 200 "2025-08-19"
  end.

Definition remote_ok (h : list event) (url : string) : reply := page 200 "2025-08-19".
Definition remote_404 (h : list event) (url : string) : reply := page 404 EmptyString.
Definition remote_down (h : list event) (url : string) : reply := Failed.

Definition world0 : World (pd := Toy.pandas) := {| fs := ∅; trace := [] |}.

(** A world in which the match logs of one team are cached. *)
Definition cached_world : World (pd := Toy.pandas) :=
  {| fs := {[ "data/qarabag-fk_matchlogs.csv" := sample_df ]}; trace := [] |}.

(** A match log put under the cache path by hand: it has the columns of
    the site and none of the two the extractor adds. *)
Definition untagged_df : DataFrame :=
  {| columns := ["Date"; "GF"; "GA"; "xG"; "xGA"; "Poss"];
     rows := [list_to_map [("Date", CStr "2025-07-30"); ("GF", CStr "3"); ("GA", CStr "1");
                           ("xG", CStr "2"); ("xGA", CStr "1"); ("Poss", CStr "61")]] |}.

Definition stale_world : World (pd := Toy.pandas) :=
  {| fs := {[ "data/kairat_matchlogs.csv" := untagged_df ]}; trace := [] |}.

Definition two_teams : list (string * string) :=
  [("Qarabag-FK", "44b65410"); ("Kairat", "768fb565")].

Definition result_frame {pd : Pandas} (res : option (result (option DataFrame) * World))
  : DataFrame :=
  match res with
  | Some (Ok (Some df), _) => df
  | _ => mkFrame [] []
  end.

Definition result_world {pd : Pandas} (res : option (result (option DataFrame) * World))
    (w : World) : World :=
  match res with
  | Some (_, w') => w'
  | None => w
  end.

Definition returned_frame {pd : Pandas} (res : option (result (option DataFrame) * World))
  : bool :=
  match res with
  | Some (Ok (Some _), _) => true
  | _ => false
  end.

Definition fresh_run : option (result (option DataFrame) * World) :=
  main (pd := Toy.pandas) remote_ok 1 two_teams ["2025-2026"] world0.

Definition stale_run : option (result (option DataFrame) * World) :=
  main (pd := Toy.pandas) remote_ok 1 two_teams ["2025-2026"] stale_world.

#[global] Instance nonnull_dec (c : option cell) : Decision (nonnull c).
Proof. destruct c; cbn; apply _. Defined.

(** * Vocabulary of the further properties *)

(** The urls requested in a stretch of the trace, in order. *)
Fixpoint gets (evs : list event) : list string :=
  match evs with
  | [] => []
  | Get url :: evs' => url :: gets evs'
  | _ :: evs' => gets evs'
  end.

Section CoverageVocabulary.

Context {pd : Pandas}.

(** Every row of the frame is labelled with the team and with one of
    the seasons. *)
Definition carries (team : string) (seasons : list string) (df : DataFrame) : Prop :=
  "Team" ∈ columns df /\ "Season" ∈ columns df /\
  Forall (fun r : gmap string cell =>
            r !! "Team" = Some (CStr team) /\
            exists s, s ∈ seasons /\ r !! "Season" = Some (CStr s))
         (rows df).

End CoverageVocabulary.

(** The six text columns of the fixed schema. *)
Definition text_cols : list string :=
  ["Comp"; "Venue"; "Result"; "Opponent"; "Team"; "Season"].

(** A server that is out of order for the first two requests of the
    process and serves afterwards. *)
Definition remote_recovers (h : list event) (url : string) : reply :=
  if (length (gets h) <? 2)%nat then page 404 EmptyString else page 200 "2025-08-19".

(** The world after two requests that failed. *)
Definition failed_world : World (pd := Toy.pandas) :=
  {| fs := ∅;
     trace := [Get (matchlog_url "Kairat" "768fb565" "2023-2024");
               Get (matchlog_url "Kairat" "768fb565" "2024-2025")] |}.

(** Further sample runs. *)

(** Two teams whose names differ in case only, and so share a cache
    file, in a run whose [read_csv] reads [NA] as missing. *)
Definition namesakes : list (string * string) := [("NA", "44b65410"); ("na", "768fb565")].

Definition namesake_run : option (result (option DataFrame) * World (pd := Toy.pandas_na)) :=
  main (pd := Toy.pandas_na) remote_ok 1 namesakes ["2025-2026"] {| fs := ∅; trace := [] |}.

(** One team is read from its cache file, the other is fetched. *)
Definition cached_run : option (result (option DataFrame) * World) :=
  main (pd := Toy.pandas) remote_ok 1 two_teams ["2025-2026"] cached_world.

Definition fresh_download : option (result (option DataFrame) * World) :=
  download_matchlogs (pd := Toy.pandas) remote_ok 1 (new_downloader (2, 6))
    "Qarabag-FK" "44b65410" ["2025-2026"] world0.

(** A frame of numbers only: the date is an instant counted from the
    epoch, the goal counts are integers next to each other beyond 2^53,
    the expected goals are floats. *)
Definition numbers_df : DataFrame :=
  {| columns := ["Date"; "GF"; "GA"; "xG"; "xGA"; "Poss"];
     rows := [list_to_map [("Date", CInt 0); ("GF", CInt (2 ^ 53 + 1)); ("GA", CInt (2 ^ 53));
                           ("xG", CNum (F64.of_Z 1)); ("xGA", CNum F64.zero);
                           ("Poss", CInt 50)]] |}.

(** The same goal counts as the site prints them, with a date in
    text. *)
Definition large_scores_df : DataFrame :=
  {| columns := ["Date"; "GF"; "GA"; "xG"; "xGA"; "Poss"];
     rows := [list_to_map [("Date", CStr "2025-08-19"); ("GF", CStr "9007199254740993");
                           ("GA", CStr "9007199254740992"); ("xG", CStr "1");
                           ("xGA", CStr "0"); ("Poss", CStr "50")]] |}.

(** The cleaned rows of the sample's draw and of the tie decided on
    penalties. *)
Definition draw_row : gmap string cell :=
  clean_row (pd := Toy.pandas) sample_df (fixture "2025-08-19" "2" "2" "1" "1" "55").

Definition shootout_row : gmap string cell :=
  clean_row (pd := Toy.pandas) shootout_df (fixture "2025-08-27" "1 (4)" "1 (3)" "1" "1" "48").


(** * Lemmas and theorems *)

(** Closed decidable goals, and lookups under inserts at distinct
    literal labels. *)
Ltac decide_now :=
  match goal with |- ?P => apply (bool_decide_unpack P); vm_compute; exact I end.

Ltac lookup_simpl :=
  repeat (rewrite lookup_insert_ne by discriminate);
  try rewrite lookup_insert_eq.

Section CleanerFacts.

Context {pd : Pandas}.

Lemma getitem_map (cols : list string) {A : Type} (f : A -> gmap string cell)
    (l : list A) (c : string) :
  c ∈ cols ->
  df_getitem (mkFrame cols (map f l)) c = Ok (map (fun a => cell_at c (f a)) l).
Proof.
  intros Hc. unfold df_getitem. cbn [columns rows].
  rewrite bool_decide_eq_true_2 by done. by rewrite map_map.
Qed.

Lemma setitem_map (cols : list string) {A : Type} (f : A -> gmap string cell) (g : A -> cell)
    (l : list A) (c : string) :
  df_setitem (mkFrame cols (map f l)) c (map g l)
  = mkFrame (add_label c cols) (map (fun a => <[c := g a]> (f a)) l).
Proof.
  unfold df_setitem, add_label. cbn [columns rows]. f_equal.
  induction l as [|a l IH]; [reflexivity|]. cbn. by rewrite IH.
Qed.

Lemma cell_sub_difference (a b : cell) :
  is_number a = true -> is_number b = true -> cell_sub a b = Ok (difference a b).
Proof. unfold difference. destruct a, b; cbn; intros; try discriminate; reflexivity. Qed.

Lemma series_sub_map {A : Type} (g1 g2 n1 n2 : A -> cell) (l : list A) :
  (forall a, g1 a = n1 a) -> (forall a, g2 a = n2 a) ->
  Forall (fun a => is_number (n1 a) = true /\ is_number (n2 a) = true) l ->
  series_sub (map g1 l) (map g2 l) = Ok (map (fun a => difference (n1 a) (n2 a)) l).
Proof.
  intros H1 H2 Hn. unfold series_sub.
  induction Hn as [|a l [Ha Hb] _ IH]; [reflexivity|].
  cbn [map zip zip_with traverse]. cbn [fst snd]. rewrite H1, H2.
  rewrite cell_sub_difference by done.
  change (zip_with pair (map g1 l) (map g2 l)) with (zip (map g1 l) (map g2 l)).
  rewrite IH. reflexivity.
Qed.

Lemma forallb_elem_of {A : Type} (P : A -> bool) (l : list A) (a : A) :
  forallb P l = true -> a ∈ l -> P a = true.
Proof.
  intros Hl Ha. apply list_elem_of_In in Ha.
  by apply (proj1 (forallb_forall P l) Hl).
Qed.

(** The cells of a column of a numeric dtype are numbers of that
    dtype. *)
Lemma dtype_of_cases (s : Series) :
  match dtype_of s with
  | float64 => forallb is_float64 s = true
  | int64 => forallb is_int64 s = true
  | uint64 => forallb is_uint64 s = true
  | datetime64 => forallb is_datetime s = true
  | object => True
  end.
Proof.
  unfold dtype_of.
  destruct (forallb is_float64 s) eqn:Ef; [done|].
  destruct (forallb is_int64 s) eqn:Ei; [done|].
  destruct (forallb is_uint64 s) eqn:Eu; [done|].
  by destruct (forallb is_datetime s) eqn:Ed.
Qed.

(** Whatever [pd.to_numeric] makes of a cell of the column it converts
    is a number. *)
Lemma convert_number (s : Series) (c : cell) :
  c ∈ s -> is_number (convert (conversion_of s) c) = true.
Proof.
  intros Hc. unfold conversion_of.
  pose proof (dtype_of_cases s) as Hd.
  destruct (dtype_of s).
  - apply (forallb_elem_of _ _ c) in Hd; [|done]. by destruct c.
  - apply (forallb_elem_of _ _ c) in Hd; [|done]. by destruct c.
  - apply (forallb_elem_of _ _ c) in Hd; [|done]. by destruct c.
  - cbn. by destruct c.
  - destruct (mapM int_of s) as [ns|]; [|done].
    destruct (forallb in_int64 ns); [done|]. by destruct (forallb in_uint64 ns).
Qed.

Lemma cell_at_insert_ne (c c' : string) (v : cell) (r : gmap string cell) :
  c <> c' -> cell_at c (<[c' := v]> r) = cell_at c r.
Proof. intros Hne. unfold cell_at. by rewrite lookup_insert_ne. Qed.

Lemma cell_at_insert_eq (c : string) (v : cell) (r : gmap string cell) :
  cell_at c (<[c := v]> r) = v.
Proof. unfold cell_at. by rewrite lookup_insert_eq. Qed.

End CleanerFacts.

Section CleanerSpec.

Context {pd : Pandas}.

Lemma elem_of_kept_cols (df : DataFrame) (c : string) :
  c ∈ kept_cols df <-> c ∈ columns df /\ c ∈ useful_cols.
Proof. unfold kept_cols. by rewrite list_elem_of_filter. Qed.

Lemma df_select_kept (df : DataFrame) :
  df_select df (kept_cols df) = Ok (selected df).
Proof.
  unfold df_select.
  destruct (filter (fun c => c ∉ columns df) (kept_cols df)) as [|c l] eqn:E; [reflexivity|].
  assert (Hc : c ∈ filter (fun c => c ∉ columns df) (kept_cols df)) by (rewrite E; left).
  apply list_elem_of_filter in Hc as [Hn Hk].
  apply elem_of_kept_cols in Hk as [Hk _]. contradiction.
Qed.

Lemma add_label_old (c : string) (cols : list string) : c ∈ cols -> add_label c cols = cols.
Proof. intros Hc. unfold add_label. by rewrite bool_decide_eq_true_2. Qed.

Lemma add_label_new (c : string) (cols : list string) : c ∉ cols -> add_label c cols = cols ++ [c].
Proof. intros Hc. unfold add_label. by rewrite bool_decide_eq_false_2. Qed.

Lemma bind_Ok {A B : Type} (a : A) (k : A -> result B) : (Ok a ≫= k) = k a.
Proof. reflexivity. Qed.

Lemma traverse_map_map {A B C : Type} (f : B -> result C) (F : A -> B) (g : A -> C)
    (l : list A) :
  Forall (fun a => f (F a) = Ok (g a)) l -> traverse f (map F l) = Ok (map g l).
Proof.
  intros Hf. induction Hf as [|a l Ha _ IH]; [reflexivity|].
  cbn [map traverse]. by rewrite Ha, IH.
Qed.

Lemma lookup_coerced_GF P r : coerced P r !! "GF" = Some (coerce_at P "GF" r).
Proof. unfold coerced. by lookup_simpl. Qed.
Lemma lookup_coerced_GA P r : coerced P r !! "GA" = Some (coerce_at P "GA" r).
Proof. unfold coerced. by lookup_simpl. Qed.
Lemma lookup_coerced_xG P r : coerced P r !! "xG" = Some (coerce_at P "xG" r).
Proof. unfold coerced. by lookup_simpl. Qed.
Lemma lookup_coerced_xGA P r : coerced P r !! "xGA" = Some (coerce_at P "xGA" r).
Proof. unfold coerced. by lookup_simpl. Qed.
Lemma lookup_coerced_Poss P r : coerced P r !! "Poss" = Some (coerce_at P "Poss" r).
Proof. unfold coerced. by lookup_simpl. Qed.
Lemma lookup_coerced_other P c r : c ∉ numeric_cols -> coerced P r !! c = r !! c.
Proof.
  intros Hc. unfold coerced.
  rewrite !lookup_insert_ne; [done|..]; intros <-; apply Hc; decide_now.
Qed.

(** The cell of a row of [P] under a numeric label is a number once
    the column is coerced. *)
Lemma coerce_at_number (P : DataFrame) (col : string) (r : gmap string cell) :
  r ∈ rows P -> is_number (coerce_at P col r) = true.
Proof.
  intros Hr. unfold coerce_at. apply convert_number.
  unfold column. apply list_elem_of_fmap. by exists r.
Qed.

(** One turn of the loop of lines 91 and 92, on a frame whose column
    [c] is still the one of [g0]. *)
Lemma coerce_one (cols : list string) {A : Type} (g g0 : A -> gmap string cell)
    (l : list A) (c : string) (K : DataFrame -> result DataFrame) :
  c ∈ cols -> (forall a, cell_at c (g a) = cell_at c (g0 a)) ->
  (s ← df_getitem (mkFrame cols (map g l)) c;
   K (df_setitem (mkFrame cols (map g l)) c (to_numeric s)))
  = K (mkFrame cols
         (map (fun a => <[c := coerce_at (mkFrame cols (map g0 l)) c (g0 a)]> (g a)) l)).
Proof.
  intros Hc Hg. rewrite getitem_map, bind_Ok by done.
  unfold to_numeric. rewrite map_map, setitem_map, add_label_old by done.
  f_equal. f_equal. unfold coerce_at, column. cbn [rows]. rewrite map_map.
  rewrite (map_ext (fun a => cell_at c (g a)) (fun a => cell_at c (g0 a))) by done.
  apply map_ext. intros a. by rewrite Hg.
Qed.

Lemma coerce_columns_cons (col : string) (cols : list string) (df : DataFrame) :
  coerce_columns (col :: cols) df
  = (s ← df_getitem df col; coerce_columns cols (df_setitem df col (to_numeric s))).
Proof. reflexivity. Qed.

Lemma coerce_numeric_cols (cols : list string) {A : Type} (f : A -> gmap string cell)
    (l : list A) :
  Forall (fun c => c ∈ cols) numeric_cols ->
  coerce_columns numeric_cols (mkFrame cols (map f l))
  = Ok (mkFrame cols (map (fun a => coerced (mkFrame cols (map f l)) (f a)) l)).
Proof.
  intros Hc. unfold numeric_cols in Hc.
  repeat match goal with H : Forall _ (_ :: _) |- _ => apply Forall_cons in H as [? H] end.
  unfold numeric_cols.
  rewrite coerce_columns_cons, (coerce_one cols f f l "GF") by done.
  rewrite coerce_columns_cons, (coerce_one cols _ f l "GA")
    by (try assumption; intros a; by rewrite ?cell_at_insert_ne by discriminate).
  rewrite coerce_columns_cons, (coerce_one cols _ f l "xG")
    by (try assumption; intros a; by rewrite ?cell_at_insert_ne by discriminate).
  rewrite coerce_columns_cons, (coerce_one cols _ f l "xGA")
    by (try assumption; intros a; by rewrite ?cell_at_insert_ne by discriminate).
  rewrite coerce_columns_cons, (coerce_one cols _ f l "Poss")
    by (try assumption; intros a; by rewrite ?cell_at_insert_ne by discriminate).
  reflexivity.
Qed.

Lemma kept_cols_numeric (df : DataFrame) :
  numeric_cols ⊆ columns df -> Forall (fun c => c ∈ kept_cols df) numeric_cols.
Proof.
  intros Hnum. apply list.Forall_forall. intros c Hc.
  apply elem_of_kept_cols. split; [by apply Hnum|].
  revert c Hc. apply list.Forall_forall. decide_now.
Qed.

Lemma kept_cols_useful (df : DataFrame) (c : string) : c ∉ useful_cols -> c ∉ kept_cols df.
Proof. intros Hc Hk. apply elem_of_kept_cols in Hk as [_ ?]. done. Qed.

Lemma cell_gt_number (a b : cell) :
  is_number a = true -> is_number b = true -> cell_gt a b = Ok (cell_gtb a b).
Proof. unfold cell_gtb. destruct a, b; cbn; intros; try discriminate; reflexivity. Qed.

Lemma outcome_of_row_label (r : gmap string cell) (gf ga : cell) :
  r !! "GF" = Some gf -> r !! "GA" = Some ga ->
  is_number gf = true -> is_number ga = true ->
  outcome_of_row r = Ok (CStr (outcome_of gf ga)).
Proof.
  intros Hf Ha Hnf Hna. unfold outcome_of_row, row_getitem, outcome_of.
  rewrite Hf, Ha. cbn [mbind result_bind]. rewrite cell_gt_number by done.
  cbn [mbind result_bind].
  destruct (cell_gtb gf ga); [reflexivity|]. by destruct (cell_eq gf ga).
Qed.

Lemma lookup_row_values (d : dtype) (r : gmap string cell) (c : string) (v : cell) :
  r !! c = Some v -> is_number v = true ->
  exists v', row_values d r !! c = Some v' /\ is_number v' = true /\
             cell_at c (row_values d r) = v'.
Proof.
  intros Hr Hv. unfold cell_at. destruct d; cbn [row_values];
    rewrite ?lookup_fmap, Hr; cbn; eauto.
Qed.

Lemma outcome_of_row_values (d : dtype) (r : gmap string cell) (gf ga : cell) :
  r !! "GF" = Some gf -> r !! "GA" = Some ga ->
  is_number gf = true -> is_number ga = true ->
  outcome_of_row (row_values d r) = Ok (outcome_cell d r).
Proof.
  intros Hf Ha Hnf Hna.
  destruct (lookup_row_values d r "GF" gf Hf Hnf) as (gf' & Hf' & Hnf' & Ef).
  destruct (lookup_row_values d r "GA" ga Ha Hna) as (ga' & Ha' & Hna' & Ea).
  unfold outcome_cell. rewrite Ef, Ea. by apply outcome_of_row_label.
Qed.

Lemma lookup_with_diffs_GF P r : with_diffs P r !! "GF" = Some (coerce_at P "GF" r).
Proof. unfold with_diffs. lookup_simpl. apply lookup_coerced_GF. Qed.
Lemma lookup_with_diffs_GA P r : with_diffs P r !! "GA" = Some (coerce_at P "GA" r).
Proof. unfold with_diffs. lookup_simpl. apply lookup_coerced_GA. Qed.

(** Lines 90 to 95 on a frame that has the five numeric columns. *)
Lemma clean_matchlog_derived (df : DataFrame) :
  numeric_cols ⊆ columns df ->
  clean_matchlog df
  = (date ← df_getitem (derived df) "Date";
     df_dropna (df_setitem (derived df) "Date" (to_datetime date)) ["Date"]).
Proof.
  intros Hnum.
  pose proof (kept_cols_numeric df Hnum) as Hk. unfold numeric_cols in Hk.
  assert (HGF : "GF" ∈ kept_cols df) by (by inversion Hk).
  assert (HGA : "GA" ∈ kept_cols df) by (by inversion Hk as [|? ? ? Hk1]; inversion Hk1).
  assert (HxG : "xG" ∈ kept_cols df).
  { apply (proj1 (list.Forall_forall _ _) Hk). decide_now. }
  assert (HxGA : "xGA" ∈ kept_cols df).
  { apply (proj1 (list.Forall_forall _ _) Hk). decide_now. }
  assert (HnGD : "GoalDiff" ∉ kept_cols df) by (apply kept_cols_useful; decide_now).
  assert (HnXD : "xGDiff" ∉ kept_cols df ++ ["GoalDiff"]).
  { intros [Hc|Hc]%elem_of_app; [revert Hc; apply kept_cols_useful|revert Hc]; decide_now. }
  assert (HnO : "Outcome" ∉ (kept_cols df ++ ["GoalDiff"]) ++ ["xGDiff"]).
  { intros [[Hc|Hc]%elem_of_app|Hc]%elem_of_app;
      [revert Hc; apply kept_cols_useful|revert Hc|revert Hc]; decide_now. }
  unfold clean_matchlog. fold (kept_cols df).
  rewrite df_select_kept, bind_Ok. unfold selected at 1.
  rewrite coerce_numeric_cols, bind_Ok by exact (kept_cols_numeric df Hnum).
  fold (selected df). set (P := selected df).
  assert (Hrow : forall r, r ∈ rows df -> project (kept_cols df) r ∈ rows P).
  { intros r Hr. unfold P, selected. cbn [rows]. apply list_elem_of_fmap. by exists r. }
  (* GoalDiff *)
  rewrite !getitem_map, !bind_Ok by assumption.
  rewrite (series_sub_map _ _
             (fun r => coerce_at P "GF" (project (kept_cols df) r))
             (fun r => coerce_at P "GA" (project (kept_cols df) r))).
  2,3: intros r; unfold cell_at at 1;
       first [by rewrite lookup_coerced_GF | by rewrite lookup_coerced_GA].
  2:{ apply list.Forall_forall. intros r Hr. split; apply coerce_at_number; by apply Hrow. }
  rewrite bind_Ok, setitem_map, add_label_new by assumption.
  (* xGDiff *)
  rewrite !getitem_map, !bind_Ok by (apply elem_of_app; by left).
  rewrite (series_sub_map _ _
             (fun r => coerce_at P "xG" (project (kept_cols df) r))
             (fun r => coerce_at P "xGA" (project (kept_cols df) r))).
  2,3: intros r; unfold cell_at at 1; lookup_simpl;
       first [by rewrite lookup_coerced_xG | by rewrite lookup_coerced_xGA].
  2:{ apply list.Forall_forall. intros r Hr. split; apply coerce_at_number; by apply Hrow. }
  rewrite bind_Ok, setitem_map, add_label_new by assumption.
  (* Outcome *)
  change (fun a : gmap string cell =>
            <["xGDiff" := difference (coerce_at P "xG" (project (kept_cols df) a))
                            (coerce_at P "xGA" (project (kept_cols df) a))]>
              (<["GoalDiff" := difference (coerce_at P "GF" (project (kept_cols df) a))
                                 (coerce_at P "GA" (project (kept_cols df) a))]>
                 (coerced P (project (kept_cols df) a))))
    with (fun a => with_diffs P (project (kept_cols df) a)).
  assert (HF : mkFrame ((kept_cols df ++ ["GoalDiff"]) ++ ["xGDiff"])
                 (map (fun a => with_diffs P (project (kept_cols df) a)) (rows df))
               = diffs_frame P).
  { unfold diffs_frame, P, selected. cbn [columns rows].
    by rewrite <- app_assoc, map_map. }
  unfold df_apply_rows. rewrite HF at 1. cbn [rows]. rewrite map_map.
  rewrite (traverse_map_map _ _
             (fun r => outcome_cell (values_dtype (diffs_frame P))
                         (with_diffs P (project (kept_cols df) r)))).
  2:{ apply list.Forall_forall. intros r Hr.
      eapply outcome_of_row_values;
        [apply lookup_with_diffs_GF|apply lookup_with_diffs_GA|..];
        apply coerce_at_number; by apply Hrow. }
  rewrite bind_Ok, setitem_map, add_label_new by assumption.
  unfold derived, derived_row, derived_cols. fold P.
  replace (rows P) with (map (project (kept_cols df)) (rows df)) by reflexivity.
  rewrite map_map, <- !app_assoc. reflexivity.
Qed.

Lemma cell_at_derived_row (P : DataFrame) (r : gmap string cell) (c : string) :
  c ∉ numeric_cols -> c ∉ derived_cols ->
  cell_at c (derived_row P r) = cell_at c r.
Proof.
  intros Hn Hd. unfold cell_at, derived_row, with_diffs.
  rewrite !lookup_insert_ne; [by rewrite lookup_coerced_other|..];
    intros <-; apply Hd; decide_now.
Qed.

Theorem clean_matchlog_cleaned (df : DataFrame) :
  required_cols ⊆ columns df -> clean_matchlog df = Ok (cleaned df).
Proof.
  intros Hreq.
  assert (Hnum : numeric_cols ⊆ columns df).
  { intros c Hc. apply Hreq. revert c Hc. apply list.Forall_forall. decide_now. }
  assert (HDate : "Date" ∈ kept_cols df ++ derived_cols).
  { apply elem_of_app. left. apply elem_of_kept_cols.
    split; [apply Hreq|]; decide_now. }
  rewrite clean_matchlog_derived by assumption.
  unfold derived.
  replace (rows (selected df)) with (map (project (kept_cols df)) (rows df)) by reflexivity.
  rewrite map_map.
  rewrite getitem_map, bind_Ok by assumption.
  unfold to_datetime.
  rewrite (map_ext _ (fun r => cell_at "Date" (project (kept_cols df) r)))
    by (intros r; apply cell_at_derived_row; decide_now).
  fold (date_series df). unfold date_series at 2.
  rewrite map_map, setitem_map, add_label_old by assumption.
  unfold df_dropna. cbn [columns rows].
  rewrite filter_cons_False, filter_nil by (intros Hn; by apply Hn).
  reflexivity.
Qed.

(** A frame that lacks one of the six columns the Cleaner reads makes
    it raise [KeyError]. *)
Lemma coerce_columns_KeyError (cs : list string) (df : DataFrame) (c : string) :
  c ∈ cs -> c ∉ columns df ->
  exists k, coerce_columns cs df = Raise (KeyError k).
Proof.
  revert df. induction cs as [|c0 cs IH]; intros df Hc Hn; [by apply elem_of_nil in Hc|].
  cbn [coerce_columns]. unfold df_getitem.
  destruct (decide (c0 ∈ columns df)) as [Hin|Hout].
  - rewrite bool_decide_eq_true_2, bind_Ok by done.
    apply IH.
    + apply elem_of_cons in Hc as [->|Hc]; [contradiction|done].
    + unfold df_setitem. cbn [columns]. by rewrite add_label_old.
  - rewrite bool_decide_eq_false_2 by done. by eexists.
Qed.

Theorem clean_matchlog_KeyError (df : DataFrame) (c : string) :
  c ∈ required_cols -> c ∉ columns df ->
  exists k, clean_matchlog df = Raise (KeyError k).
Proof.
  intros Hc Hn.
  destruct (decide (Forall (fun c => c ∈ columns df) numeric_cols)) as [Hnum|Hnum].
  - rewrite clean_matchlog_derived
      by (intros k Hk; by apply (proj1 (list.Forall_forall _ _) Hnum)).
    assert (c = "Date") as ->.
    { unfold required_cols in Hc. unfold numeric_cols in Hnum.
      repeat (apply elem_of_cons in Hc as [->|Hc];
              [try reflexivity; exfalso; apply Hn;
               apply (proj1 (list.Forall_forall _ _) Hnum); decide_now|]).
      by apply elem_of_nil in Hc. }
    unfold df_getitem, derived. cbn [columns].
    rewrite bool_decide_eq_false_2; [by eexists|].
    intros [Hk|Hk]%elem_of_app; [|revert Hk; decide_now].
    apply elem_of_kept_cols in Hk as [Hk _]. contradiction.
  - apply not_Forall_Exists in Hnum; [|apply _].
    apply Exists_exists in Hnum as (k & Hk & Hkn).
    unfold clean_matchlog. fold (kept_cols df). rewrite df_select_kept, bind_Ok.
    destruct (coerce_columns_KeyError numeric_cols (selected df) k Hk) as [k' Hk'].
    + cbn [columns]. intros [Hk1 _]%elem_of_kept_cols. contradiction.
    + rewrite Hk'. by eexists.
Qed.

End CleanerSpec.

Section CleanerClaims.

Context {pd : Pandas}.

Lemma clean_matchlog_Ok_inv (df out : DataFrame) :
  clean_matchlog df = Ok out -> required_cols ⊆ columns df /\ out = cleaned df.
Proof.
  intros Hok.
  assert (Hreq : required_cols ⊆ columns df).
  { intros c Hc. destruct (decide (c ∈ columns df)) as [|Hn]; [done|].
    destruct (clean_matchlog_KeyError df c Hc Hn) as [k Hk]. congruence. }
  split; [done|]. rewrite clean_matchlog_cleaned in Hok by done. congruence.
Qed.

Lemma cell_at_project (cols : list string) (r : gmap string cell) (c : string) :
  c ∈ cols -> cell_at c (project cols r) = cell_at c r.
Proof.
  intros Hc. unfold cell_at, project. f_equal.
  destruct (r !! c) as [v|] eqn:E.
  - by apply map_lookup_filter_Some.
  - apply map_lookup_filter_None. by left.
Qed.

Lemma lookup_project (cols : list string) (r : gmap string cell) (c : string) :
  c ∈ cols -> project cols r !! c = r !! c.
Proof.
  intros Hc. unfold project.
  destruct (r !! c) as [v|] eqn:E.
  - by apply map_lookup_filter_Some.
  - apply map_lookup_filter_None. by left.
Qed.

Lemma elem_of_cleaned (df : DataFrame) (r' : gmap string cell) :
  r' ∈ rows (cleaned df) <->
  exists r, r ∈ rows df /\ r' = clean_row df r /\ isna (cell_at "Date" r') = false.
Proof.
  unfold cleaned. cbn [rows]. rewrite list_elem_of_filter, list_elem_of_fmap.
  unfold row_has_na. cbn [existsb]. rewrite orb_false_r.
  split.
  - intros (Hna & r & -> & Hr). eauto.
  - intros (r & Hr & -> & Hna). eauto.
Qed.



Lemma date_series_column (df : DataFrame) :
  "Date" ∈ columns df -> date_series df = date_column df.
Proof.
  intros Hd. unfold date_series, date_column. apply map_ext. intros r.
  apply cell_at_project. apply elem_of_kept_cols. split; [done|decide_now].
Qed.

Lemma cell_at_clean_row_Date (df : DataFrame) (r : gmap string cell) :
  "Date" ∈ columns df ->
  cell_at "Date" (clean_row df r)
  = to_datetime_cell (guess_datetime_format (date_column df)) (cell_at "Date" r).
Proof.
  intros Hd. unfold clean_row, cell_at at 1. rewrite lookup_insert_eq. cbn.
  rewrite date_series_column by done.
  rewrite cell_at_project; [done|].
  apply elem_of_kept_cols. split; [done|decide_now].
Qed.

End CleanerClaims.

Section Ordering.

(** [SFcompare] swaps with its arguments. *)
Lemma SFcompare_swap (x y : F64.t) :
  SFcompare y x = option_map CompOpp (SFcompare x y).
Proof.
  destruct x as [sx|sx| |sx mx ex], y as [sy|sy| |sy my ey]; cbn;
    try reflexivity;
    try (destruct sx; reflexivity); try (destruct sy; reflexivity);
    try (destruct sx, sy; reflexivity).
  assert (Hm : Pos.compare_cont Eq my mx = CompOpp (Pos.compare_cont Eq mx my))
    by (by rewrite Pos.compare_cont_antisym).
  f_equal. destruct sx, sy; try reflexivity;
    rewrite (Z.compare_antisym ex ey); destruct (ex ?= ey) eqn:E; cbn;
    try reflexivity; by rewrite Hm.
Qed.

Lemma SFcompare_present (x y : F64.t) :
  F64.is_nan x = false -> F64.is_nan y = false -> is_Some (SFcompare x y).
Proof.
  destruct x, y; cbn; intros; try discriminate; eauto.
Qed.

(** Among numbers that are present exactly one of [>], [==], [<] holds. *)
Lemma F64_trichotomy (x y : F64.t) :
  F64.is_nan x = false -> F64.is_nan y = false ->
  (F64.gtb x y = true /\ F64.eqb x y = false /\ F64.ltb x y = false)
  \/ (F64.gtb x y = false /\ F64.eqb x y = true /\ F64.ltb x y = false)
  \/ (F64.gtb x y = false /\ F64.eqb x y = false /\ F64.ltb x y = true).
Proof.
  intros Hx Hy. unfold F64.gtb, F64.eqb, F64.ltb, SFltb, SFeqb.
  rewrite (SFcompare_swap x y).
  destruct (SFcompare_present x y Hx Hy) as [[] ->]; cbn; tauto.
Qed.

(** A difference with a missing operand is missing. *)
Lemma F64_sub_missing (x y : F64.t) :
  F64.is_nan x = true \/ F64.is_nan y = true -> F64.sub x y = F64.nan.
Proof. intros [H|H]; destruct x, y; try discriminate; reflexivity. Qed.

(** A comparison with a missing number is false. *)
Lemma F64_compare_missing (x y : F64.t) :
  F64.is_nan x = true \/ F64.is_nan y = true ->
  F64.gtb x y = false /\ F64.eqb x y = false /\ F64.ltb x y = false.
Proof.
  unfold F64.gtb, F64.eqb, F64.ltb, SFltb, SFeqb.
  intros [H|H]; destruct x, y; try discriminate; cbn; auto.
Qed.

Lemma F64_eqb_not_gtb (x y : F64.t) : F64.eqb x y = true -> F64.gtb x y = false.
Proof.
  unfold F64.gtb, F64.eqb, SFltb, SFeqb. rewrite (SFcompare_swap x y).
  by destruct (SFcompare x y) as [[]|].
Qed.

Lemma outcome_label_Win (gf ga : F64.t) :
  outcome_label gf ga = "Win" <-> F64.gtb gf ga = true.
Proof.
  unfold outcome_label. destruct (F64.gtb gf ga); [done|].
  destruct (F64.eqb gf ga); split; discriminate.
Qed.

Lemma outcome_label_Draw (gf ga : F64.t) :
  outcome_label gf ga = "Draw" <-> F64.eqb gf ga = true.
Proof.
  unfold outcome_label. split.
  - destruct (F64.gtb gf ga); [discriminate|]. by destruct (F64.eqb gf ga).
  - intros He. by rewrite (F64_eqb_not_gtb _ _ He), He.
Qed.

Lemma outcome_label_Loss (gf ga : F64.t) :
  outcome_label gf ga = "Loss" <-> F64.gtb gf ga = false /\ F64.eqb gf ga = false.
Proof.
  unfold outcome_label. destruct (F64.gtb gf ga), (F64.eqb gf ga); split;
    try discriminate; try tauto; intros [? ?]; discriminate.
Qed.

(** With both goal counts present, [Loss] is [goals_for < goals_against]. *)
Lemma outcome_label_Loss_present (gf ga : F64.t) :
  F64.is_nan gf = false -> F64.is_nan ga = false ->
  (outcome_label gf ga = "Loss" <-> F64.ltb gf ga = true).
Proof.
  intros Hf Ha. rewrite outcome_label_Loss.
  destruct (F64_trichotomy gf ga Hf Ha) as [(->&->&->)|[(->&->&->)|(->&->&->)]];
    split; try tauto; try discriminate; intros [? ?]; discriminate.
Qed.

(** With a goal count missing the label is [Loss], though [<] is false. *)
Lemma outcome_label_missing (gf ga : F64.t) :
  F64.is_nan gf = true \/ F64.is_nan ga = true ->
  outcome_label gf ga = "Loss" /\ F64.ltb gf ga = false.
Proof.
  intros H. destruct (F64_compare_missing gf ga H) as (Hg & He & Hl).
  split; [|done]. apply outcome_label_Loss. done.
Qed.

(** On two floats the label is that of the float comparisons. *)
Lemma outcome_of_floats (x y : F64.t) : outcome_of (CNum x) (CNum y) = outcome_label x y.
Proof. reflexivity. Qed.

(** The label of two numbers is that of the order of their values. *)
Lemma outcome_of_value_compare (a b : cell) :
  is_number a = true -> is_number b = true ->
  outcome_of a b = label_of (value_compare a b).
Proof.
  intros Ha Hb. unfold outcome_of, cell_gtb.
  destruct a as [|m|m|x| |], b as [|n|n|y| |]; try discriminate; cbn.
  1,2,4,5: by destruct (Z.ltb_spec n m), (Z.eqb_spec m n), (Z.compare_spec m n); try lia.
  1,2: by destruct (F64.compare_Z m y) as [[]|].
  1,2: by destruct (F64.compare_Z n x) as [[]|].
  unfold F64.gtb, F64.eqb, SFltb, SFeqb. rewrite (SFcompare_swap x y).
  by destruct (SFcompare x y) as [[]|].
Qed.

Lemma wrap_int64_in_range (n : Z) : in_int64 n = true -> wrap_int64 n = n.
Proof.
  unfold in_int64, wrap_int64. intros [H1 H2]%andb_true_iff.
  apply Z.leb_le in H1. apply Z.ltb_lt in H2.
  rewrite Z.mod_small by lia. lia.
Qed.

Lemma wrap_uint64_in_range (n : Z) : in_uint64 n = true -> wrap_uint64 n = n.
Proof.
  unfold in_uint64, wrap_uint64. intros [H1 H2]%andb_true_iff.
  apply Z.leb_le in H1. apply Z.ltb_lt in H2.
  by rewrite Z.mod_small by lia.
Qed.

End Ordering.

Lemma Forall_subseteq (l1 l2 : list string) : Forall (fun c => c ∈ l2) l1 -> l1 ⊆ l2.
Proof. intros Hl c Hc. by apply (proj1 (list.Forall_forall _ _) Hl). Qed.

Ltac subset_now := apply Forall_subseteq; decide_now.

Section CleanerTheorems.

Context {pd : Pandas}.

Lemma lookup_clean_row_numeric (df : DataFrame) (r : gmap string cell) (c : string) :
  c ∈ numeric_cols ->
  clean_row df r !! c = Some (coerce_at (selected df) c (project (kept_cols df) r)).
Proof.
  intros Hc. unfold numeric_cols in Hc.
  repeat (apply elem_of_cons in Hc as [->|Hc];
          [unfold clean_row, derived_row, with_diffs; lookup_simpl;
           first [apply lookup_coerced_GF | apply lookup_coerced_GA | apply lookup_coerced_xG
                 | apply lookup_coerced_xGA | apply lookup_coerced_Poss]|]).
  by apply elem_of_nil in Hc.
Qed.

Lemma lookup_clean_row_GoalDiff (df : DataFrame) (r : gmap string cell) :
  clean_row df r !! "GoalDiff"
  = Some (difference (coerce_at (selected df) "GF" (project (kept_cols df) r))
                     (coerce_at (selected df) "GA" (project (kept_cols df) r))).
Proof. unfold clean_row, derived_row, with_diffs. by lookup_simpl. Qed.

Lemma lookup_clean_row_xGDiff (df : DataFrame) (r : gmap string cell) :
  clean_row df r !! "xGDiff"
  = Some (difference (coerce_at (selected df) "xG" (project (kept_cols df) r))
                     (coerce_at (selected df) "xGA" (project (kept_cols df) r))).
Proof. unfold clean_row, derived_row, with_diffs. by lookup_simpl. Qed.

Lemma elem_of_selected (df : DataFrame) (r : gmap string cell) :
  r ∈ rows df -> project (kept_cols df) r ∈ rows (selected df).
Proof. intros Hr. unfold selected. cbn [rows]. apply list_elem_of_fmap. by exists r. Qed.

(** C8: in every row the Cleaner returns, [GF], [GA], [xG] and [xGA]
    are numbers, [GoalDiff] is the difference of the row's [GF] and [GA]
    and [xGDiff] that of its [xG] and [xGA], in the arithmetic of the two
    columns: two [int64] goal counts whose difference fits [int64] give
    that integer itself, and two floats their binary64 difference. *)
Theorem C8_differentials_exact (df out : DataFrame) (r : gmap string cell) :
  clean_matchlog df = Ok out -> r ∈ rows out ->
  exists gf ga xg xga gd xd : cell,
    r !! "GF" = Some gf /\ r !! "GA" = Some ga /\
    r !! "xG" = Some xg /\ r !! "xGA" = Some xga /\
    r !! "GoalDiff" = Some gd /\ r !! "xGDiff" = Some xd /\
    cell_sub gf ga = Ok gd /\ cell_sub xg xga = Ok xd /\
    (forall m n, gf = CInt m -> ga = CInt n -> in_int64 (m - n) = true -> gd = CInt (m - n)) /\
    (forall x y, gf = CNum x -> ga = CNum y -> gd = CNum (F64.sub x y)) /\
    (forall m n, xg = CInt m -> xga = CInt n -> in_int64 (m - n) = true -> xd = CInt (m - n)) /\
    (forall x y, xg = CNum x -> xga = CNum y -> xd = CNum (F64.sub x y)).
Proof.
  intros Hok Hr. apply clean_matchlog_Ok_inv in Hok as [_ ->].
  apply elem_of_cleaned in Hr as (r0 & Hr0 & -> & _).
  pose proof (elem_of_selected df r0 Hr0) as Hp.
  set (P := selected df) in *. set (p := project (kept_cols df) r0) in *.
  exists (coerce_at P "GF" p), (coerce_at P "GA" p), (coerce_at P "xG" p),
    (coerce_at P "xGA" p), (difference (coerce_at P "GF" p) (coerce_at P "GA" p)),
    (difference (coerce_at P "xG" p) (coerce_at P "xGA" p)).
  rewrite !lookup_clean_row_numeric by decide_now.
  rewrite lookup_clean_row_GoalDiff, lookup_clean_row_xGDiff.
  fold P p. do 6 (split; [reflexivity|]).
  split; [apply cell_sub_difference; by apply coerce_at_number|].
  split; [apply cell_sub_difference; by apply coerce_at_number|].
  repeat split.
  - intros m n -> -> Hin. cbn. by rewrite wrap_int64_in_range.
  - by intros x y -> ->.
  - intros m n -> -> Hin. cbn. by rewrite wrap_int64_in_range.
  - by intros x y -> ->.
Qed.



End CleanerTheorems.

Section CleanerExamples.

Import Toy.

(** C1: a tie decided on penalties has score cells that are no numbers;
    both goal counts come out missing and the row is labelled [Loss],
    although [goals_for < goals_against] does not hold. *)
Theorem C1_missing_goals_labelled_loss :
  exists out r,
    clean_matchlog shootout_df = Ok out /\ rows out = [r] /\
    r !! "GF" = Some (CNum F64.nan) /\ r !! "GA" = Some (CNum F64.nan) /\
    r !! "Outcome" = Some (CStr "Loss") /\
    F64.ltb F64.nan F64.nan = false.
Proof.
  exists (cleaned shootout_df),
    (clean_row (pd := Toy.pandas) shootout_df
       (fixture "2025-08-27" "1 (4)" "1 (3)" "1" "1" "48")).
  split; [apply clean_matchlog_cleaned; subset_now|].
  repeat split; vm_compute; reflexivity.
Qed.

(** C3: a table without [xG] and [xGA] makes the Cleaner raise. *)
Theorem C3_absent_numeric_column_raises :
  clean_matchlog no_xg_df = Raise (KeyError "xG").
Proof. vm_compute. reflexivity. Qed.

(** C5: the only row of a table without [xG] and [xGA] has a date that
    parses, and the Cleaner raises: there is no output to hold the row.
    The defect is that of C3. *)
Theorem C5_parseable_row_not_in_output :
  exists r,
    rows no_xg_df = [r] /\ parseable no_xg_df r = true /\
    forall out, clean_matchlog no_xg_df <> Ok out.
Proof.
  eexists. split; [reflexivity|]. split; [vm_compute; reflexivity|].
  intros out. vm_compute. discriminate.
Qed.


(** Of the three rows of the sample the one with the empty date is
    dropped. *)
Example sample_df_dropped :
  filter (fun r => parseable sample_df r = false) (rows sample_df)
  = [fixture EmptyString "1" "0" "2" "1" "60"].
Proof. vm_compute. reflexivity. Qed.

Lemma C8_witness :
  clean_matchlog sample_df = Ok (cleaned sample_df) /\
  draw_row ∈ rows (cleaned sample_df) /\
  exists gf ga xg xga gd xd : cell,
    draw_row !! "GF" = Some gf /\ draw_row !! "GA" = Some ga /\
    draw_row !! "xG" = Some xg /\ draw_row !! "xGA" = Some xga /\
    draw_row !! "GoalDiff" = Some gd /\ draw_row !! "xGDiff" = Some xd /\
    cell_sub gf ga = Ok gd /\ cell_sub xg xga = Ok xd /\
    (forall m n, gf = CInt m -> ga = CInt n -> in_int64 (m - n) = true -> gd = CInt (m - n)) /\
    (forall x y, gf = CNum x -> ga = CNum y -> gd = CNum (F64.sub x y)) /\
    (forall m n, xg = CInt m -> xga = CInt n -> in_int64 (m - n) = true -> xd = CInt (m - n)) /\
    (forall x y, xg = CNum x -> xga = CNum y -> xd = CNum (F64.sub x y)).
Proof.
  assert (Hok : clean_matchlog sample_df = Ok (cleaned sample_df))
    by (vm_compute; reflexivity).
  assert (Hr : draw_row ∈ rows (cleaned sample_df)) by decide_now.
  split; [exact Hok|]. split; [exact Hr|].
  exact (C8_differentials_exact sample_df (cleaned sample_df) _ Hok Hr).
Defined.

(** An integer and a float are compared as the numbers they are, two
    floats as floats; a difference within [int64] wraps around. *)
Example comparisons_and_wrap :
  cell_gt (CInt (2 ^ 53 + 1)) (CNum (F64.of_Z (2 ^ 53))) = Ok true /\
  cell_gt (CNum (F64.of_Z (2 ^ 53))) (CInt (2 ^ 53 + 1)) = Ok false /\
  cell_eq (CInt (2 ^ 53 + 1)) (CNum (F64.of_Z (2 ^ 53))) = false /\
  cell_eq (CNum (F64.of_Z (2 ^ 53 + 1))) (CNum (F64.of_Z (2 ^ 53))) = true /\
  cell_gt (CInt (- 1)) (CNum (F64.sub F64.zero (F64.of_Z 1))) = Ok false /\
  cell_eq (CInt (- 1)) (CNum (F64.sub F64.zero (F64.of_Z 1))) = true /\
  cell_sub (CInt (2 ^ 63 - 1)) (CInt (- 1)) = Ok (CInt (- 2 ^ 63)) /\
  cell_sub (CUInt 0) (CUInt 1) = Ok (CUInt (2 ^ 64 - 1)).
Proof. repeat split; vm_compute; reflexivity. Qed.

(** Scenario D of the specification: goals "2" and "2" give a draw and a
    goal difference of zero.  The goals column of the sample holds a
    score that is no number and is a float column; its expected goals
    are integers. *)
Example scenario_D :
  draw_row !! "Outcome" = Some (CStr "Draw") /\
  draw_row !! "GoalDiff" = Some (CNum F64.zero) /\
  draw_row !! "xG" = Some (CInt 1) /\ draw_row !! "xGDiff" = Some (CInt 0).
Proof. repeat split; vm_compute; reflexivity. Qed.

Example sample_df_two_rows_kept : length (rows (cleaned sample_df)) = 2%nat.
Proof. vm_compute. reflexivity. Qed.

End CleanerExamples.

Section FetcherTheorems.

Context {pd : Pandas}.
Variable remote : list event -> string -> reply.

Lemma extend_extend (w : World) (e1 e2 : list event) :
  extend (extend w e1) e2 = extend w (e1 ++ e2).
Proof. unfold extend. cbn. by rewrite app_assoc. Qed.

Lemma emit_extend (w : World) (e : event) : emit e w = extend w [e].
Proof. reflexivity. Qed.

Lemma retries_S (url : string) (k : nat) :
  retries url (S k) = [Get url; Sleep 60] ++ retries url k.
Proof. reflexivity. Qed.

(** One round: on 429 the call sleeps 60 seconds and calls itself on
    the same url. *)
Lemma safe_get_429 (fuel : nat) (self : FBRefDownloader) (url : string) (w : World) :
  is_429 (remote (trace w) url) ->
  safe_get remote (S fuel) self url w
  = safe_get remote fuel self url (extend w [Get url; Sleep 60]).
Proof.
  intros (r & Hr & Hs). cbn [safe_get]. rewrite Hr, Hs. cbn.
  rewrite !emit_extend, extend_extend. reflexivity.
Qed.

Lemma safe_get_settle (fuel : nat) (self : FBRefDownloader) (url : string) (w : World) :
  ~ is_429 (remote (trace w) url) ->
  safe_get remote (S fuel) self url w
  = Some ((settle self url (remote (trace w) url)).1,
          extend w (settle self url (remote (trace w) url)).2).
Proof.
  intros Hn. cbn [safe_get]. unfold settle.
  destruct (remote (trace w) url) as [r|] eqn:Hr.
  - destruct (status_code r =? 429) eqn:E429.
    { exfalso. apply Hn. exists r. split; [done|]. by apply Z.eqb_eq. }
    destruct (status_code r =? 200) eqn:E200; cbn;
      rewrite !emit_extend, ?extend_extend; reflexivity.
  - cbn. rewrite !emit_extend, extend_extend. reflexivity.
Qed.

(** [k] rounds of rate limiting, then a reply that settles the call. *)
Lemma safe_get_retries (k fuel : nat) (self : FBRefDownloader) (url : string) (w : World) :
  (forall j, (j < k)%nat -> is_429 (remote (trace w ++ retries url j) url)) ->
  ~ is_429 (remote (trace w ++ retries url k) url) ->
  let o := remote (trace w ++ retries url k) url in
  safe_get remote (S k + fuel) self url w
  = Some ((settle self url o).1, extend w (retries url k ++ (settle self url o).2)).
Proof.
  revert w. induction k as [|k IH]; intros w H429 Hlast o.
  - subst o. cbn [retries replicate concat] in *. rewrite app_nil_r in *.
    cbn [Nat.add]. by rewrite safe_get_settle.
  - change (S (S k) + fuel)%nat with (S (S k + fuel)).
    rewrite safe_get_429.
    2:{ specialize (H429 0%nat ltac:(lia)). cbn in H429. by rewrite app_nil_r in H429. }
    assert (Ht : forall j, trace (extend w [Get url; Sleep 60]) ++ retries url j
                           = trace w ++ retries url (S j)).
    { intros j. cbn [trace extend]. by rewrite retries_S, app_assoc. }
    rewrite IH.
    + rewrite Ht. fold o. rewrite extend_extend, retries_S, app_assoc. reflexivity.
    + intros j Hj. rewrite Ht. apply H429. lia.
    + by rewrite Ht.
Qed.

(** C4: after [k] answers 429 and then an answer 200, [safe_get] has
    slept 60 seconds after each 429, has asked for the same url again
    each time, and returns the 200 response; for [k = 1] that is one
    wait of 60 seconds. *)
Theorem C4_rate_limit_wait_and_retry (k fuel : nat) (self : FBRefDownloader)
    (url : string) (w : World) (r : Response) :
  (forall j, (j < k)%nat -> is_429 (remote (trace w ++ retries url j) url)) ->
  remote (trace w ++ retries url k) url = Answered r ->
  status_code r = 200 ->
  safe_get remote (S k + fuel) self url w
  = Some (Some r,
          {| fs := fs w;
             trace := trace w ++ retries url k
                        ++ [Get url; SleepUniform (delay_range self).1 (delay_range self).2] |}).
Proof.
  intros H429 Hr Hs.
  rewrite safe_get_retries; [|done|].
  - rewrite Hr. cbn [settle]. rewrite Hs. reflexivity.
  - rewrite Hr. intros (r' & [= <-] & Hs'). congruence.
Qed.

(** C9: a status other than 200 and 429 makes [safe_get] return [None]
    after its one request; an exception in the request makes it sleep 10
    seconds and return [None]; in neither case is the url asked again. *)
Theorem C9_no_retry_on_error (fuel : nat) (self : FBRefDownloader) (url : string)
    (w : World) :
  (forall r, remote (trace w) url = Answered r ->
             status_code r <> 200 -> status_code r <> 429 ->
             safe_get remote (S fuel) self url w
             = Some (None, {| fs := fs w; trace := trace w ++ [Get url] |}))
  /\ (remote (trace w) url = Failed ->
      safe_get remote (S fuel) self url w
      = Some (None, {| fs := fs w; trace := trace w ++ [Get url; Sleep 10] |})).
Proof.
  split.
  - intros r Hr H200 H429. rewrite safe_get_settle.
    + rewrite Hr. cbn [settle]. apply Z.eqb_neq in H200. by rewrite H200.
    + rewrite Hr. intros (r' & [= <-] & ?). done.
  - intros Hf. rewrite safe_get_settle.
    + by rewrite Hf.
    + rewrite Hf. by intros (r' & ? & ?).
Qed.

End FetcherTheorems.

Section DownloaderTheorems.

Context {pd : Pandas}.
Variable remote : list event -> string -> reply.

Lemma unusable_not_429 (o : reply) : unusable o -> ~ is_429 o.
Proof. intros Hu (r & -> & Hs). cbn in Hu. tauto. Qed.

(** [safe_get] only appends to the trace, starting with its request,
    and leaves the disk alone. *)
Lemma safe_get_trace (fuel : nat) (self : FBRefDownloader) (url : string)
    (w w' : World) (res : option Response) :
  safe_get remote fuel self url w = Some (res, w') ->
  fs w' = fs w /\ exists evs, trace w' = trace w ++ Get url :: evs.
Proof.
  revert w. induction fuel as [|fuel IH]; intros w Hs; [discriminate|].
  cbn [safe_get] in Hs.
  destruct (remote (trace w) url) as [r|].
  - destruct (status_code r =? 429).
    + apply IH in Hs as [Hfs [evs Ht]]. split; [done|].
      cbn in Ht. rewrite <- !app_assoc in Ht. cbn in Ht. eauto.
    + destruct (negb (status_code r =? 200)); injection Hs as <- <-;
        (split; [done|]); cbn; rewrite <- ?app_assoc; cbn; eauto.
  - injection Hs as <- <-. split; [done|]. cbn. rewrite <- app_assoc. cbn. eauto.
Qed.

Lemma fetch_season_trace (fuel : nat) (self : FBRefDownloader) (team tid season : string)
    (logs logs' : list DataFrame) (w w' : World) :
  fetch_season remote fuel self team tid season logs w = Some (logs', w') ->
  fs w' = fs w /\
  exists evs, trace w' = trace w ++ Get (matchlog_url team tid season) :: evs.
Proof.
  unfold fetch_season. intros Hf.
  destruct (safe_get remote fuel self _ w) as [[res w1]|] eqn:Hs; [|discriminate].
  apply safe_get_trace in Hs.
  destruct res as [resp|]; [|by injection Hf as <- <-].
  destruct (read_html (content resp)) as [[|t ts]|]; by injection Hf as <- <-.
Qed.

Lemma fetch_seasons_fs (fuel : nat) (self : FBRefDownloader) (team tid : string)
    (seasons : list string) (logs logs' : list DataFrame) (w w' : World) :
  fetch_seasons remote fuel self team tid seasons logs w = Some (logs', w') ->
  fs w' = fs w /\ exists evs, trace w' = trace w ++ evs.
Proof.
  revert logs w. induction seasons as [|s seasons IH]; intros logs w Hf; cbn in Hf.
  - injection Hf as <- <-. split; [done|]. exists []. by rewrite app_nil_r.
  - destruct (fetch_season remote fuel self team tid s logs w) as [[l1 w1]|] eqn:H1;
      [|discriminate].
    apply fetch_season_trace in H1 as [Hfs1 [e1 Ht1]].
    apply IH in Hf as [Hfs2 [e2 Ht2]].
    split; [congruence|]. rewrite Ht2, Ht1, <- app_assoc. eauto.
Qed.

(** A season whose fetch fails leaves [all_logs] as it was. *)
Lemma fetch_season_fails (fuel : nat) (self : FBRefDownloader) (team tid season : string)
    (logs : list DataFrame) (w : World) (k : nat) :
  fails_at remote fuel (matchlog_url team tid season) (trace w) k ->
  exists w',
    fetch_season remote fuel self team tid season logs w = Some (logs, w') /\
    fs w' = fs w /\
    trace w' = after_failure remote self (matchlog_url team tid season) (trace w) k.
Proof.
  intros (Hk & H429 & Hu).
  unfold fetch_season, after_failure.
  replace fuel with (S k + (fuel - S k))%nat by lia.
  rewrite safe_get_retries; [|done|by apply unusable_not_429].
  destruct (remote (trace w ++ retries _ k) _) as [r|]; cbn [settle]; [|by eexists].
  cbn in Hu. destruct Hu as [_ Hu].
  destruct (status_code r =? 200) eqn:E; cbn [fst snd]; [|by eexists].
  apply Z.eqb_eq in E.
  destruct Hu as [Hu|[-> | ->]]; [done|by eexists..].
Qed.

Lemma fetch_seasons_fail (fuel : nat) (self : FBRefDownloader) (team tid : string)
    (seasons rest : list string) (logs : list DataFrame) (w : World) :
  all_fail remote fuel self (season_urls team tid seasons ++ rest) (trace w) ->
  exists w',
    fetch_seasons remote fuel self team tid seasons logs w = Some (logs, w') /\
    fs w' = fs w /\ all_fail remote fuel self rest (trace w').
Proof.
  revert w. induction seasons as [|s seasons IH]; intros w Hall; cbn; [by eexists|].
  cbn in Hall. destruct Hall as (k & Hk & Hall).
  destruct (fetch_season_fails fuel self team tid s logs w k Hk) as (w1 & -> & Hfs1 & Ht1).
  rewrite <- Ht1 in Hall.
  destruct (IH w1 Hall) as (w' & Hf & Hfs & Hrest).
  exists w'. split; [done|]. split; [congruence|done].
Qed.

(** C2: with a cache file on disk [download_matchlogs] returns what
    [read_csv] makes of it and does nothing else: no request, no sleep,
    no write, whatever the seasons asked for; a second run, for any
    seasons, finds the same world and returns the same. *)
Theorem C2_cache_short_circuits (self : FBRefDownloader) (team tid : string)
    (w : World) (c : Content) :
  fs w !! file_path team = Some c ->
  forall (fuel : nat) (seasons : list string),
    download_matchlogs remote fuel self team tid seasons w = Some (Ok (read_csv c), w).
Proof. intros Hc fuel seasons. unfold download_matchlogs. by rewrite Hc. Qed.

(** C10: without a cache file, when every season requested fails or
    has no table, each at the point of the run at which it is requested,
    [download_matchlogs] returns [None] and the disk is as it was; the
    cache file is still absent, and a later run that is asked for a
    season sends a request for it. *)
Theorem C10_total_failure_writes_nothing (fuel : nat) (self : FBRefDownloader)
    (team tid : string) (seasons : list string) (w : World) :
  fs w !! file_path team = None ->
  all_fail remote fuel self (season_urls team tid seasons) (trace w) ->
  exists w',
    download_matchlogs remote fuel self team tid seasons w = Some (Ok None, w') /\
    fs w' = fs w /\
    fs w' !! file_path team = None /\
    forall fuel2 self2 season seasons2 res w2,
      download_matchlogs remote fuel2 self2 team tid (season :: seasons2) w' = Some (res, w2) ->
      exists evs, trace w2 = trace w' ++ Get (matchlog_url team tid season) :: evs.
Proof.
  intros Hnone Hall.
  destruct (fetch_seasons_fail fuel self team tid seasons [] [] w) as (w' & Hf & Hfs & _);
    [by rewrite app_nil_r|].
  exists w'. unfold download_matchlogs. rewrite Hnone, Hf.
  split; [done|]. split; [done|]. split; [by rewrite Hfs|].
  intros fuel2 self2 season seasons2 res w2. rewrite Hfs, Hnone. cbn [fetch_seasons].
  destruct (fetch_season remote fuel2 self2 team tid season [] w') as [[l1 w1]|] eqn:H1;
    [|discriminate].
  apply fetch_season_trace in H1 as [_ [e1 Ht1]].
  destruct (fetch_seasons remote fuel2 self2 team tid seasons2 l1 w1) as [[l2 w3]|] eqn:H2;
    [|discriminate].
  apply fetch_seasons_fs in H2 as [_ [e2 Ht2]].
  assert (Ht : trace w3 = trace w' ++ Get (matchlog_url team tid season) :: (e1 ++ e2))
    by (rewrite Ht2, Ht1, <- app_assoc; reflexivity).
  destruct l2 as [|df l2].
  - intros [= <- <-]. eauto.
  - destruct (pd_concat (df :: l2)); intros [= <- <-]; cbn [trace write_file]; eauto.
Qed.

End DownloaderTheorems.

Section MergerTheorems.

Context {pd : Pandas}.

Lemma elem_of_union_labels (seen l : list string) (c : string) :
  c ∈ union_labels seen l <-> c ∈ seen \/ c ∈ l.
Proof.
  revert seen. induction l as [|x l IH]; intros seen; cbn [union_labels].
  - rewrite elem_of_nil. tauto.
  - rewrite elem_of_cons. case_bool_decide as Hx.
    + rewrite IH. split; [tauto|]. intros [?|[->|?]]; tauto.
    + rewrite IH, elem_of_app, list_elem_of_singleton. tauto.
Qed.

Lemma lookup_reindex (cols : list string) (r : gmap string cell) (c : string) :
  c ∈ cols -> reindex cols r !! c = Some (cell_at c r).
Proof.
  unfold reindex. induction cols as [|x cols IH]; intros Hc; [by apply elem_of_nil in Hc|].
  cbn [map]. rewrite list_to_map_cons. destruct (decide (x = c)) as [->|Hne].
  - by rewrite lookup_insert_eq.
  - rewrite lookup_insert_ne by done. apply IH.
    apply elem_of_cons in Hc as [->|Hc]; [done|done].
Qed.

Lemma reindex_keeps (cols : list string) (r : gmap string cell) (c : string) (v : cell) :
  c ∈ cols -> r !! c = Some v -> reindex cols r !! c = Some v.
Proof. intros Hc Hv. rewrite lookup_reindex by done. unfold cell_at. by rewrite Hv. Qed.

Lemma columns_concat_frames (dfs : list DataFrame) (df : DataFrame) (c : string) :
  df ∈ dfs -> c ∈ columns df -> c ∈ columns (concat_frames dfs).
Proof.
  intros Hdf Hc. unfold concat_frames. cbn [columns].
  apply elem_of_union_labels. right.
  apply list_elem_of_In, in_concat. exists (columns df).
  split; [apply in_map; by apply list_elem_of_In|by apply list_elem_of_In].
Qed.

Lemma length_rows_concat_frames (dfs : list DataFrame) :
  length (rows (concat_frames dfs)) = sum_list (map (fun df => length (rows df)) dfs).
Proof.
  unfold concat_frames. cbn [rows].
  generalize (union_labels [] (concat (map columns dfs))). intros cols.
  induction dfs as [|df dfs IH]; [reflexivity|].
  cbn [map concat sum_list]. rewrite length_app, length_map, IH. reflexivity.
Qed.

(** C6, amended: merging a non-empty list of datasets returns a
    dataset whose size is the sum of their sizes; its rows are the rows
    of the datasets, dataset after dataset and in the order of each, laid
    out on the union of the labels; every cell a row had under a label of
    its dataset, its team and season among them, is unchanged. *)
Theorem C6_merge_additive (dfs : list DataFrame) (w : World) :
  dfs <> [] ->
  exists combined,
    merge_teams dfs w
    = (Ok combined, write_file "data/all_teams_training_data.csv" (to_csv combined) w) /\
    length (rows combined) = sum_list (map (fun df => length (rows df)) dfs) /\
    rows combined = concat (map (fun df => map (reindex (columns combined)) (rows df)) dfs) /\
    forall df r c v, df ∈ dfs -> c ∈ columns df -> r !! c = Some v ->
                     reindex (columns combined) r !! c = Some v.
Proof.
  intros Hne. exists (concat_frames dfs).
  split; [|split; [apply length_rows_concat_frames|split; [reflexivity|]]].
  - unfold merge_teams, merge_to, pd_concat. by destruct dfs.
  - intros df r c v Hdf Hc Hv. apply reindex_keeps; [|done].
    by apply (columns_concat_frames dfs df).
Qed.

End MergerTheorems.

Section PipelineInvariant.

Context {pd : Pandas}.
Variable remote : list event -> string -> reply.

Lemma setitem_scalar_rows (df : DataFrame) (c : string) (v : cell) :
  df_setitem_scalar df c v
  = mkFrame (add_label c (columns df)) (map (fun r => <[c := v]> r) (rows df)).
Proof.
  unfold df_setitem_scalar. destruct df as [cols rs]. cbn [rows columns].
  rewrite <- (map_id rs) at 1. rewrite setitem_map. reflexivity.
Qed.

Lemma elem_of_add_label (c x : string) (cols : list string) :
  x ∈ add_label c cols <-> x = c \/ x ∈ cols.
Proof.
  unfold add_label. case_bool_decide.
  - split; [tauto|]. by intros [->|?].
  - rewrite elem_of_app, list_elem_of_singleton. tauto.
Qed.

Lemma filled_setitem_scalar (df : DataFrame) (c : string) (s : string) :
  filled c (df_setitem_scalar df c (CStr s)).
Proof.
  rewrite setitem_scalar_rows. split; cbn [columns rows].
  - apply elem_of_add_label. by left.
  - apply Forall_map, Forall_true. intros r. cbn. by rewrite lookup_insert_eq.
Qed.

Lemma filled_setitem_scalar_other (df : DataFrame) (c c' : string) (v : cell) :
  c <> c' -> filled c df -> filled c (df_setitem_scalar df c' v).
Proof.
  intros Hne [Hc Hr]. rewrite setitem_scalar_rows. split; cbn [columns rows].
  - apply elem_of_add_label. by right.
  - apply Forall_map. eapply Forall_impl; [exact Hr|].
    intros r Hn. cbn. by rewrite lookup_insert_ne.
Qed.

Lemma filled_concat_frames (c : string) (dfs : list DataFrame) :
  dfs <> [] -> Forall (filled c) dfs -> filled c (concat_frames dfs).
Proof.
  intros Hne Hall.
  assert (Hc : c ∈ columns (concat_frames dfs)).
  { destruct dfs as [|df dfs]; [done|].
    apply (columns_concat_frames _ df); [left|].
    by apply Forall_cons in Hall as [[? _] _]. }
  split; [done|].
  change (rows (concat_frames dfs))
    with (concat (map (fun df => map (reindex (columns (concat_frames dfs))) (rows df)) dfs)).
  revert Hc. generalize (columns (concat_frames dfs)). intros cols Hc.
  clear Hne. induction Hall as [|df dfs [_ Hr] _ IH]; [constructor|].
  cbn [map concat]. apply Forall_app. split; [|exact IH].
  apply Forall_map. eapply Forall_impl; [exact Hr|].
  intros r. cbn. destruct (r !! c) as [v|] eqn:E; [|done].
  by rewrite (reindex_keeps cols r c v).
Qed.

(** The Cleaner leaves no row without a date. *)
Lemma filled_cleaned_Date (df : DataFrame) :
  "Date" ∈ columns df -> filled "Date" (cleaned df).
Proof.
  intros Hd. split.
  - unfold cleaned. cbn [columns]. apply elem_of_app. left.
    apply elem_of_kept_cols. split; [done|decide_now].
  - apply list.Forall_forall. intros r (r0 & _ & -> & Hna)%elem_of_cleaned.
    unfold cell_at in Hna. unfold clean_row in *. rewrite lookup_insert_eq in *.
    exact Hna.
Qed.

(** The Cleaner keeps the team and season cells. *)
Lemma lookup_clean_row_tag (df : DataFrame) (r : gmap string cell) (c : string) :
  c ∈ kept_cols df -> c ∉ numeric_cols -> c ∉ derived_cols -> c <> "Date" ->
  clean_row df r !! c = r !! c.
Proof.
  intros Hc Hn Hd HD. unfold clean_row, derived_row, with_diffs.
  rewrite !lookup_insert_ne; [|intros <-; apply Hd; decide_now..|congruence].
  rewrite lookup_coerced_other by done. by apply lookup_project.
Qed.

Lemma filled_cleaned_tag (c : string) (df : DataFrame) :
  c ∈ useful_cols -> c ∉ numeric_cols -> c ∉ derived_cols -> c <> "Date" ->
  filled c df -> filled c (cleaned df).
Proof.
  intros Hu Hn Hd HD [Hc Hr].
  assert (Hk : c ∈ kept_cols df) by (by apply elem_of_kept_cols).
  split.
  - unfold cleaned. cbn [columns]. apply elem_of_app. by left.
  - apply list.Forall_forall. intros r (r0 & Hr0 & -> & _)%elem_of_cleaned.
    rewrite lookup_clean_row_tag by done.
    by apply (proj1 (list.Forall_forall _ _) Hr).
Qed.

Lemma tagged_cleaned (df : DataFrame) : tagged df -> tagged (cleaned df).
Proof.
  intros [Ht Hs]. split; apply filled_cleaned_tag; first [done | decide_now].
Qed.

(** The frames the extractor collects carry the tags of the call. *)
Lemma fetch_season_tagged (fuel : nat) (self : FBRefDownloader) (team tid season : string)
    (logs logs' : list DataFrame) (w w' : World) :
  fetch_season remote fuel self team tid season logs w = Some (logs', w') ->
  Forall tagged logs -> Forall tagged logs'.
Proof.
  unfold fetch_season. intros Hf Hl.
  destruct (safe_get remote fuel self _ w) as [[[resp|] w1]|]; [| |discriminate].
  - destruct (read_html (content resp)) as [[|t ts]|]; injection Hf as <- <-; try done.
    apply Forall_app. split; [done|]. constructor; [|constructor].
    split.
    + apply filled_setitem_scalar.
    + apply filled_setitem_scalar_other; [done|]. apply filled_setitem_scalar.
  - by injection Hf as <- <-.
Qed.

Lemma fetch_seasons_tagged (fuel : nat) (self : FBRefDownloader) (team tid : string)
    (seasons : list string) (logs logs' : list DataFrame) (w w' : World) :
  fetch_seasons remote fuel self team tid seasons logs w = Some (logs', w') ->
  Forall tagged logs -> Forall tagged logs'.
Proof.
  revert logs w. induction seasons as [|s seasons IH]; intros logs w Hf Hl; cbn in Hf.
  - by injection Hf as <- <-.
  - destruct (fetch_season remote fuel self team tid s logs w) as [[l1 w1]|] eqn:H1;
      [|discriminate].
    eapply IH; [exact Hf|]. by eapply fetch_season_tagged.
Qed.

Lemma tagged_concat_frames (dfs : list DataFrame) :
  dfs <> [] -> Forall tagged dfs -> tagged (concat_frames dfs).
Proof.
  intros Hne Hall. split; apply filled_concat_frames; try done;
    eapply Forall_impl; try exact Hall; by intros df [? ?].
Qed.

(** What [download_matchlogs] returns is tagged when the cache file of
    the team is, and no other file than that one is touched. *)
Lemma download_matchlogs_tagged (fuel : nat) (self : FBRefDownloader) (team tid : string)
    (seasons : list string) (w w' : World) (df : DataFrame) :
  (forall c df0, fs w !! file_path team = Some c -> read_csv c = Some df0 -> tagged df0) ->
  download_matchlogs remote fuel self team tid seasons w = Some (Ok (Some df), w') ->
  tagged df.
Proof.
  intros Hcache. unfold download_matchlogs.
  destruct (fs w !! file_path team) as [c|] eqn:Hc.
  - intros [= Hr <-]. by apply (Hcache c).
  - destruct (fetch_seasons remote fuel self team tid seasons [] w) as [[logs w1]|] eqn:Hf;
      [|discriminate].
    pose proof (fetch_seasons_tagged _ _ _ _ _ _ _ _ _ Hf (List.Forall_nil _)) as Hl.
    destruct logs as [|l0 logs]; [discriminate|].
    cbn [pd_concat]. intros [= <- <-]. by apply tagged_concat_frames.
Qed.

Lemma download_matchlogs_other_files (fuel : nat) (self : FBRefDownloader)
    (team tid : string) (seasons : list string) (w w' : World)
    (res : result (option DataFrame)) (p : string) :
  download_matchlogs remote fuel self team tid seasons w = Some (res, w') ->
  p <> file_path team -> fs w' !! p = fs w !! p.
Proof.
  unfold download_matchlogs. intros Hd Hp.
  destruct (fs w !! file_path team) as [c|]; [by injection Hd as _ <-|].
  destruct (fetch_seasons remote fuel self team tid seasons [] w) as [[logs w1]|] eqn:Hf;
    [|discriminate].
  apply fetch_seasons_fs in Hf as [Hfs _].
  destruct logs as [|l0 logs]; [injection Hd as _ <-; by rewrite Hfs|].
  cbn [pd_concat] in Hd. injection Hd as _ <-. cbn [fs write_file].
  by rewrite lookup_insert_ne, Hfs by done.
Qed.

Lemma download_matchlogs_None_fs (fuel : nat) (self : FBRefDownloader) (team tid : string)
    (seasons : list string) (w w' : World) :
  download_matchlogs remote fuel self team tid seasons w = Some (Ok None, w') ->
  fs w' = fs w.
Proof.
  unfold download_matchlogs.
  destruct (fs w !! file_path team) as [c|]; [by intros [= _ <-]|].
  destruct (fetch_seasons remote fuel self team tid seasons [] w) as [[logs w1]|] eqn:Hf;
    [|discriminate].
  apply fetch_seasons_fs in Hf as [Hfs _].
  destruct logs as [|l0 logs]; [by intros [= <-]|].
  cbn [pd_concat]. discriminate.
Qed.

Lemma collect_dated (fuel : nat) (self : FBRefDownloader) (teams : list (string * string))
    (seasons : list string) (dfs dfs' : list DataFrame) (w w' : World) :
  collect remote fuel self teams seasons dfs w = Some (Ok dfs', w') ->
  Forall (filled "Date") dfs -> Forall (filled "Date") dfs'.
Proof.
  revert dfs w. induction teams as [|[team tid] teams IH]; intros dfs w Hc Hd; cbn in Hc.
  - by injection Hc as <- <-.
  - destruct (download_matchlogs remote fuel self team tid seasons w)
      as [[[[df|]|e] w1]|]; [| |discriminate..].
    + destruct (clean_matchlog df) as [cleaned_df|e] eqn:Hcl; [|discriminate].
      eapply IH; [exact Hc|]. apply Forall_app. split; [done|].
      constructor; [|constructor].
      apply clean_matchlog_Ok_inv in Hcl as [Hreq ->].
      apply filled_cleaned_Date. apply Hreq. decide_now.
    + by eapply IH.
Qed.

Lemma collect_tagged (fuel : nat) (self : FBRefDownloader) (teams : list (string * string))
    (seasons : list string) (dfs dfs' : list DataFrame) (w w' : World) :
  distinct_caches teams -> cache_tagged teams (fs w) ->
  collect remote fuel self teams seasons dfs w = Some (Ok dfs', w') ->
  Forall tagged dfs -> Forall tagged dfs'.
Proof.
  revert dfs w.
  induction teams as [|[team tid] teams IH]; intros dfs w Hnd Hcache Hc Hd; cbn in Hc.
  - by injection Hc as <- <-.
  - apply NoDup_cons in Hnd as [Hnew Hnd]. cbn [fst] in Hnew.
    destruct (download_matchlogs remote fuel self team tid seasons w)
      as [[r1 w1]|] eqn:Hdl; [|discriminate].
    assert (Hcache1 : cache_tagged teams (fs w1)).
    { intros t c df Ht Hp. apply (Hcache t c df); [by right|].
      rewrite <- Hp. symmetry.
      apply (download_matchlogs_other_files _ _ _ _ _ _ _ _ _ Hdl).
      intros Heq. apply Hnew. rewrite <- Heq.
      apply list_elem_of_fmap. by exists t. }
    destruct r1 as [[df|]|e]; [| |discriminate].
    + apply download_matchlogs_tagged in Hdl as Ht.
      2:{ intros c df0. apply (Hcache (team, tid)). left. }
      destruct (clean_matchlog df) as [cleaned_df|e] eqn:Hcl; [|discriminate].
      eapply IH; [exact Hnd|exact Hcache1|exact Hc|]. apply Forall_app. split; [done|].
      constructor; [|constructor].
      apply clean_matchlog_Ok_inv in Hcl as [_ ->]. by apply tagged_cleaned.
    + by eapply IH.
Qed.

(** C7, amended: every row of the combined dataset has a date; it has a
    team and a season as well when no two teams of the run share a cache
    file and the cache file of every team, where there is one that can
    be read, holds a tagged dataset: rows fetched in the run are tagged
    by the extractor, rows loaded from a cache file come as the file has
    them. *)
Theorem C7_combined_rows_dated_and_tagged (fuel : nat) (self : FBRefDownloader)
    (out : string) (teams : list (string * string)) (seasons : list string)
    (w w' : World) (combined : DataFrame) :
  run remote fuel self out teams seasons w = Some (Ok (Some combined), w') ->
  Forall (fun r : gmap string cell => nonnull (r !! "Date")) (rows combined) /\
  (distinct_caches teams -> cache_tagged teams (fs w) ->
   Forall (fun r : gmap string cell => nonnull (r !! "Team") /\ nonnull (r !! "Season"))
          (rows combined)).
Proof.
  unfold run. intros Hrun.
  destruct (collect remote fuel self teams seasons [] w) as [[[dfs|e] w1]|] eqn:Hc;
    [| discriminate..].
  destruct dfs as [|df dfs]; [discriminate|].
  unfold merge_to in Hrun. cbn [pd_concat] in Hrun. injection Hrun as <- _.
  split.
  - apply (filled_concat_frames "Date"); [done|].
    by apply (collect_dated _ _ _ _ _ _ _ _ Hc).
  - intros Hnd Hcache.
    assert (Ht : tagged (concat_frames (df :: dfs))).
    { apply tagged_concat_frames; [done|].
      by apply (collect_tagged _ _ _ _ _ _ _ _ Hnd Hcache Hc). }
    destruct Ht as [[_ HT] [_ HS]].
    apply list.Forall_forall. intros r Hr. split.
    + by apply (proj1 (list.Forall_forall _ _) HT).
    + by apply (proj1 (list.Forall_forall _ _) HS).
Qed.

End PipelineInvariant.

Lemma returned_frame_eq {pd : Pandas} (res : option (result (option DataFrame) * World))
    (w : World) :
  returned_frame res = true ->
  res = Some (Ok (Some (result_frame res)), result_world res w).
Proof. destruct res as [[[[df|]|e] w']|]; cbn; intros; try discriminate. reflexivity. Qed.

Section PipelineExamples.

Import Toy.

Lemma C2_witness :
  fs cached_world !! file_path "Qarabag-FK" = Some sample_df /\
  forall (fuel : nat) (seasons : list string),
    download_matchlogs remote_down fuel (new_downloader (2, 6)) "Qarabag-FK" "44b65410"
      seasons cached_world
    = Some (Ok (read_csv sample_df), cached_world).
Proof.
  assert (Hc : fs cached_world !! file_path "Qarabag-FK" = Some sample_df)
    by (vm_compute; reflexivity).
  split; [exact Hc|].
  exact (C2_cache_short_circuits remote_down (new_downloader (2, 6)) "Qarabag-FK"
           "44b65410" cached_world sample_df Hc).
Defined.

(** Scenario B of the specification. *)
Lemma C4_witness :
  (forall j, (j < 1)%nat -> is_429 (remote_429_once (trace world0 ++ retries "u" j) "u")) /\
  remote_429_once (trace world0 ++ retries "u" 1) "u" = Answered (mkResponse 200 "2025-08-19") /\
  status_code (mkResponse 200 "2025-08-19") = 200 /\
  safe_get remote_429_once 2 (new_downloader (2, 6)) "u" world0
  = Some (Some (mkResponse 200 "2025-08-19"),
          {| fs := ∅;
             trace := [Get "u"; Sleep 60; Get "u"; SleepUniform 2 6] |}).
Proof.
  assert (H429 : forall j, (j < 1)%nat ->
                   is_429 (remote_429_once (trace world0 ++ retries "u" j) "u")).
  { intros j Hj. assert (j = 0%nat) as -> by lia. eexists. split; reflexivity. }
  split; [exact H429|]. split; [reflexivity|]. split; [reflexivity|].
  exact (C4_rate_limit_wait_and_retry remote_429_once 1 0 (new_downloader (2, 6)) "u" world0
           (mkResponse 200 "2025-08-19") H429 eq_refl eq_refl).
Defined.

Lemma C9_witness :
  (remote_404 (trace world0) "u" = Answered (mkResponse 404 EmptyString) /\
   status_code (mkResponse 404 EmptyString) <> 200 /\
   status_code (mkResponse 404 EmptyString) <> 429 /\
   safe_get remote_404 1 (new_downloader (2, 6)) "u" world0
   = Some (None, {| fs := ∅; trace := [Get "u"] |}))
  /\ (remote_down (trace world0) "u" = Failed /\
      safe_get remote_down 1 (new_downloader (2, 6)) "u" world0
      = Some (None, {| fs := ∅; trace := [Get "u"; Sleep 10] |})).
Proof.
  assert (H200 : status_code (mkResponse 404 EmptyString) <> 200) by (cbn; lia).
  assert (H429 : status_code (mkResponse 404 EmptyString) <> 429) by (cbn; lia).
  split.
  - split; [reflexivity|]. split; [exact H200|]. split; [exact H429|].
    exact (proj1 (C9_no_retry_on_error remote_404 0 (new_downloader (2, 6)) "u" world0)
             (mkResponse 404 EmptyString) eq_refl H200 H429).
  - split; [reflexivity|].
    exact (proj2 (C9_no_retry_on_error remote_down 0 (new_downloader (2, 6)) "u" world0)
             eq_refl).
Defined.

(** Both seasons fail while the server is out of order; the run writes
    nothing, and a later run, for which the server has recovered, gets
    the data. *)
Lemma C10_witness :
  fs world0 !! file_path "Kairat" = None /\
  all_fail remote_recovers 1 (new_downloader (2, 6))
    (season_urls "Kairat" "768fb565" ["2023-2024"; "2024-2025"]) (trace world0) /\
  exists w',
    download_matchlogs remote_recovers 1 (new_downloader (2, 6)) "Kairat" "768fb565"
      ["2023-2024"; "2024-2025"] world0 = Some (Ok None, w') /\
    fs w' = fs world0 /\
    fs w' !! file_path "Kairat" = None /\
    forall fuel2 self2 season seasons2 res w2,
      download_matchlogs remote_recovers fuel2 self2 "Kairat" "768fb565"
        (season :: seasons2) w' = Some (res, w2) ->
      exists evs, trace w2 = trace w' ++ Get (matchlog_url "Kairat" "768fb565" season) :: evs.
Proof.
  assert (Hnone : fs world0 !! file_path "Kairat" = None) by (vm_compute; reflexivity).
  assert (Hfail : all_fail remote_recovers 1 (new_downloader (2, 6))
                    (season_urls "Kairat" "768fb565" ["2023-2024"; "2024-2025"])
                    (trace world0)).
  { exists 0%nat. split.
    { split; [lia|]. split; [intros j Hj; lia|]. cbn. split; [lia|]. left. lia. }
    exists 0%nat. split; [|exact I].
    split; [lia|]. split; [intros j Hj; lia|]. cbn. split; [lia|]. left. lia. }
  split; [exact Hnone|]. split; [exact Hfail|].
  exact (C10_total_failure_writes_nothing remote_recovers 1 (new_downloader (2, 6)) "Kairat"
           "768fb565" ["2023-2024"; "2024-2025"] world0 Hnone Hfail).
Defined.

Example failed_run_world :
  download_matchlogs remote_recovers 1 (new_downloader (2, 6)) "Kairat" "768fb565"
    ["2023-2024"; "2024-2025"] world0 = Some (Ok None, failed_world).
Proof. reflexivity. Qed.

Example later_run_gets_data :
  returned_frame (download_matchlogs remote_recovers 1 (new_downloader (2, 6)) "Kairat"
                    "768fb565" ["2023-2024"; "2024-2025"] failed_world) = true.
Proof. vm_compute. reflexivity. Qed.

(** The empty list of datasets: [pd.concat] raises. *)
Lemma C6_counterexample :
  merge_teams [] world0 = (Raise ValueError, world0).
Proof. reflexivity. Qed.

Lemma C6_witness :
  [cleaned sample_df; cleaned shootout_df] <> [] /\
  exists combined,
    merge_teams [cleaned sample_df; cleaned shootout_df] world0
    = (Ok combined,
       write_file "data/all_teams_training_data.csv" (to_csv combined) world0) /\
    length (rows combined)
    = sum_list (map (fun df => length (rows df)) [cleaned sample_df; cleaned shootout_df]) /\
    rows combined
    = concat (map (fun df => map (reindex (columns combined)) (rows df))
                  [cleaned sample_df; cleaned shootout_df]) /\
    forall df r c v, df ∈ [cleaned sample_df; cleaned shootout_df] -> c ∈ columns df ->
                     r !! c = Some v -> reindex (columns combined) r !! c = Some v.
Proof.
  assert (Hne : [cleaned sample_df; cleaned shootout_df] <> []) by discriminate.
  split; [exact Hne|].
  exact (C6_merge_additive [cleaned sample_df; cleaned shootout_df] world0 Hne).
Defined.

(** Scenario C of the specification, at size 2 + 1. *)
Example merged_sizes :
  length (rows (concat_frames [cleaned sample_df; cleaned shootout_df])) = 3%nat.
Proof. vm_compute. reflexivity. Qed.

(** One team is fetched, the other is read from a cache file that has
    no [Team] and no [Season] column: its row is in the combined dataset
    with both cells missing. *)
Lemma C7_counterexample :
  stale_run = Some (Ok (Some (result_frame stale_run)), result_world stale_run stale_world) /\
  Exists (fun r : gmap string cell =>
            r !! "Date" = Some (CDate 753547) /\
            ~ nonnull (r !! "Team") /\ ~ nonnull (r !! "Season"))
         (rows (result_frame stale_run)).
Proof.
  split; [apply returned_frame_eq; vm_compute; reflexivity|decide_now].
Qed.

(** The two hypotheses on the cache hold of the sample teams and of
    the world in which one of them is cached. *)
Lemma sample_caches :
  distinct_caches two_teams /\ cache_tagged two_teams (fs cached_world).
Proof.
  split; [unfold distinct_caches; decide_now|].
  intros t c df Ht Hp Hread.
  apply elem_of_cons in Ht as [->|Ht].
  - vm_compute in Hp. injection Hp as <-. injection Hread as <-.
    split; (split; [decide_now|]); repeat constructor.
  - apply list_elem_of_singleton in Ht as ->. vm_compute in Hp. discriminate.
Qed.

Lemma C7_witness :
  cached_run = Some (Ok (Some (result_frame cached_run)), result_world cached_run cached_world) /\
  distinct_caches two_teams /\ cache_tagged two_teams (fs cached_world) /\
  Forall (fun r : gmap string cell => nonnull (r !! "Date")) (rows (result_frame cached_run)) /\
  Forall (fun r : gmap string cell => nonnull (r !! "Team") /\ nonnull (r !! "Season"))
         (rows (result_frame cached_run)).
Proof.
  assert (Hrun : run remote_ok 1 (new_downloader (2, 6)) "data/all_teams_training_data.csv"
                   two_teams ["2025-2026"] cached_world
                 = Some (Ok (Some (result_frame cached_run)),
                         result_world cached_run cached_world))
    by (apply (returned_frame_eq cached_run); vm_compute; reflexivity).
  split; [exact Hrun|]. split; [exact (proj1 sample_caches)|].
  split; [exact (proj2 sample_caches)|].
  destruct (C7_combined_rows_dated_and_tagged remote_ok 1 (new_downloader (2, 6))
              "data/all_teams_training_data.csv" two_teams ["2025-2026"] cached_world _ _ Hrun)
    as [Hdate Htags].
  split; [exact Hdate|].
  exact (Htags (proj1 sample_caches) (proj2 sample_caches)).
Defined.

(** Without distinct cache files a dataset fetched in the run and read
    back from the cache by a namesake can lose its tag: the second of
    two namesakes reads the file the first has written, and [read_csv]
    takes the team name [NA] for a missing value. *)
Example shared_cache_loses_tag :
  ~ distinct_caches namesakes /\
  cache_tagged (pd := Toy.pandas_na) namesakes ∅ /\
  returned_frame namesake_run = true /\
  Exists (fun r : gmap string cell => ~ nonnull (r !! "Team"))
         (rows (result_frame namesake_run)).
Proof.
  split; [unfold distinct_caches; decide_now|].
  split; [intros t c df _ Hp; by rewrite lookup_empty in Hp|].
  split; [vm_compute; reflexivity|decide_now].
Qed.

(** Two rows of the cached team, the third dropped for its date, and
    one of the team that is fetched. *)
Example cached_run_rows : length (rows (result_frame cached_run)) = 3%nat.
Proof. vm_compute. reflexivity. Qed.

Example fresh_run_rows : length (rows (result_frame fresh_run)) = 2%nat.
Proof. vm_compute. reflexivity. Qed.

End PipelineExamples.

(** * Further properties of the Fetcher *)

Section FetcherCoverage.

Context {pd : Pandas}.
Variable remote : list event -> string -> reply.

Lemma gets_app (e1 e2 : list event) : gets (e1 ++ e2) = gets e1 ++ gets e2.
Proof.
  induction e1 as [|[u|s|lo hi] e1 IH]; cbn; [done|by rewrite IH|done|done].
Qed.

Lemma gets_retries (url : string) (k : nat) : gets (retries url k) = replicate k url.
Proof. induction k as [|k IH]; [done|]. rewrite retries_S. cbn. by rewrite IH. Qed.

Lemma gets_settle (self : FBRefDownloader) (url : string) (o : reply) :
  gets (settle self url o).2 = [url].
Proof. destruct o as [r|]; cbn; [|done]. by destruct (status_code r =? 200). Qed.

Lemma is_429_dec (o : reply) : {is_429 o} + {~ is_429 o}.
Proof.
  destruct o as [r|].
  - destruct (decide (status_code r = 429)) as [E|E].
    + left. by exists r.
    + right. intros (r' & [= <-] & ?). done.
  - right. by intros (r' & ? & ?).
Qed.

(** Every call of [safe_get] that returns went through some rounds of
    rate limiting and was then settled by a reply that is no 429. *)
Lemma safe_get_inv (fuel : nat) (self : FBRefDownloader) (url : string)
    (w w' : World) (res : option Response) :
  safe_get remote fuel self url w = Some (res, w') ->
  exists k, (k < fuel)%nat /\
    (forall j, (j < k)%nat -> is_429 (remote (trace w ++ retries url j) url)) /\
    ~ is_429 (remote (trace w ++ retries url k) url) /\
    res = (settle self url (remote (trace w ++ retries url k) url)).1 /\
    w' = extend w (retries url k ++ (settle self url (remote (trace w ++ retries url k) url)).2).
Proof.
  revert w. induction fuel as [|fuel IH]; intros w Hs; [discriminate|].
  destruct (is_429_dec (remote (trace w) url)) as [H429|Hn].
  - rewrite safe_get_429 in Hs by done.
    apply IH in Hs as (k & Hk & Hj & Hlast & Hres & Hw).
    assert (Ht : forall j, trace (extend w [Get url; Sleep 60]) ++ retries url j
                           = trace w ++ retries url (S j)).
    { intros j. cbn [trace extend]. by rewrite retries_S, app_assoc. }
    rewrite Ht in Hlast, Hres, Hw.
    exists (S k). split; [lia|]. split; [|split; [done|split; [done|]]].
    + intros [|j] Hlt.
      * cbn. by rewrite app_nil_r.
      * rewrite <- Ht. apply Hj. lia.
    + rewrite Hw, extend_extend, retries_S, app_assoc. reflexivity.
  - rewrite safe_get_settle in Hs by done. injection Hs as <- <-.
    exists 0%nat. cbn [retries replicate concat]. rewrite app_nil_r.
    split; [lia|]. split; [intros j Hj; lia|]. done.
Qed.

(** X1 (safe_get, every return). Whenever [safe_get] returns, the disk is
    as before and the trace has grown by [k] rounds of [Get url; Sleep 60]
    (one per 429 answer, [k] below the depth bound) and a last round: the
    requests are [k+1] requests for [url] and nothing else; a response is
    returned only with status 200, after the politeness sleep drawn from
    [delay_range]; [None] is returned after a bare request (another
    status) or a request and [Sleep 10] (the request raised). *)
Theorem safe_get_trace_shape (fuel : nat) (self : FBRefDownloader) (url : string)
    (w w' : World) (res : option Response) :
  safe_get remote fuel self url w = Some (res, w') ->
  fs w' = fs w /\
  exists (k : nat) (last : list event),
    (k < fuel)%nat /\
    trace w' = trace w ++ retries url k ++ last /\
    gets (retries url k ++ last) = replicate (S k) url /\
    match res with
    | Some r =>
        status_code r = 200 /\
        last = [Get url; SleepUniform (delay_range self).1 (delay_range self).2]
    | None => last = [Get url] \/ last = [Get url; Sleep 10]
    end.
Proof.
  intros Hs. apply safe_get_inv in Hs as (k & Hk & _ & Hlast & -> & ->).
  split; [done|].
  exists k, (settle self url (remote (trace w ++ retries url k) url)).2.
  split; [done|]. split; [done|]. split.
  - rewrite gets_app, gets_retries, gets_settle.
    change [url] with (replicate 1 url). rewrite <- replicate_add.
    f_equal. lia.
  - destruct (remote (trace w ++ retries url k) url) as [r|]; cbn [settle]; [|by right].
    destruct (status_code r =? 200) eqn:E; cbn [fst snd].
    + split; [by apply Z.eqb_eq|done].
    + by left.
Qed.

End FetcherCoverage.

Section FetcherCoverage2.

Context {pd : Pandas}.
Variable remote : list event -> string -> reply.

(** X2 (safe_get has no retry ceiling). [safe_get] runs out of depth
    exactly when the server answers 429 to every one of the requests: no
    counter in the code ends the retries, only the depth of the recursion
    does. *)
Theorem safe_get_no_retry_ceiling (fuel : nat) (self : FBRefDownloader) (url : string)
    (w : World) :
  safe_get remote fuel self url w = None <->
  forall j, (j < fuel)%nat -> is_429 (remote (trace w ++ retries url j) url).
Proof.
  revert w. induction fuel as [|fuel IH]; intros w.
  - split; [intros _ j Hj; lia|done].
  - assert (Ht : forall j, trace (extend w [Get url; Sleep 60]) ++ retries url j
                           = trace w ++ retries url (S j)).
    { intros j. cbn [trace extend]. by rewrite retries_S, app_assoc. }
    destruct (is_429_dec (remote (trace w) url)) as [H429|Hn].
    + rewrite safe_get_429 by done. rewrite IH. split.
      * intros Hall [|j] Hj; [cbn; by rewrite app_nil_r|].
        rewrite <- Ht. apply Hall. lia.
      * intros Hall j Hj. rewrite Ht. apply Hall. lia.
    + rewrite safe_get_settle by done. split; [discriminate|].
      intros Hall. exfalso. apply Hn.
      specialize (Hall 0%nat ltac:(lia)). cbn in Hall. by rewrite app_nil_r in Hall.
Qed.

End FetcherCoverage2.

(** * Further properties of [download_matchlogs] *)

Section DownloaderCoverage.

Context {pd : Pandas}.
Variable remote : list event -> string -> reply.

Lemma safe_get_gets (fuel : nat) (self : FBRefDownloader) (url : string)
    (w w' : World) (res : option Response) :
  safe_get remote fuel self url w = Some (res, w') ->
  fs w' = fs w /\
  exists (n : nat) (evs : list event),
    trace w' = trace w ++ evs /\ gets evs = replicate (S n) url.
Proof.
  intros Hs. apply safe_get_inv in Hs as (k & _ & _ & _ & _ & ->).
  split; [done|]. eexists k, _. split; [reflexivity|].
  rewrite gets_app, gets_retries, gets_settle.
  change [url] with (replicate 1 url). rewrite <- replicate_add. f_equal. lia.
Qed.

Lemma fetch_season_gets (fuel : nat) (self : FBRefDownloader) (team tid season : string)
    (logs logs' : list DataFrame) (w w' : World) :
  fetch_season remote fuel self team tid season logs w = Some (logs', w') ->
  exists (n : nat) (evs : list event),
    trace w' = trace w ++ evs /\
    gets evs = replicate (S n) (matchlog_url team tid season).
Proof.
  unfold fetch_season. intros Hf.
  destruct (safe_get remote fuel self _ w) as [[res w1]|] eqn:Hs; [|discriminate].
  apply safe_get_gets in Hs as [_ Hs].
  destruct res as [resp|]; [|by injection Hf as <- <-].
  destruct (read_html (content resp)) as [[|t ts]|]; by injection Hf as <- <-.
Qed.

Lemma fetch_seasons_gets (fuel : nat) (self : FBRefDownloader) (team tid : string)
    (seasons : list string) (logs logs' : list DataFrame) (w w' : World) :
  fetch_seasons remote fuel self team tid seasons logs w = Some (logs', w') ->
  exists (counts : list nat) (evs : list event),
    trace w' = trace w ++ evs /\
    length counts = length seasons /\
    gets evs = concat (zip_with (fun n s => replicate (S n) (matchlog_url team tid s))
                                counts seasons).
Proof.
  revert logs w. induction seasons as [|s seasons IH]; intros logs w Hf; cbn in Hf.
  - injection Hf as <- <-. exists [], []. by rewrite app_nil_r.
  - destruct (fetch_season remote fuel self team tid s logs w) as [[l1 w1]|] eqn:H1;
      [|discriminate].
    apply fetch_season_gets in H1 as (n & e1 & Ht1 & Hg1).
    apply IH in Hf as (counts & e2 & Ht2 & Hlen & Hg2).
    exists (n :: counts), (e1 ++ e2).
    split; [by rewrite Ht2, Ht1, app_assoc|].
    split; [cbn; by rewrite Hlen|].
    rewrite gets_app, Hg1, Hg2. reflexivity.
Qed.

(** X3 (download_matchlogs, requests). Without a cache file
    [download_matchlogs] requests the seasons in the order of the list,
    each season's match-log url one or more times (the repeats are the
    429 retries), and no other url; a season that fails does not stop
    the seasons after it. *)
Theorem download_requests_each_season_in_order (fuel : nat) (self : FBRefDownloader)
    (team tid : string) (seasons : list string) (w w' : World)
    (res : result (option DataFrame)) :
  fs w !! file_path team = None ->
  download_matchlogs remote fuel self team tid seasons w = Some (res, w') ->
  exists (counts : list nat) (evs : list event),
    trace w' = trace w ++ evs /\
    length counts = length seasons /\
    gets evs = concat (zip_with (fun n s => replicate (S n) (matchlog_url team tid s))
                                counts seasons).
Proof.
  intros Hnone. unfold download_matchlogs. rewrite Hnone.
  destruct (fetch_seasons remote fuel self team tid seasons [] w) as [[logs w1]|] eqn:Hf;
    [|discriminate].
  apply fetch_seasons_gets in Hf as (counts & evs & Ht & Hlen & Hg).
  intros Hd. exists counts, evs. split; [|done].
  destruct logs as [|l0 logs]; [by injection Hd as <- <-|].
  cbn [pd_concat] in Hd. by injection Hd as <- <-.
Qed.

(** X4 (download_matchlogs, store then cache). A download that returns
    a frame has written exactly one file, the frame at the team's cache
    path; from then on every call for a team with the same cache path
    returns what [read_csv] makes of that file and changes nothing,
    whatever the seasons asked for. *)
Theorem download_stores_then_serves_from_cache (fuel : nat) (self : FBRefDownloader)
    (team tid : string) (seasons : list string) (w w' : World) (combined : DataFrame) :
  fs w !! file_path team = None ->
  download_matchlogs remote fuel self team tid seasons w = Some (Ok (Some combined), w') ->
  fs w' = <[file_path team := to_csv combined]> (fs w) /\
  forall fuel2 self2 team2 tid2 seasons2,
    file_path team2 = file_path team ->
    download_matchlogs remote fuel2 self2 team2 tid2 seasons2 w'
    = Some (Ok (read_csv (to_csv combined)), w').
Proof.
  intros Hnone. unfold download_matchlogs at 1. rewrite Hnone.
  destruct (fetch_seasons remote fuel self team tid seasons [] w) as [[logs w1]|] eqn:Hf;
    [|discriminate].
  apply fetch_seasons_fs in Hf as [Hfs _].
  destruct logs as [|l0 logs]; [discriminate|].
  cbn [pd_concat]. intros [= <- <-].
  assert (Hw : fs (write_file (file_path team) (to_csv (concat_frames (l0 :: logs))) w1)
               = <[file_path team := to_csv (concat_frames (l0 :: logs))]> (fs w))
    by (cbn [fs write_file]; by rewrite Hfs).
  split; [exact Hw|].
  intros fuel2 self2 team2 tid2 seasons2 Hp. unfold download_matchlogs.
  rewrite Hp, Hw, lookup_insert_eq. reflexivity.
Qed.

(** X5 (download_matchlogs, a failed season). A season whose page
    cannot be had when the run asks for it (no 200 answer, no table in
    the page, or [read_html] raises) contributes nothing: the call goes
    on with the remaining seasons exactly as a call for those seasons
    alone would, from the same disk and the history the failed request
    has left. *)
Theorem download_skips_failed_season (fuel : nat) (self : FBRefDownloader)
    (team tid season : string) (seasons : list string) (w : World) (k : nat) :
  fs w !! file_path team = None ->
  fails_at remote fuel (matchlog_url team tid season) (trace w) k ->
  download_matchlogs remote fuel self team tid (season :: seasons) w
  = download_matchlogs remote fuel self team tid seasons
      {| fs := fs w;
         trace := after_failure remote self (matchlog_url team tid season) (trace w) k |}.
Proof.
  intros Hnone Hfail.
  destruct (fetch_season_fails remote fuel self team tid season [] w k Hfail)
    as (w1 & H1 & Hfs & Ht).
  destruct w1 as [f1 t1]. cbn [fs trace] in Hfs, Ht. subst f1 t1.
  unfold download_matchlogs. cbn [fs]. rewrite Hnone.
  cbn [fetch_seasons]. by rewrite H1.
Qed.

(** A turn of the loop that returns has either failed, from the history
    it started with, or has added one frame to [all_logs]. *)
Lemma fetch_season_inv (fuel : nat) (self : FBRefDownloader) (team tid season : string)
    (logs logs' : list DataFrame) (w w' : World) :
  fetch_season remote fuel self team tid season logs w = Some (logs', w') ->
  (logs' = logs /\
   exists k, fails_at remote fuel (matchlog_url team tid season) (trace w) k /\
             trace w' = after_failure remote self (matchlog_url team tid season) (trace w) k)
  \/ exists df, logs' = logs ++ [df].
Proof.
  unfold fetch_season. intros Hf.
  destruct (safe_get remote fuel self (matchlog_url team tid season) w) as [[res w1]|] eqn:Hs;
    [|discriminate].
  apply safe_get_inv in Hs as (k & Hk & H429 & Hlast & -> & ->).
  assert (Hfail : unusable (remote (trace w ++ retries (matchlog_url team tid season) k)
                              (matchlog_url team tid season)) ->
                  w' = extend w (retries (matchlog_url team tid season) k ++
                         (settle self (matchlog_url team tid season)
                            (remote (trace w ++ retries (matchlog_url team tid season) k)
                               (matchlog_url team tid season))).2) ->
                  exists k, fails_at remote fuel (matchlog_url team tid season) (trace w) k /\
                    trace w' = after_failure remote self (matchlog_url team tid season)
                                 (trace w) k).
  { intros Hu ->. exists k. split; [by repeat split|]. reflexivity. }
  destruct (remote (trace w ++ retries (matchlog_url team tid season) k)
              (matchlog_url team tid season)) as [r|] eqn:Ho; cbn [settle fst snd] in Hf, Hfail.
  - assert (Hn : status_code r <> 429).
    { intros E. apply Hlast. by exists r. }
    destruct (status_code r =? 200) eqn:E; cbn [fst snd] in Hf, Hfail.
    + destruct (read_html (content r)) as [[|t ts]|] eqn:Hr.
      * injection Hf as <- <-. left. split; [done|]. apply Hfail; [|done].
        cbn. split; [done|]. right. by right.
      * injection Hf as <- <-. right. eauto.
      * injection Hf as <- <-. left. split; [done|]. apply Hfail; [|done].
        cbn. split; [done|]. right. by left.
    + injection Hf as <- <-. left. split; [done|]. apply Hfail; [|done].
      cbn. split; [done|]. left. by apply Z.eqb_neq.
  - injection Hf as <- <-. left. split; [done|]. by apply Hfail.
Qed.

(** The loop only ever appends to [all_logs]. *)
Lemma fetch_seasons_grow (fuel : nat) (self : FBRefDownloader) (team tid : string)
    (seasons : list string) (logs logs' : list DataFrame) (w w' : World) :
  fetch_seasons remote fuel self team tid seasons logs w = Some (logs', w') ->
  exists more, logs' = logs ++ more.
Proof.
  revert logs w. induction seasons as [|s seasons IH]; intros logs w Hf; cbn in Hf.
  - injection Hf as <- <-. exists []. by rewrite app_nil_r.
  - destruct (fetch_season remote fuel self team tid s logs w) as [[l1 w1]|] eqn:H1;
      [|discriminate].
    apply IH in Hf as [more ->].
    apply fetch_season_inv in H1 as [[-> _]|[df ->]]; [by eexists|].
    exists (df :: more). by rewrite <- app_assoc.
Qed.

Lemma fetch_seasons_none_inv (fuel : nat) (self : FBRefDownloader) (team tid : string)
    (seasons : list string) (logs : list DataFrame) (w w' : World) :
  fetch_seasons remote fuel self team tid seasons logs w = Some (logs, w') ->
  all_fail remote fuel self (season_urls team tid seasons) (trace w).
Proof.
  revert w. induction seasons as [|s seasons IH]; intros w Hf; cbn in Hf; [done|].
  destruct (fetch_season remote fuel self team tid s logs w) as [[l1 w1]|] eqn:H1;
    [|discriminate].
  apply fetch_season_inv in H1 as [[-> (k & Hk & Ht)]|[df ->]].
  - cbn. exists k. split; [done|]. rewrite <- Ht. by apply IH.
  - apply fetch_seasons_grow in Hf as [more Hm].
    apply (f_equal length) in Hm. rewrite !length_app in Hm. cbn in Hm. lia.
Qed.

(** X23 (download_matchlogs, lines 49-84: the converse of the total
    failure). Without a cache file [download_matchlogs] returns [None]
    only when every season requested has failed or had no table, each at
    the point of the run at which it was requested; the disk is then as
    it was. *)
Theorem download_none_only_on_total_failure (fuel : nat) (self : FBRefDownloader)
    (team tid : string) (seasons : list string) (w w' : World) :
  fs w !! file_path team = None ->
  download_matchlogs remote fuel self team tid seasons w = Some (Ok None, w') ->
  all_fail remote fuel self (season_urls team tid seasons) (trace w) /\ fs w' = fs w.
Proof.
  intros Hnone. unfold download_matchlogs. rewrite Hnone.
  destruct (fetch_seasons remote fuel self team tid seasons [] w) as [[logs w1]|] eqn:Hf;
    [|discriminate].
  destruct logs as [|df logs].
  - intros [= <-]. split; [by eapply fetch_seasons_none_inv|].
    by apply fetch_seasons_fs in Hf as [-> _].
  - by destruct (pd_concat (df :: logs)).
Qed.

Lemma carries_setitems (df : DataFrame) (team season : string) (seasons : list string) :
  season ∈ seasons ->
  carries team seasons
    (df_setitem_scalar (df_setitem_scalar df "Season" (CStr season)) "Team" (CStr team)).
Proof.
  intros Hs. rewrite !setitem_scalar_rows. cbn [columns rows].
  split; [apply elem_of_add_label; by left|].
  split; [apply elem_of_add_label; right; apply elem_of_add_label; by left|].
  rewrite map_map. apply Forall_map, Forall_true. intros r. cbn.
  split; [by rewrite lookup_insert_eq|].
  exists season. split; [done|].
  by rewrite lookup_insert_ne, lookup_insert_eq.
Qed.

Lemma fetch_seasons_carries (fuel : nat) (self : FBRefDownloader) (team tid : string)
    (all ss : list string) (logs logs' : list DataFrame) (w w' : World) :
  ss ⊆ all ->
  fetch_seasons remote fuel self team tid ss logs w = Some (logs', w') ->
  Forall (carries team all) logs -> Forall (carries team all) logs'.
Proof.
  revert logs w. induction ss as [|s ss IH]; intros logs w Hsub Hf Hl; cbn in Hf.
  - by injection Hf as <- <-.
  - destruct (fetch_season remote fuel self team tid s logs w) as [[l1 w1]|] eqn:H1;
      [|discriminate].
    eapply IH; [|exact Hf|].
    + intros x Hx. apply Hsub. by right.
    + unfold fetch_season in H1.
      destruct (safe_get remote fuel self _ w) as [[[resp|] w2]|]; [| |discriminate].
      * destruct (read_html (content resp)) as [[|t ts]|]; injection H1 as <- <-; try done.
        apply Forall_app. split; [done|]. constructor; [|constructor].
        apply carries_setitems. apply Hsub. left.
      * by injection H1 as <- <-.
Qed.

Lemma carries_concat_frames (team : string) (seasons : list string) (dfs : list DataFrame) :
  dfs <> [] -> Forall (carries team seasons) dfs -> carries team seasons (concat_frames dfs).
Proof.
  intros Hne Hall.
  assert (HT : "Team" ∈ columns (concat_frames dfs)).
  { destruct dfs as [|df dfs]; [done|]. apply (columns_concat_frames _ df); [left|].
    by apply Forall_cons in Hall as [[? _] _]. }
  assert (HS : "Season" ∈ columns (concat_frames dfs)).
  { destruct dfs as [|df dfs]; [done|]. apply (columns_concat_frames _ df); [left|].
    by apply Forall_cons in Hall as [(_ & ? & _) _]. }
  split; [done|]. split; [done|].
  change (rows (concat_frames dfs))
    with (concat (map (fun df => map (reindex (columns (concat_frames dfs))) (rows df)) dfs)).
  revert HT HS. generalize (columns (concat_frames dfs)). intros cols HT HS.
  clear Hne. induction Hall as [|df dfs (_ & _ & Hr) _ IH]; [constructor|].
  cbn [map concat]. apply Forall_app. split; [|exact IH].
  apply Forall_map. eapply Forall_impl; [exact Hr|].
  intros r [Ht (s & Hs & Hse)]. cbn. split; [by apply reindex_keeps|].
  exists s. split; [done|]. by apply reindex_keeps.
Qed.

(** X6 (download_matchlogs, tagging). Every row of a freshly downloaded
    frame has the team asked for in [Team] and one of the seasons asked
    for in [Season], and the frame has both columns. *)
Theorem download_rows_carry_team_and_season (fuel : nat) (self : FBRefDownloader)
    (team tid : string) (seasons : list string) (w w' : World) (combined : DataFrame) :
  fs w !! file_path team = None ->
  download_matchlogs remote fuel self team tid seasons w = Some (Ok (Some combined), w') ->
  carries team seasons combined.
Proof.
  intros Hnone. unfold download_matchlogs. rewrite Hnone.
  destruct (fetch_seasons remote fuel self team tid seasons [] w) as [[logs w1]|] eqn:Hf;
    [|discriminate].
  apply (fetch_seasons_carries _ _ _ _ seasons) in Hf; [|done|constructor].
  destruct logs as [|l0 logs]; [discriminate|].
  cbn [pd_concat]. intros [= <- _]. by apply carries_concat_frames.
Qed.

End DownloaderCoverage.

(** * Further properties of the cache path *)

Section CachePath.

Lemma lower_ascii_idem (a : ascii) : lower_ascii (lower_ascii a) = lower_ascii a.
Proof. destruct a as [[] [] [] [] [] [] [] []]; reflexivity. Qed.

Lemma lower_ascii_space (a : ascii) : lower_ascii a = " "%char <-> a = " "%char.
Proof. destruct a as [[] [] [] [] [] [] [] []]; split; (reflexivity || discriminate). Qed.

Lemma lower_idem (s : string) : lower (lower s) = lower s.
Proof. induction s as [|a s IH]; [done|]. cbn. by rewrite lower_ascii_idem, IH. Qed.

Lemma replace_space_idem (s : string) :
  replace_char " " "-" (replace_char " " "-" s) = replace_char " " "-" s.
Proof.
  induction s as [|a s IH]; [done|]. cbn. rewrite IH. f_equal.
  destruct (decide (a = " "%char)) as [->|Ha]; [reflexivity|].
  by rewrite !(bool_decide_eq_false_2 (a = " "%char)).
Qed.

Lemma lower_replace_space (s : string) :
  lower (replace_char " " "-" s) = replace_char " " "-" (lower s).
Proof.
  induction s as [|a s IH]; [done|]. cbn. rewrite IH. f_equal.
  case_bool_decide as Ha.
  - subst a. reflexivity.
  - rewrite bool_decide_eq_false_2; [done|]. by rewrite lower_ascii_space.
Qed.

Lemma string_length_append (s1 s2 : string) :
  String.length (s1 +:+ s2) = (String.length s1 + String.length s2)%nat.
Proof. induction s1 as [|a s1 IH]; [done|]. simpl. by f_equal. Qed.

Lemma append_inj_suffix (s1 s2 suffix : string) :
  s1 +:+ suffix = s2 +:+ suffix -> s1 = s2.
Proof.
  intros H.
  assert (Hlen : String.length s1 = String.length s2).
  { apply (f_equal String.length) in H. rewrite !string_length_append in H. lia. }
  revert s2 H Hlen. induction s1 as [|a s1 IH]; intros [|b s2] H Hlen; try discriminate.
  - reflexivity.
  - cbn in H. injection H as -> H. f_equal. apply IH; [done|]. cbn in Hlen. lia.
Qed.

(** X7 (cache path normalisation). The cache path does not see the case
    of the team's name nor the difference between a space and a hyphen:
    lowering the name, or replacing its spaces, gives the same path. *)
Theorem file_path_ignores_case_and_spaces (team : string) :
  file_path (lower team) = file_path team /\
  file_path (replace_char " " "-" team) = file_path team.
Proof.
  unfold file_path. split.
  - by rewrite lower_idem.
  - by rewrite lower_replace_space, replace_space_idem.
Qed.

(** X8 (cache path collisions). Two team names share a cache path
    exactly when they agree after lowering and replacing spaces by
    hyphens; such names share one cache file. *)
Theorem file_path_eq_iff (team1 team2 : string) :
  file_path team1 = file_path team2 <->
  replace_char " " "-" (lower team1) = replace_char " " "-" (lower team2).
Proof.
  unfold file_path. split; [|by intros ->].
  intros H. cbn in H. injection H as H.
  exact (append_inj_suffix _ _ "_matchlogs.csv" H).
Qed.

End CachePath.

(** * Further properties of the Cleaner *)

Section CleanerCoverage.

Context {pd : Pandas}.

Lemma coerce_columns_first_missing (cs : list string) (df : DataFrame) (k : string)
    (rest : list string) :
  filter (fun c => c ∉ columns df) cs = k :: rest ->
  coerce_columns cs df = Raise (KeyError k).
Proof.
  revert df. induction cs as [|c0 cs IH]; intros df Hf; [discriminate|].
  cbn [coerce_columns]. unfold df_getitem. rewrite filter_cons in Hf.
  destruct (decide (c0 ∉ columns df)) as [Hout|Hin].
  - injection Hf as <- _. by rewrite bool_decide_eq_false_2.
  - apply dec_stable in Hin. rewrite bool_decide_eq_true_2, bind_Ok by done.
    apply IH. unfold df_setitem. cbn [columns]. by rewrite add_label_old.
Qed.

Lemma filter_missing_kept (df : DataFrame) (cs : list string) :
  cs ⊆ useful_cols ->
  filter (fun c => c ∉ kept_cols df) cs = filter (fun c => c ∉ columns df) cs.
Proof.
  intros Hsub. induction cs as [|c cs IH]; [done|].
  assert (Hc : c ∈ kept_cols df <-> c ∈ columns df).
  { rewrite elem_of_kept_cols. split; [tauto|]. intros ?. split; [done|]. apply Hsub. left. }
  rewrite !filter_cons, IH by (intros x Hx; apply Hsub; by right).
  destruct (decide (c ∉ kept_cols df)), (decide (c ∉ columns df)); tauto.
Qed.

(** The exception names the first of the six columns that is absent. *)
Lemma clean_matchlog_first_missing (df : DataFrame) (k : string) (rest : list string) :
  filter (fun c => c ∉ columns df) required_cols = k :: rest ->
  clean_matchlog df = Raise (KeyError k).
Proof.
  intros Hf.
  change required_cols with (numeric_cols ++ ["Date"]) in Hf. rewrite filter_app in Hf.
  destruct (filter (fun c => c ∉ columns df) numeric_cols) as [|k' rest'] eqn:Hnum.
  - assert (Hall : numeric_cols ⊆ columns df).
    { intros c Hc. destruct (decide (c ∈ columns df)) as [|Hn]; [done|].
      assert (Hin : c ∈ filter (fun c => c ∉ columns df) numeric_cols)
        by (by apply list_elem_of_filter).
      rewrite Hnum in Hin. by apply elem_of_nil in Hin. }
    rewrite clean_matchlog_derived by done.
    cbn [app] in Hf. rewrite filter_cons, filter_nil in Hf.
    destruct (decide ("Date" ∉ columns df)) as [Hd|Hd]; [|discriminate].
    injection Hf as <- _. unfold df_getitem, derived. cbn [columns].
    rewrite bool_decide_eq_false_2; [done|].
    intros [Hk|Hk]%elem_of_app; [|revert Hk; decide_now].
    apply elem_of_kept_cols in Hk as [Hk _]. contradiction.
  - cbn [app] in Hf. injection Hf as <- _.
    unfold clean_matchlog. fold (kept_cols df). rewrite df_select_kept, bind_Ok.
    rewrite (coerce_columns_first_missing numeric_cols _ k' rest'); [done|].
    unfold selected. cbn [columns]. rewrite filter_missing_kept; [done|].
    apply Forall_subseteq. decide_now.
Qed.

(** X9 (clean_matchlog, result). On a frame whose labels are distinct
    [clean_matchlog] raises [KeyError] for the first of GF, GA, xG, xGA,
    Poss, Date that the frame lacks, in that order, and returns the
    cleaned frame when none is lacking. *)
Theorem clean_matchlog_result (df : DataFrame) :
  NoDup (columns df) ->
  clean_matchlog df
  = match filter (fun c => c ∉ columns df) required_cols with
    | [] => Ok (cleaned df)
    | k :: _ => Raise (KeyError k)
    end.
Proof.
  intros _.
  destruct (filter (fun c => c ∉ columns df) required_cols) as [|k rest] eqn:Hf.
  - apply clean_matchlog_cleaned. intros c Hc.
    destruct (decide (c ∈ columns df)) as [|Hn]; [done|].
    assert (Hin : c ∈ filter (fun c => c ∉ columns df) required_cols)
      by (by apply list_elem_of_filter).
    rewrite Hf in Hin. by apply elem_of_nil in Hin.
  - by apply (clean_matchlog_first_missing df k rest).
Qed.

Lemma kept_cols_required (df : DataFrame) (c : string) :
  required_cols ⊆ columns df -> c ∈ required_cols -> c ∈ kept_cols df.
Proof.
  intros Hreq Hc. apply elem_of_kept_cols. split; [by apply Hreq|].
  revert c Hc. apply list.Forall_forall. decide_now.
Qed.

Lemma kept_cols_numeric_col (df : DataFrame) (c : string) :
  required_cols ⊆ columns df -> c ∈ numeric_cols -> c ∈ kept_cols df.
Proof.
  intros Hreq Hc. apply kept_cols_required; [done|].
  revert c Hc. apply list.Forall_forall. decide_now.
Qed.

(** A kept column of the selected frame is the column of the frame. *)
Lemma column_selected (df : DataFrame) (c : string) :
  c ∈ kept_cols df -> column c (selected df) = column c df.
Proof.
  intros Hc. unfold column, selected. cbn [rows]. rewrite map_map.
  apply map_ext. intros r. by apply cell_at_project.
Qed.

Lemma coerce_at_selected (df : DataFrame) (c : string) (r : gmap string cell) :
  c ∈ kept_cols df ->
  coerce_at (selected df) c (project (kept_cols df) r)
  = convert (conversion_of (column c df)) (cell_at c r).
Proof. intros Hc. unfold coerce_at. by rewrite column_selected, cell_at_project. Qed.

Lemma cell_at_row_values (d : dtype) (r : gmap string cell) (c : string) :
  is_number (cell_at c r) = true -> cell_at c (row_values d r) = cast d (cell_at c r).
Proof.
  unfold cell_at. destruct d; cbn [row_values cast]; try reflexivity.
  rewrite lookup_fmap. by destruct (r !! c).
Qed.

Lemma cell_at_with_diffs_GF P r : cell_at "GF" (with_diffs P r) = coerce_at P "GF" r.
Proof. unfold cell_at. by rewrite lookup_with_diffs_GF. Qed.

Lemma cell_at_with_diffs_GA P r : cell_at "GA" (with_diffs P r) = coerce_at P "GA" r.
Proof. unfold cell_at. by rewrite lookup_with_diffs_GA. Qed.

Lemma lookup_clean_row_Outcome (df : DataFrame) (r : gmap string cell) :
  r ∈ rows df ->
  let P := selected df in
  let p := project (kept_cols df) r in
  let d := values_dtype (diffs_frame P) in
  clean_row df r !! "Outcome"
  = Some (CStr (outcome_of (cast d (coerce_at P "GF" p)) (cast d (coerce_at P "GA" p)))).
Proof.
  intros Hr P p d. unfold clean_row, derived_row. lookup_simpl.
  unfold outcome_cell. fold P p d.
  rewrite !cell_at_row_values, cell_at_with_diffs_GF, cell_at_with_diffs_GA;
    [reflexivity|..];
    rewrite ?cell_at_with_diffs_GF, ?cell_at_with_diffs_GA;
    apply coerce_at_number; by apply elem_of_selected.
Qed.

Lemma to_datetime_cell_cases (fmt : DateFormat) (c : cell) :
  (exists t, to_datetime_cell fmt c = CDate t) \/ to_datetime_cell fmt c = CNaT.
Proof.
  destruct c as [s|n|n|x|t|]; cbn.
  - destruct (str_to_datetime fmt s); eauto.
  - destruct (int_to_datetime n); eauto.
  - destruct (int_to_datetime n); eauto.
  - destruct (F64.is_nan x); [by right|]. destruct (float_to_datetime x); eauto.
  - eauto.
  - by right.
Qed.

Lemma text_cols_plain (c : string) :
  c ∈ text_cols ->
  c ∈ useful_cols /\ (c ∉ numeric_cols) /\ (c ∉ derived_cols) /\ c <> "Date".
Proof.
  revert c. apply list.Forall_forall.
  repeat constructor; first [decide_now | discriminate].
Qed.

(** A frame with a cell that is no number under one of its labels has
    values of dtype [object]. *)
Lemma dtype_of_not_number (s : Series) (c : cell) :
  c ∈ s -> is_number c = false -> is_numeric_dtype (dtype_of s) = false.
Proof.
  intros Hc Hn. pose proof (dtype_of_cases s) as Hd.
  destruct (dtype_of s); try reflexivity;
    apply (forallb_elem_of _ _ c) in Hd; try done; by destruct c.
Qed.

Lemma values_dtype_object (F : DataFrame) (c : string) (r : gmap string cell) :
  c ∈ columns F -> r ∈ rows F -> is_number (cell_at c r) = false ->
  values_dtype F = object.
Proof.
  intros Hc Hr Hn. unfold values_dtype.
  set (ds := map (fun col => dtype_of (column col F)) (columns F)).
  assert (Hd : dtype_of (column c F) ∈ ds).
  { unfold ds. apply list_elem_of_fmap. by exists c. }
  assert (Hnum : is_numeric_dtype (dtype_of (column c F)) = false).
  { apply (dtype_of_not_number _ (cell_at c r)); [|done].
    unfold column. apply list_elem_of_fmap. by exists r. }
  destruct (forallb (fun d => bool_decide (d = int64)) ds) eqn:E1.
  { apply (forallb_elem_of _ _ _ E1) in Hd. apply bool_decide_eq_true in Hd.
    by rewrite Hd in Hnum. }
  destruct (forallb (fun d => bool_decide (d = uint64)) ds) eqn:E2.
  { apply (forallb_elem_of _ _ _ E2) in Hd. apply bool_decide_eq_true in Hd.
    by rewrite Hd in Hnum. }
  destruct (forallb is_numeric_dtype ds) eqn:E3; [|reflexivity].
  apply (forallb_elem_of _ _ _ E3) in Hd. congruence.
Qed.

Lemma cell_at_with_diffs_other (P : DataFrame) (r : gmap string cell) (c : string) :
  c ∉ numeric_cols -> c ∉ derived_cols -> cell_at c (with_diffs P r) = cell_at c r.
Proof.
  intros Hn Hd. unfold cell_at, with_diffs.
  rewrite !lookup_insert_ne; [by rewrite lookup_coerced_other|..];
    intros <-; apply Hd; decide_now.
Qed.

(** With a date cell that is no number the rows handed to the function
    of line 95 hold Python objects. *)
Lemma values_dtype_diffs_frame (df : DataFrame) (r : gmap string cell) :
  "Date" ∈ columns df -> r ∈ rows df -> is_number (cell_at "Date" r) = false ->
  values_dtype (diffs_frame (selected df)) = object.
Proof.
  intros HD Hr Hn.
  assert (HDk : "Date" ∈ kept_cols df) by (apply elem_of_kept_cols; split; [done|decide_now]).
  apply (values_dtype_object _ "Date"
           (with_diffs (selected df) (project (kept_cols df) r))).
  - unfold diffs_frame, selected. cbn [columns]. apply elem_of_app. by left.
  - unfold diffs_frame. cbn [rows]. apply list_elem_of_fmap.
    exists (project (kept_cols df) r). split; [done|by apply elem_of_selected].
  - rewrite cell_at_with_diffs_other by decide_now. by rewrite cell_at_project.
Qed.

(** X10 (clean_matchlog, outcome). In every output row GF and GA are
    numbers and the outcome is the label of their order, [Win] for
    greater, [Draw] for equal and [Loss] otherwise, as the row of
    [df.values] holds them: cast to floats when every column of the frame
    is numeric and one is of another dtype than the others, and as they
    are otherwise.  When the date of some row is no number the label is
    that of the order of the two values themselves, and it is [Loss] when
    one of them is missing. *)
Theorem clean_matchlog_outcome_by_comparison (df out : DataFrame) (r : gmap string cell) :
  clean_matchlog df = Ok out -> r ∈ rows out ->
  exists gf ga : cell,
    r !! "GF" = Some gf /\ r !! "GA" = Some ga /\
    is_number gf = true /\ is_number ga = true /\
    r !! "Outcome"
    = Some (CStr (label_of
                    (value_compare (cast (values_dtype (diffs_frame (selected df))) gf)
                                   (cast (values_dtype (diffs_frame (selected df))) ga)))) /\
    (Exists (fun r0 : gmap string cell => is_number (cell_at "Date" r0) = false) (rows df) ->
     r !! "Outcome" = Some (CStr (label_of (value_compare gf ga))) /\
     (isna gf = true \/ isna ga = true -> r !! "Outcome" = Some (CStr "Loss"))).
Proof.
  intros Hok Hr. apply clean_matchlog_Ok_inv in Hok as [Hreq ->].
  apply elem_of_cleaned in Hr as (r0 & Hr0 & -> & _).
  pose proof (elem_of_selected df r0 Hr0) as Hp.
  set (P := selected df) in *. set (p := project (kept_cols df) r0) in *.
  pose proof (coerce_at_number P "GF" p Hp) as Hnf.
  pose proof (coerce_at_number P "GA" p Hp) as Hna.
  exists (coerce_at P "GF" p), (coerce_at P "GA" p).
  rewrite !lookup_clean_row_numeric by decide_now.
  rewrite lookup_clean_row_Outcome by done. fold P p.
  do 4 (split; [done|]).
  assert (Hcast : forall d c, is_number c = true -> is_number (cast d c) = true)
    by (by intros [] []).
  split; [by rewrite outcome_of_value_compare by (by apply Hcast)|].
  intros (r1 & Hr1 & Hn1)%Exists_exists.
  assert (Hobj : values_dtype (diffs_frame P) = object).
  { apply (values_dtype_diffs_frame df r1); [apply Hreq; decide_now|done..]. }
  rewrite Hobj. cbn [cast]. rewrite outcome_of_value_compare by done.
  split; [reflexivity|].
  intros Hmiss. do 2 f_equal.
  destruct (coerce_at P "GF" p) as [|m|m|x| |], (coerce_at P "GA" p) as [|n|n|y| |];
    try discriminate; cbn in Hmiss; try (by destruct Hmiss);
    destruct Hmiss as [Hm|Hm]; try discriminate;
    first [ by destruct x | by destruct y | by destruct x, y ].
Qed.

(** X11 (clean_matchlog, rows). Every output row comes from an input row:
    the text columns the input has are copied, each of the five numeric
    columns holds what [pd.to_numeric] makes of the input cell within its
    column, a number, and the date is a parsed date, never the missing
    marker. *)
Theorem clean_matchlog_row_account (df out : DataFrame) (r' : gmap string cell) :
  clean_matchlog df = Ok out -> r' ∈ rows out ->
  exists r, r ∈ rows df /\
    (forall c, c ∈ text_cols -> c ∈ columns df -> r' !! c = r !! c) /\
    (forall c, c ∈ numeric_cols ->
       r' !! c = Some (convert (conversion_of (column c df)) (cell_at c r)) /\
       is_number (convert (conversion_of (column c df)) (cell_at c r)) = true) /\
    (exists t, r' !! "Date" = Some (CDate t)).
Proof.
  intros Hok Hr. apply clean_matchlog_Ok_inv in Hok as [Hreq ->].
  apply elem_of_cleaned in Hr as (r & Hin & -> & Hna).
  exists r. split; [done|]. split; [|split].
  - intros c Hc Hcol. destruct (text_cols_plain c Hc) as (Hu & Hn & Hd & HD).
    apply lookup_clean_row_tag; [|done..]. by apply elem_of_kept_cols.
  - intros c Hc.
    rewrite lookup_clean_row_numeric, coerce_at_selected
      by (done || by apply kept_cols_numeric_col).
    split; [done|]. apply convert_number.
    unfold column. apply list_elem_of_fmap. by exists r.
  - assert (HD : "Date" ∈ columns df) by (apply Hreq; decide_now).
    rewrite cell_at_clean_row_Date in Hna by done.
    unfold clean_row. rewrite lookup_insert_eq.
    rewrite date_series_column, cell_at_project
      by (done || (apply elem_of_kept_cols; split; [done|decide_now])).
    destruct (to_datetime_cell_cases (guess_datetime_format (date_column df))
                (cell_at "Date" r)) as [[t Ht]|Ht];
      rewrite Ht in *; [by eexists|discriminate].
Qed.

(** X12 (clean_matchlog, schema). The output columns are the useful
    columns the input has, in the order of the fixed list, followed by
    GoalDiff, xGDiff and Outcome; no output row has a cell outside these
    columns. *)
Theorem clean_matchlog_schema (df out : DataFrame) :
  clean_matchlog df = Ok out ->
  columns out = filter (fun c => c ∈ columns df) useful_cols ++ ["GoalDiff"; "xGDiff"; "Outcome"] /\
  Forall (fun r : gmap string cell => forall c, is_Some (r !! c) -> c ∈ columns out) (rows out).
Proof.
  intros Hok. apply clean_matchlog_Ok_inv in Hok as [Hreq ->].
  split; [reflexivity|].
  apply list.Forall_forall. intros r' (r & _ & -> & _)%elem_of_cleaned c Hc.
  unfold cleaned. cbn [columns]. apply elem_of_app.
  unfold clean_row, derived_row, with_diffs, coerced in Hc.
  repeat (apply lookup_insert_is_Some in Hc as [<-|[_ Hc]];
          [first [ left; apply kept_cols_required; [done|decide_now]
                 | right; decide_now ]|]).
  left. destruct Hc as [v Hv]. unfold project in Hv.
  by apply map_lookup_filter_Some in Hv as [_ Hv].
Qed.

End CleanerCoverage.

Section CleanerIdempotence.

Context {pd : Pandas}.

Lemma lookup_clean_row_other (df : DataFrame) (r : gmap string cell) (c : string) :
  c ∉ numeric_cols -> c ∉ derived_cols -> c <> "Date" ->
  clean_row df r !! c = project (kept_cols df) r !! c.
Proof.
  intros Hn Hd HD. unfold clean_row, derived_row, with_diffs.
  rewrite !lookup_insert_ne; [|intros <-; apply Hd; decide_now..|congruence].
  by rewrite lookup_coerced_other.
Qed.

Lemma lookup_project_None (cols : list string) (r : gmap string cell) (c : string) :
  c ∉ cols -> project cols r !! c = None.
Proof. intros Hc. unfold project. apply map_lookup_filter_None. right. intros v _. done. Qed.

Lemma filter_all {A : Type} (P : A -> Prop) `{forall a, Decision (P a)} (l : list A) :
  Forall P l -> filter P l = l.
Proof.
  induction 1 as [|a l Ha _ IH]; [done|]. rewrite filter_cons, decide_True by done.
  by rewrite IH.
Qed.

Lemma filter_ext_in {A : Type} (P1 P2 : A -> Prop)
    `{forall a, Decision (P1 a)} `{forall a, Decision (P2 a)} (l : list A) :
  (forall a, a ∈ l -> P1 a <-> P2 a) -> filter P1 l = filter P2 l.
Proof.
  induction l as [|a l IH]; intros Hext; [done|].
  rewrite !filter_cons, IH by (intros x Hx; apply Hext; by right).
  destruct (decide (P1 a)) as [H1|H1], (decide (P2 a)) as [H2|H2]; try done;
    exfalso; apply (Hext a ltac:(left)) in H1 || apply (Hext a ltac:(left)) in H2; done.
Qed.

Lemma kept_cols_cleaned (df : DataFrame) : kept_cols (cleaned df) = kept_cols df.
Proof.
  transitivity (filter (fun c => c ∈ columns df) useful_cols); [|reflexivity].
  unfold kept_cols at 1. apply filter_ext_in. intros c Hc.
  unfold cleaned. cbn [columns]. rewrite elem_of_app, elem_of_kept_cols.
  split; [|tauto]. intros [[? _]|Hd]; [done|].
  exfalso. revert c Hc Hd.
  apply (proj1 (list.Forall_forall (fun c => c ∉ derived_cols) useful_cols)). decide_now.
Qed.

Lemma forallb_Forall_true {A : Type} (P : A -> bool) (l : list A) :
  (forall a, a ∈ l -> P a = true) -> forallb P l = true.
Proof.
  intros Hl. apply forallb_forall. intros a Ha. apply Hl. by apply list_elem_of_In.
Qed.

(** A column of numbers of one kind is kept as it is. *)
Lemma conversion_of_numbers (s : Series) :
  forallb is_int64 s = true \/ forallb is_uint64 s = true \/ forallb is_float64 s = true ->
  conversion_of s = Keep.
Proof.
  intros Hs. unfold conversion_of, dtype_of.
  destruct (forallb is_float64 s); [done|].
  destruct (forallb is_int64 s); [done|].
  destruct (forallb is_uint64 s); [done|].
  by destruct Hs as [?|[?|?]].
Qed.

(** What [pd.to_numeric] returns is of one numeric kind. *)
Lemma convert_one_kind (s : Series) :
  (forall c, c ∈ s -> is_int64 (convert (conversion_of s) c) = true)
  \/ (forall c, c ∈ s -> is_uint64 (convert (conversion_of s) c) = true)
  \/ (forall c, c ∈ s -> is_float64 (convert (conversion_of s) c) = true).
Proof.
  unfold conversion_of. pose proof (dtype_of_cases s) as Hd.
  destruct (dtype_of s).
  - left. intros c Hc. by apply (forallb_elem_of _ _ c) in Hd.
  - right. left. intros c Hc. by apply (forallb_elem_of _ _ c) in Hd.
  - right. right. intros c Hc. by apply (forallb_elem_of _ _ c) in Hd.
  - left. intros c _. cbn. by destruct c.
  - destruct (mapM int_of s) as [ns|]; [|by right; right].
    destruct (forallb in_int64 ns); [by left|].
    destruct (forallb in_uint64 ns); [by right; left|by right; right].
Qed.

Lemma cell_at_clean_row_numeric (df : DataFrame) (r : gmap string cell) (c : string) :
  required_cols ⊆ columns df -> c ∈ numeric_cols ->
  cell_at c (clean_row df r) = convert (conversion_of (column c df)) (cell_at c r).
Proof.
  intros Hreq Hc. unfold cell_at at 1.
  rewrite lookup_clean_row_numeric, coerce_at_selected
    by (done || by apply kept_cols_numeric_col).
  reflexivity.
Qed.

Lemma lookup_clean_row_Date (df : DataFrame) (r : gmap string cell) :
  clean_row df r !! "Date" = Some (cell_at "Date" (clean_row df r)).
Proof. unfold cell_at, clean_row. by rewrite !lookup_insert_eq. Qed.

(** In the output of the Cleaner the numeric columns are of a numeric
    dtype: a second [pd.to_numeric] keeps them. *)
Lemma conversion_of_cleaned (df : DataFrame) (c : string) :
  required_cols ⊆ columns df -> c ∈ numeric_cols ->
  conversion_of (column c (cleaned df)) = Keep.
Proof.
  intros Hreq Hc. apply conversion_of_numbers.
  assert (Hcol : forall P : cell -> bool,
            (forall x, x ∈ column c df -> P (convert (conversion_of (column c df)) x) = true) ->
            forallb P (column c (cleaned df)) = true).
  { intros P HP. apply forallb_Forall_true. unfold column at 1.
    intros v (r' & -> & Hr')%list_elem_of_fmap.
    apply elem_of_cleaned in Hr' as (r & Hr & -> & _).
    rewrite cell_at_clean_row_numeric by done. apply HP.
    unfold column. apply list_elem_of_fmap. by exists r. }
  destruct (convert_one_kind (column c df)) as [H|[H|H]]; eauto.
Qed.

(** A row the Cleaner returns is left as it is by a second cleaning. *)
Lemma clean_row_fixed (df : DataFrame) (r : gmap string cell) :
  required_cols ⊆ columns df -> r ∈ rows df ->
  is_number (cell_at "Date" r) = false ->
  isna (cell_at "Date" (clean_row df r)) = false ->
  clean_row (cleaned df) (clean_row df r) = clean_row df r.
Proof.
  intros Hreq Hr Hdate Hna.
  assert (Hr' : clean_row df r ∈ rows (cleaned df)) by (apply elem_of_cleaned; by exists r).
  assert (Hreq' : required_cols ⊆ columns (cleaned df)).
  { intros c Hc. unfold cleaned. cbn [columns]. apply elem_of_app. left.
    by apply kept_cols_required. }
  assert (HD : "Date" ∈ columns df) by (apply Hreq; decide_now).
  assert (HD' : "Date" ∈ columns (cleaned df)) by (apply Hreq'; decide_now).
  assert (Ht : exists t, cell_at "Date" (clean_row df r) = CDate t).
  { rewrite cell_at_clean_row_Date in * by done.
    destruct (to_datetime_cell_cases (guess_datetime_format (date_column df))
                (cell_at "Date" r)) as [[t Ht]|Ht]; rewrite Ht in *; [by eexists|discriminate]. }
  destruct Ht as [t Ht].
  (* the first cleaning *)
  assert (H1co : forall c, c ∈ numeric_cols ->
            coerce_at (selected df) c (project (kept_cols df) r)
            = cell_at c (clean_row df r)).
  { intros c Hc. unfold cell_at. by rewrite lookup_clean_row_numeric. }
  assert (H1num : forall c, c ∈ numeric_cols ->
            clean_row df r !! c = Some (cell_at c (clean_row df r))).
  { intros c Hc. unfold cell_at. by rewrite lookup_clean_row_numeric. }
  assert (H1D : clean_row df r !! "Date" = Some (CDate t))
    by (by rewrite lookup_clean_row_Date, Ht).
  assert (H1GD : clean_row df r !! "GoalDiff"
                 = Some (difference (cell_at "GF" (clean_row df r))
                                    (cell_at "GA" (clean_row df r)))).
  { rewrite lookup_clean_row_GoalDiff.
    by rewrite (H1co "GF"), (H1co "GA") by decide_now. }
  assert (H1XD : clean_row df r !! "xGDiff"
                 = Some (difference (cell_at "xG" (clean_row df r))
                                    (cell_at "xGA" (clean_row df r)))).
  { rewrite lookup_clean_row_xGDiff.
    by rewrite (H1co "xG"), (H1co "xGA") by decide_now. }
  assert (H1O : clean_row df r !! "Outcome"
                = Some (CStr (outcome_of (cell_at "GF" (clean_row df r))
                                         (cell_at "GA" (clean_row df r))))).
  { rewrite (lookup_clean_row_Outcome df r Hr). cbn zeta.
    rewrite (values_dtype_diffs_frame df r) by done. cbn [cast].
    by rewrite (H1co "GF"), (H1co "GA") by decide_now. }
  assert (H1other : forall c, c ∉ numeric_cols -> c ∉ derived_cols -> c <> "Date" ->
            c ∉ kept_cols df -> clean_row df r !! c = None).
  { intros c Hn Hd HcD Hc.
    rewrite lookup_clean_row_other by done. by apply lookup_project_None. }
  clear H1co.
  remember (clean_row df r) as r' eqn:Er'. clear Er'.
  (* the second cleaning *)
  assert (H2co : forall c, c ∈ numeric_cols ->
            coerce_at (selected (cleaned df)) c (project (kept_cols (cleaned df)) r')
            = cell_at c r').
  { intros c Hc. rewrite coerce_at_selected by (by apply kept_cols_numeric_col).
    by rewrite conversion_of_cleaned. }
  apply map_eq. intros c.
  destruct (decide (c = "Date")) as [->|HcD].
  - rewrite lookup_clean_row_Date, cell_at_clean_row_Date, Ht by done.
    by rewrite H1D.
  - destruct (decide (c ∈ derived_cols)) as [Hd|Hd].
    + unfold derived_cols in Hd.
      apply elem_of_cons in Hd as [->|Hd]; [|apply elem_of_cons in Hd as [->|Hd]].
      * rewrite lookup_clean_row_GoalDiff.
        by rewrite (H2co "GF"), (H2co "GA"), H1GD by decide_now.
      * rewrite lookup_clean_row_xGDiff.
        by rewrite (H2co "xG"), (H2co "xGA"), H1XD by decide_now.
      * apply list_elem_of_singleton in Hd as ->.
        rewrite (lookup_clean_row_Outcome (cleaned df) r' Hr'). cbn zeta.
        rewrite (values_dtype_diffs_frame (cleaned df) r') by (done || by rewrite Ht).
        cbn [cast]. by rewrite (H2co "GF"), (H2co "GA"), H1O by decide_now.
    + destruct (decide (c ∈ numeric_cols)) as [Hn|Hn].
      * by rewrite lookup_clean_row_numeric, H2co, H1num by done.
      * rewrite lookup_clean_row_other by done. rewrite kept_cols_cleaned.
        destruct (decide (c ∈ kept_cols df)) as [Hc|Hc].
        -- by rewrite lookup_project.
        -- rewrite lookup_project_None by done. symmetry. by apply H1other.
Qed.

(** X13 (clean_matchlog is idempotent). Cleaning the output of
    [clean_matchlog] again returns it unchanged, when no date cell of
    the input is a number. *)
Theorem clean_matchlog_idempotent (df out : DataFrame) :
  clean_matchlog df = Ok out ->
  Forall (fun r : gmap string cell => is_number (cell_at "Date" r) = false) (rows df) ->
  clean_matchlog out = Ok out.
Proof.
  intros Hok Hdate. apply clean_matchlog_Ok_inv in Hok as [Hreq ->].
  rewrite clean_matchlog_cleaned.
  2:{ intros c Hc. unfold cleaned. cbn [columns]. apply elem_of_app. left.
      by apply kept_cols_required. }
  f_equal. unfold cleaned at 1. rewrite kept_cols_cleaned.
  unfold cleaned at 3. f_equal.
  assert (Hrows : Forall (fun r => isna (cell_at "Date" r) = false) (rows (cleaned df))).
  { apply list.Forall_forall. by intros r (r0 & _ & _ & Hna)%elem_of_cleaned. }
  assert (Hmap : map (clean_row (cleaned df)) (rows (cleaned df)) = rows (cleaned df)).
  { transitivity (map (fun r => r) (rows (cleaned df))); [|apply List.map_id].
    apply map_ext_in.
    intros r' Hr'. apply list_elem_of_In, elem_of_cleaned in Hr' as (r & Hr & -> & Hna).
    apply clean_row_fixed; try done.
    by apply (proj1 (list.Forall_forall _ _) Hdate). }
  rewrite Hmap. apply filter_all.
  eapply Forall_impl; [exact Hrows|]. intros r Hna.
  unfold row_has_na. cbn [existsb]. by rewrite Hna.
Qed.

End CleanerIdempotence.

(** * Further properties of the driver *)

Section DriverCoverage.

Context {pd : Pandas}.
Variable remote : list event -> string -> reply.

Lemma collect_cached (fuel : nat) (self : FBRefDownloader)
    (teams : list (string * string)) (seasons : list string) (dfs : list DataFrame)
    (w : World) :
  Forall (fun t : string * string => is_Some (fs w !! file_path t.1)) teams ->
  exists res, collect remote fuel self teams seasons dfs w = Some (res, w).
Proof.
  revert dfs. induction teams as [|[team tid] teams IH]; intros dfs Hall; cbn.
  - by eexists.
  - apply Forall_cons in Hall as [[c Hc] Hall]. cbn in Hc.
    unfold download_matchlogs. rewrite Hc.
    destruct (read_csv c) as [df|]; [|by apply IH].
    destruct (clean_matchlog df); [by apply IH|by eexists].
Qed.

(** X15 (a fully cached run is offline). When every team has a cache
    file the run returns (within any depth bound) and its trace is
    unchanged: no request is sent and no sleep taken. *)
Theorem run_fully_cached_is_offline (fuel : nat) (self : FBRefDownloader) (out : string)
    (teams : list (string * string)) (seasons : list string) (w : World) :
  Forall (fun t : string * string => is_Some (fs w !! file_path t.1)) teams ->
  exists res w',
    run remote fuel self out teams seasons w = Some (res, w') /\ trace w' = trace w.
Proof.
  intros Hall. unfold run.
  destruct (collect_cached fuel self teams seasons [] w Hall) as [res ->].
  destruct res as [[|df dfs]|e]; [by eexists _, _..| |by eexists _, _].
  unfold merge_to. cbn [pd_concat]. by eexists _, _.
Qed.

Lemma download_matchlogs_fails (fuel : nat) (self : FBRefDownloader) (team tid : string)
    (seasons rest : list string) (w : World) :
  fs w !! file_path team = None ->
  all_fail remote fuel self (season_urls team tid seasons ++ rest) (trace w) ->
  exists w', download_matchlogs remote fuel self team tid seasons w = Some (Ok None, w')
             /\ fs w' = fs w /\ all_fail remote fuel self rest (trace w').
Proof.
  intros Hnone Hall.
  destruct (fetch_seasons_fail remote fuel self team tid seasons rest [] w Hall)
    as (w' & Hf & Hfs & Hrest).
  exists w'. unfold download_matchlogs. by rewrite Hnone, Hf.
Qed.

(** X16 (a run without data). When no team has a cache file and every
    season of every team fails, each at the point of the run at which it
    is requested, the run returns no frame and leaves the disk as it
    was: the combined file is not written, and no partial one. *)
Theorem run_without_data_writes_nothing (fuel : nat) (self : FBRefDownloader) (out : string)
    (teams : list (string * string)) (seasons : list string) (w : World) :
  Forall (fun t : string * string => fs w !! file_path t.1 = None) teams ->
  all_fail remote fuel self (team_urls teams seasons) (trace w) ->
  exists w', run remote fuel self out teams seasons w = Some (Ok None, w') /\ fs w' = fs w.
Proof.
  intros Hnone Hall. unfold run.
  assert (Hc : exists w', collect remote fuel self teams seasons [] w = Some (Ok [], w')
                          /\ fs w' = fs w).
  { revert w Hnone Hall.
    induction teams as [|[team tid] teams IH]; intros w Hnone Hall; cbn.
    - by eexists.
    - apply Forall_cons in Hnone as [Hnone Hrest]. cbn in Hnone.
      unfold team_urls in Hall. cbn [map concat fst snd] in Hall.
      destruct (download_matchlogs_fails fuel self team tid seasons _ w Hnone Hall)
        as (w1 & -> & Hfs & Hall1).
      destruct (IH w1) as (w2 & Hc2 & Hfs2).
      + eapply Forall_impl; [exact Hrest|]. intros t. by rewrite Hfs.
      + exact Hall1.
      + exists w2. split; [done|congruence]. }
  destruct Hc as (w' & -> & Hfs). by exists w'.
Qed.

End DriverCoverage.

(** * Further properties of the concatenation *)

Section ConcatCoverage.

Context {pd : Pandas}.

Lemma NoDup_union_labels (seen l : list string) :
  NoDup seen -> NoDup (union_labels seen l).
Proof.
  revert seen. induction l as [|x l IH]; intros seen Hs; cbn [union_labels]; [done|].
  case_bool_decide as Hx; [by apply IH|].
  apply IH. apply NoDup_app. split; [done|]. split; [|apply NoDup_singleton].
  intros y Hy ->%list_elem_of_singleton. done.
Qed.

Lemma elem_of_columns_concat_frames (dfs : list DataFrame) (c : string) :
  c ∈ columns (concat_frames dfs) <-> Exists (fun df => c ∈ columns df) dfs.
Proof.
  unfold concat_frames. cbn [columns].
  rewrite elem_of_union_labels, elem_of_nil, Exists_exists.
  rewrite list_elem_of_In, in_concat. split.
  - intros [[]|(l & Hl & Hc)]. apply in_map_iff in Hl as (df & <- & Hdf).
    exists df. by rewrite !list_elem_of_In.
  - intros (df & Hdf & Hc). right. exists (columns df).
    split; [apply in_map|]; by apply list_elem_of_In.
Qed.

Lemma NoDup_columns_concat_frames (dfs : list DataFrame) : NoDup (columns (concat_frames dfs)).
Proof. apply NoDup_union_labels, NoDup_nil_2. Qed.

End ConcatCoverage.


(** * Further properties of the run as a whole *)

Section DiskCoverage.

Context {pd : Pandas}.
Variable remote : list event -> string -> reply.

(** A download leaves the disk alone or adds the team's cache file. *)
Lemma download_matchlogs_disk (fuel : nat) (self : FBRefDownloader) (team tid : string)
    (seasons : list string) (w w' : World) (res : result (option DataFrame)) :
  download_matchlogs remote fuel self team tid seasons w = Some (res, w') ->
  fs w' = fs w \/
  (fs w !! file_path team = None /\ exists c, fs w' = <[file_path team := c]> (fs w)).
Proof.
  unfold download_matchlogs.
  destruct (fs w !! file_path team) as [c|] eqn:Hp; [intros [= _ <-]; by left|].
  destruct (fetch_seasons remote fuel self team tid seasons [] w) as [[logs w1]|] eqn:Hf;
    [|discriminate].
  apply fetch_seasons_fs in Hf as [Hfs _].
  destruct logs as [|l0 logs]; [intros [= _ <-]; by left|].
  cbn [pd_concat]. intros [= _ <-]. right. split; [done|].
  eexists. cbn. by rewrite Hfs.
Qed.

Lemma collect_disk (fuel : nat) (self : FBRefDownloader) (teams : list (string * string))
    (seasons : list string) (dfs : list DataFrame) (w w' : World)
    (res : result (list DataFrame)) (p : string) :
  collect remote fuel self teams seasons dfs w = Some (res, w') ->
  (forall c, fs w !! p = Some c -> fs w' !! p = Some c) /\
  (fs w !! p = None -> is_Some (fs w' !! p) ->
   exists t, t ∈ teams /\ p = file_path t.1).
Proof.
  revert dfs w. induction teams as [|[team tid] teams IH]; intros dfs w Hc; cbn in Hc.
  - injection Hc as _ <-. split; [done|]. intros -> [? ?]. discriminate.
  - destruct (download_matchlogs remote fuel self team tid seasons w)
      as [[r1 w1]|] eqn:Hd; [|discriminate].
    assert (Hstep : (forall c, fs w !! p = Some c -> fs w1 !! p = Some c) /\
                    (fs w !! p = None -> is_Some (fs w1 !! p) -> p = file_path team)).
    { apply download_matchlogs_disk in Hd as [->|[Hnone [c ->]]].
      - split; [done|]. intros -> [? ?]. discriminate.
      - destruct (decide (p = file_path team)) as [->|Hne].
        + split; [|done]. intros c0. rewrite Hnone. discriminate.
        + rewrite lookup_insert_ne by done. split; [done|].
          intros -> [? ?]. discriminate. }
    destruct Hstep as [Hkeep Hnew].
    assert (Hrest : (forall c, fs w1 !! p = Some c -> fs w' !! p = Some c) /\
                    (fs w1 !! p = None -> is_Some (fs w' !! p) ->
                     exists t, t ∈ teams /\ p = file_path t.1)).
    { destruct r1 as [[df|]|e].
      - destruct (clean_matchlog df) as [cl|e1]; [by eapply IH|].
        injection Hc as _ <-. split; [done|]. intros -> [? ?]. discriminate.
      - by eapply IH.
      - injection Hc as _ <-. split; [done|]. intros -> [? ?]. discriminate. }
    destruct Hrest as [Hkeep' Hnew']. split.
    + intros c Hp. by apply Hkeep', Hkeep.
    + intros Hnone Hsome. destruct (fs w1 !! p) as [c1|] eqn:H1.
      * exists (team, tid). split; [left|]. apply Hnew; [done|by eexists].
      * destruct (Hnew' eq_refl Hsome) as (t & Ht & ->). exists t. split; [by right|done].
Qed.

(** X20 (what a run writes). A run changes no file that was on disk
    before it, the output file apart, and the only files it adds are
    cache files of its teams: cache files are never overwritten, and
    nothing is deleted. *)
Theorem run_writes_only_cache_and_output (fuel : nat) (self : FBRefDownloader) (out : string)
    (teams : list (string * string)) (seasons : list string) (w w' : World)
    (res : result (option DataFrame)) (p : string) :
  run remote fuel self out teams seasons w = Some (res, w') ->
  p <> out ->
  (forall c, fs w !! p = Some c -> fs w' !! p = Some c) /\
  (fs w !! p = None -> is_Some (fs w' !! p) ->
   exists t, t ∈ teams /\ p = file_path t.1).
Proof.
  unfold run. intros Hrun Hp.
  destruct (collect remote fuel self teams seasons [] w) as [[r1 w1]|] eqn:Hc;
    [|discriminate].
  apply (collect_disk _ _ _ _ _ _ _ _ p) in Hc.
  destruct r1 as [[|df dfs]|e]; try (injection Hrun as _ <-; exact Hc).
  unfold merge_to in Hrun. cbn [pd_concat] in Hrun. injection Hrun as _ <-.
  cbn. by rewrite lookup_insert_ne.
Qed.

Lemma collect_cleaned (fuel : nat) (self : FBRefDownloader) (teams : list (string * string))
    (seasons : list string) (dfs dfs' : list DataFrame) (w w' : World) :
  collect remote fuel self teams seasons dfs w = Some (Ok dfs', w') ->
  Forall (fun d => exists raw, clean_matchlog raw = Ok d) dfs ->
  Forall (fun d => exists raw, clean_matchlog raw = Ok d) dfs' /\
  (length dfs' <= length dfs + length teams)%nat.
Proof.
  revert dfs w. induction teams as [|[team tid] teams IH]; intros dfs w Hc Hd; cbn in Hc.
  - injection Hc as <- <-. split; [done|lia].
  - destruct (download_matchlogs remote fuel self team tid seasons w)
      as [[[[df|]|e] w1]|]; [| |discriminate..].
    + destruct (clean_matchlog df) as [cl|e] eqn:Hcl; [|discriminate].
      apply IH in Hc as [Hall Hlen].
      * split; [done|]. rewrite length_app in Hlen. cbn in *. lia.
      * apply Forall_app. split; [done|]. constructor; [by exists df|constructor].
    + apply IH in Hc as [Hall Hlen]; [|done]. split; [done|]. cbn. lia.
Qed.

Lemma columns_of_cleaned (raw d : DataFrame) (c : string) :
  clean_matchlog raw = Ok d ->
  (c ∈ columns d -> c ∈ useful_cols ++ derived_cols) /\
  (c ∈ required_cols ++ derived_cols -> c ∈ columns d).
Proof.
  intros [Hreq ->]%clean_matchlog_Ok_inv. cbn [cleaned columns].
  rewrite !elem_of_app, elem_of_kept_cols. split; [tauto|].
  intros [Hc|Hc]; [|by right]. left. split; [by apply Hreq|].
  revert c Hc. apply Forall_subseteq. unfold required_cols, useful_cols.
  repeat constructor; decide_now.
Qed.

(** X21 (the combined file). When a run returns a dataset, the output
    file holds exactly that dataset; it is the concatenation of at most
    one cleaned dataset per team; its columns are without repetition,
    all among the twelve useful columns and the three derived ones, and
    the six columns the Cleaner reads and the three it derives are all
    there. *)
Theorem run_output_schema (fuel : nat) (self : FBRefDownloader) (out : string)
    (teams : list (string * string)) (seasons : list string) (w w' : World)
    (combined : DataFrame) :
  run remote fuel self out teams seasons w = Some (Ok (Some combined), w') ->
  fs w' !! out = Some (to_csv combined) /\
  (exists dfs, dfs <> [] /\ (length dfs <= length teams)%nat /\
               pd_concat dfs = Ok combined /\
               Forall (fun d => exists raw, clean_matchlog raw = Ok d) dfs) /\
  NoDup (columns combined) /\
  (forall c, c ∈ columns combined -> c ∈ useful_cols ++ derived_cols) /\
  (forall c, c ∈ required_cols ++ derived_cols -> c ∈ columns combined).
Proof.
  unfold run.
  destruct (collect remote fuel self teams seasons [] w) as [[[dfs|e] w1]|] eqn:Hc;
    [| |discriminate]; [|discriminate].
  destruct dfs as [|df0 dfs0]; [discriminate|].
  unfold merge_to. cbn [pd_concat]. intros [= <- <-].
  apply collect_cleaned in Hc as [Hall Hlen]; [|constructor].
  split; [cbn; by rewrite lookup_insert_eq|].
  split; [exists (df0 :: dfs0); cbn in Hlen; by repeat split|].
  split; [apply NoDup_columns_concat_frames|].
  split.
  - intros c (d & Hd & Hcd)%elem_of_columns_concat_frames%Exists_exists.
    apply (proj1 (list.Forall_forall _ _) Hall) in Hd as [raw Hraw].
    by apply (columns_of_cleaned raw d c Hraw).
  - intros c Hc. apply elem_of_columns_concat_frames. apply Exists_cons. left.
    apply Forall_cons in Hall as [[raw Hraw] _].
    by apply (columns_of_cleaned raw df0 c Hraw).
Qed.

End DiskCoverage.

(** * The further properties on the sample data *)

Section CoverageExamples.

Import Toy.

Lemma safe_get_trace_shape_witness :
  safe_get remote_429_once 2 (new_downloader (2, 6)) "u" world0
  = Some (Some (mkResponse 200 "2025-08-19"),
          {| fs := ∅; trace := [Get "u"; Sleep 60; Get "u"; SleepUniform 2 6] |}) /\
  (fs {| fs := ∅; trace := [Get "u"; Sleep 60; Get "u"; SleepUniform 2 6] |} = fs world0 /\
   exists (k : nat) (last : list event),
     (k < 2)%nat /\
     [Get "u"; Sleep 60; Get "u"; SleepUniform 2 6] = trace world0 ++ retries "u" k ++ last /\
     gets (retries "u" k ++ last) = replicate (S k) "u" /\
     status_code (mkResponse 200 "2025-08-19") = 200 /\
     last = [Get "u"; SleepUniform (delay_range (new_downloader (2, 6))).1
                                   (delay_range (new_downloader (2, 6))).2]).
Proof.
  assert (Hs : safe_get remote_429_once 2 (new_downloader (2, 6)) "u" world0
               = Some (Some (mkResponse 200 "2025-08-19"),
                       {| fs := ∅; trace := [Get "u"; Sleep 60; Get "u"; SleepUniform 2 6] |}))
    by reflexivity.
  split; [exact Hs|].
  exact (safe_get_trace_shape remote_429_once 2 (new_downloader (2, 6)) "u" world0 _ _ Hs).
Defined.

Lemma download_requests_each_season_in_order_witness :
  fs world0 !! file_path "Kairat" = None /\
  download_matchlogs remote_404 1 (new_downloader (2, 6)) "Kairat" "768fb565"
    ["2023-2024"; "2024-2025"] world0
  = Some (Ok None,
          {| fs := ∅;
             trace := [Get (matchlog_url "Kairat" "768fb565" "2023-2024");
                       Get (matchlog_url "Kairat" "768fb565" "2024-2025")] |}) /\
  exists (counts : list nat) (evs : list event),
    [Get (matchlog_url "Kairat" "768fb565" "2023-2024");
     Get (matchlog_url "Kairat" "768fb565" "2024-2025")] = trace world0 ++ evs /\
    length counts = length ["2023-2024"; "2024-2025"] /\
    gets evs = concat (zip_with (fun n s => replicate (S n) (matchlog_url "Kairat" "768fb565" s))
                                counts ["2023-2024"; "2024-2025"]).
Proof.
  assert (Hnone : fs world0 !! file_path "Kairat" = None) by (vm_compute; reflexivity).
  assert (Hrun : download_matchlogs remote_404 1 (new_downloader (2, 6)) "Kairat" "768fb565"
                   ["2023-2024"; "2024-2025"] world0
                 = Some (Ok None,
                         {| fs := ∅;
                            trace := [Get (matchlog_url "Kairat" "768fb565" "2023-2024");
                                      Get (matchlog_url "Kairat" "768fb565" "2024-2025")] |}))
    by reflexivity.
  split; [exact Hnone|]. split; [exact Hrun|].
  exact (download_requests_each_season_in_order remote_404 1 (new_downloader (2, 6)) "Kairat"
           "768fb565" ["2023-2024"; "2024-2025"] world0 _ _ Hnone Hrun).
Defined.

Lemma download_stores_then_serves_from_cache_witness :
  fs world0 !! file_path "Qarabag-FK" = None /\
  fresh_download
  = Some (Ok (Some (result_frame fresh_download)), result_world fresh_download world0) /\
  fs (result_world fresh_download world0)
  = <[file_path "Qarabag-FK" := to_csv (result_frame fresh_download)]> (fs world0) /\
  forall fuel2 self2 team2 tid2 seasons2,
    file_path team2 = file_path "Qarabag-FK" ->
    download_matchlogs remote_ok fuel2 self2 team2 tid2 seasons2
      (result_world fresh_download world0)
    = Some (Ok (read_csv (to_csv (result_frame fresh_download))),
            result_world fresh_download world0).
Proof.
  assert (Hnone : fs world0 !! file_path "Qarabag-FK" = None) by (vm_compute; reflexivity).
  assert (Hrun : download_matchlogs remote_ok 1 (new_downloader (2, 6)) "Qarabag-FK" "44b65410"
                   ["2025-2026"] world0
                 = Some (Ok (Some (result_frame fresh_download)),
                         result_world fresh_download world0))
    by (apply (returned_frame_eq fresh_download); vm_compute; reflexivity).
  split; [exact Hnone|]. split; [exact Hrun|].
  exact (download_stores_then_serves_from_cache remote_ok 1 (new_downloader (2, 6))
           "Qarabag-FK" "44b65410" ["2025-2026"] world0 _ _ Hnone Hrun).
Defined.

Lemma download_skips_failed_season_witness :
  fs world0 !! file_path "Kairat" = None /\
  fails_at remote_recovers 1 (matchlog_url "Kairat" "768fb565" "2023-2024") (trace world0) 0 /\
  download_matchlogs remote_recovers 1 (new_downloader (2, 6)) "Kairat" "768fb565"
    ("2023-2024" :: ["2024-2025"]) world0
  = download_matchlogs remote_recovers 1 (new_downloader (2, 6)) "Kairat" "768fb565"
      ["2024-2025"]
      {| fs := fs world0;
         trace := after_failure remote_recovers (new_downloader (2, 6))
                    (matchlog_url "Kairat" "768fb565" "2023-2024") (trace world0) 0 |}.
Proof.
  assert (Hnone : fs world0 !! file_path "Kairat" = None) by (vm_compute; reflexivity).
  assert (Hfail : fails_at remote_recovers 1 (matchlog_url "Kairat" "768fb565" "2023-2024")
                    (trace world0) 0).
  { split; [lia|]. split; [intros j Hj; lia|]. cbn. split; [lia|]. left. lia. }
  split; [exact Hnone|]. split; [exact Hfail|].
  exact (download_skips_failed_season remote_recovers 1 (new_downloader (2, 6)) "Kairat"
           "768fb565" "2023-2024" ["2024-2025"] world0 0 Hnone Hfail).
Defined.

Lemma download_none_only_on_total_failure_witness :
  fs world0 !! file_path "Kairat" = None /\
  download_matchlogs remote_recovers 1 (new_downloader (2, 6)) "Kairat" "768fb565"
    ["2023-2024"; "2024-2025"] world0 = Some (Ok None, failed_world) /\
  all_fail remote_recovers 1 (new_downloader (2, 6))
    (season_urls "Kairat" "768fb565" ["2023-2024"; "2024-2025"]) (trace world0) /\
  fs failed_world = fs world0.
Proof.
  assert (Hnone : fs world0 !! file_path "Kairat" = None) by (vm_compute; reflexivity).
  assert (Hrun : download_matchlogs remote_recovers 1 (new_downloader (2, 6)) "Kairat"
                   "768fb565" ["2023-2024"; "2024-2025"] world0 = Some (Ok None, failed_world))
    by reflexivity.
  split; [exact Hnone|]. split; [exact Hrun|].
  exact (download_none_only_on_total_failure remote_recovers 1 (new_downloader (2, 6))
           "Kairat" "768fb565" ["2023-2024"; "2024-2025"] world0 failed_world Hnone Hrun).
Defined.

Lemma download_rows_carry_team_and_season_witness :
  fs world0 !! file_path "Qarabag-FK" = None /\
  fresh_download
  = Some (Ok (Some (result_frame fresh_download)), result_world fresh_download world0) /\
  carries "Qarabag-FK" ["2025-2026"] (result_frame fresh_download).
Proof.
  assert (Hnone : fs world0 !! file_path "Qarabag-FK" = None) by (vm_compute; reflexivity).
  assert (Hrun : download_matchlogs remote_ok 1 (new_downloader (2, 6)) "Qarabag-FK" "44b65410"
                   ["2025-2026"] world0
                 = Some (Ok (Some (result_frame fresh_download)),
                         result_world fresh_download world0))
    by (apply (returned_frame_eq fresh_download); vm_compute; reflexivity).
  split; [exact Hnone|]. split; [exact Hrun|].
  exact (download_rows_carry_team_and_season remote_ok 1 (new_downloader (2, 6))
           "Qarabag-FK" "44b65410" ["2025-2026"] world0 _ _ Hnone Hrun).
Defined.

Lemma clean_matchlog_result_witness :
  NoDup (columns no_xg_df) /\
  clean_matchlog no_xg_df
  = match filter (fun c => c ∉ columns no_xg_df) required_cols with
    | [] => Ok (cleaned no_xg_df)
    | k :: _ => Raise (KeyError k)
    end.
Proof.
  assert (Hnd : NoDup (columns no_xg_df)) by decide_now.
  split; [exact Hnd|].
  exact (clean_matchlog_result no_xg_df Hnd).
Defined.

Lemma clean_matchlog_outcome_by_comparison_witness :
  clean_matchlog shootout_df = Ok (cleaned shootout_df) /\
  shootout_row ∈ rows (cleaned shootout_df) /\
  exists gf ga : cell,
    shootout_row !! "GF" = Some gf /\ shootout_row !! "GA" = Some ga /\
    is_number gf = true /\ is_number ga = true /\
    shootout_row !! "Outcome"
    = Some (CStr (label_of
                    (value_compare
                       (cast (values_dtype (diffs_frame (selected shootout_df))) gf)
                       (cast (values_dtype (diffs_frame (selected shootout_df))) ga)))) /\
    (Exists (fun r0 : gmap string cell => is_number (cell_at "Date" r0) = false)
            (rows shootout_df) ->
     shootout_row !! "Outcome" = Some (CStr (label_of (value_compare gf ga))) /\
     (isna gf = true \/ isna ga = true -> shootout_row !! "Outcome" = Some (CStr "Loss"))).
Proof.
  assert (Hok : clean_matchlog shootout_df = Ok (cleaned shootout_df))
    by (vm_compute; reflexivity).
  assert (Hr : shootout_row ∈ rows (cleaned shootout_df)) by decide_now.
  split; [exact Hok|]. split; [exact Hr|].
  exact (clean_matchlog_outcome_by_comparison shootout_df (cleaned shootout_df) _ Hok Hr).
Defined.

(** Goal counts next to each other beyond 2^53: with the date in text
    they are compared as the integers they are, in a frame of numbers
    only as the floats they round to. *)
Example large_scores_outcome :
  map (fun r : gmap string cell => (r !! "GoalDiff", r !! "Outcome"))
      (rows (cleaned large_scores_df))
  = [(Some (CInt 1), Some (CStr "Win"))] /\
  map (fun r : gmap string cell => (r !! "GoalDiff", r !! "Outcome"))
      (rows (cleaned numbers_df))
  = [(Some (CInt 1), Some (CStr "Draw"))].
Proof. split; vm_compute; reflexivity. Qed.

Lemma clean_matchlog_row_account_witness :
  clean_matchlog sample_df = Ok (cleaned sample_df) /\
  draw_row ∈ rows (cleaned sample_df) /\
  exists r, r ∈ rows sample_df /\
    (forall c, c ∈ text_cols -> c ∈ columns sample_df -> draw_row !! c = r !! c) /\
    (forall c, c ∈ numeric_cols ->
       draw_row !! c = Some (convert (conversion_of (column c sample_df)) (cell_at c r)) /\
       is_number (convert (conversion_of (column c sample_df)) (cell_at c r)) = true) /\
    (exists t, draw_row !! "Date" = Some (CDate t)).
Proof.
  assert (Hok : clean_matchlog sample_df = Ok (cleaned sample_df))
    by (vm_compute; reflexivity).
  assert (Hr : draw_row ∈ rows (cleaned sample_df)) by decide_now.
  split; [exact Hok|]. split; [exact Hr|].
  exact (clean_matchlog_row_account sample_df (cleaned sample_df) _ Hok Hr).
Defined.

Lemma clean_matchlog_schema_witness :
  clean_matchlog sample_df = Ok (cleaned sample_df) /\
  columns (cleaned sample_df)
  = filter (fun c => c ∈ columns sample_df) useful_cols ++ ["GoalDiff"; "xGDiff"; "Outcome"] /\
  Forall (fun r : gmap string cell => forall c, is_Some (r !! c) -> c ∈ columns (cleaned sample_df))
         (rows (cleaned sample_df)).
Proof.
  assert (Hok : clean_matchlog sample_df = Ok (cleaned sample_df))
    by (vm_compute; reflexivity).
  split; [exact Hok|].
  exact (clean_matchlog_schema sample_df (cleaned sample_df) Hok).
Defined.

Lemma clean_matchlog_idempotent_witness :
  clean_matchlog sample_df = Ok (cleaned sample_df) /\
  Forall (fun r : gmap string cell => is_number (cell_at "Date" r) = false)
         (rows sample_df) /\
  clean_matchlog (cleaned sample_df) = Ok (cleaned sample_df).
Proof.
  assert (Hok : clean_matchlog sample_df = Ok (cleaned sample_df))
    by (vm_compute; reflexivity).
  assert (Hd : Forall (fun r : gmap string cell => is_number (cell_at "Date" r) = false)
                 (rows sample_df)) by (repeat constructor).
  split; [exact Hok|]. split; [exact Hd|].
  exact (clean_matchlog_idempotent sample_df (cleaned sample_df) Hok Hd).
Defined.

(** In a frame of numbers only the first cleaning compares the goal
    counts as floats and the second, which finds timestamps in the date
    column, as integers: the label changes. *)
Example numbers_df_not_idempotent :
  exists out out',
    clean_matchlog numbers_df = Ok out /\ clean_matchlog out = Ok out' /\ out' <> out.
Proof.
  exists (cleaned numbers_df), (cleaned (cleaned numbers_df)).
  split; [vm_compute; reflexivity|]. split; [vm_compute; reflexivity|].
  intros Heq. apply (f_equal (fun d => map (fun r : gmap string cell => r !! "Outcome")
                                         (rows d))) in Heq.
  vm_compute in Heq. discriminate.
Qed.

Lemma run_fully_cached_is_offline_witness :
  Forall (fun t : string * string => is_Some (fs cached_world !! file_path t.1))
         [("Qarabag-FK", "44b65410")] /\
  exists res w',
    run remote_down 0 (new_downloader (2, 6)) "data/all_teams_training_data.csv"
      [("Qarabag-FK", "44b65410")] ["2025-2026"] cached_world = Some (res, w') /\
    trace w' = trace cached_world.
Proof.
  assert (Hc : Forall (fun t : string * string => is_Some (fs cached_world !! file_path t.1))
                 [("Qarabag-FK", "44b65410")]).
  { constructor; [|constructor]. exists sample_df. vm_compute. reflexivity. }
  split; [exact Hc|].
  exact (run_fully_cached_is_offline remote_down 0 (new_downloader (2, 6))
           "data/all_teams_training_data.csv" [("Qarabag-FK", "44b65410")] ["2025-2026"]
           cached_world Hc).
Defined.

Lemma run_without_data_writes_nothing_witness :
  Forall (fun t : string * string => fs world0 !! file_path t.1 = None)
         [("Kairat", "768fb565")] /\
  all_fail remote_recovers 1 (new_downloader (2, 6))
    (team_urls [("Kairat", "768fb565")] ["2023-2024"; "2024-2025"]) (trace world0) /\
  exists w',
    run remote_recovers 1 (new_downloader (2, 6)) "data/all_teams_training_data.csv"
      [("Kairat", "768fb565")] ["2023-2024"; "2024-2025"] world0 = Some (Ok None, w') /\
    fs w' = fs world0.
Proof.
  assert (Hn : Forall (fun t : string * string => fs world0 !! file_path t.1 = None)
                 [("Kairat", "768fb565")])
    by (repeat constructor).
  assert (Hf : all_fail remote_recovers 1 (new_downloader (2, 6))
                 (team_urls [("Kairat", "768fb565")] ["2023-2024"; "2024-2025"])
                 (trace world0)).
  { exists 0%nat. split.
    { split; [lia|]. split; [intros j Hj; lia|]. cbn. split; [lia|]. left. lia. }
    exists 0%nat. split; [|exact I].
    split; [lia|]. split; [intros j Hj; lia|]. cbn. split; [lia|]. left. lia. }
  split; [exact Hn|]. split; [exact Hf|].
  exact (run_without_data_writes_nothing remote_recovers 1 (new_downloader (2, 6))
           "data/all_teams_training_data.csv" [("Kairat", "768fb565")]
           ["2023-2024"; "2024-2025"] world0 Hn Hf).
Defined.

Lemma run_writes_only_cache_and_output_witness :
  fresh_run = Some (Ok (Some (result_frame fresh_run)), result_world fresh_run world0) /\
  "data/kairat_matchlogs.csv" <> "data/all_teams_training_data.csv" /\
  (forall c, fs world0 !! "data/kairat_matchlogs.csv" = Some c ->
             fs (result_world fresh_run world0) !! "data/kairat_matchlogs.csv" = Some c) /\
  (fs world0 !! "data/kairat_matchlogs.csv" = None ->
   is_Some (fs (result_world fresh_run world0) !! "data/kairat_matchlogs.csv") ->
   exists t, t ∈ two_teams /\ "data/kairat_matchlogs.csv" = file_path t.1).
Proof.
  assert (Hrun : run remote_ok 1 (new_downloader (2, 6)) "data/all_teams_training_data.csv"
                   two_teams ["2025-2026"] world0
                 = Some (Ok (Some (result_frame fresh_run)), result_world fresh_run world0))
    by (apply (returned_frame_eq fresh_run); vm_compute; reflexivity).
  assert (Hp : "data/kairat_matchlogs.csv" <> "data/all_teams_training_data.csv")
    by discriminate.
  split; [exact Hrun|]. split; [exact Hp|].
  exact (run_writes_only_cache_and_output remote_ok 1 (new_downloader (2, 6))
           "data/all_teams_training_data.csv" two_teams ["2025-2026"] world0 _ _
           "data/kairat_matchlogs.csv" Hrun Hp).
Defined.

Lemma run_output_schema_witness :
  fresh_run = Some (Ok (Some (result_frame fresh_run)), result_world fresh_run world0) /\
  fs (result_world fresh_run world0) !! "data/all_teams_training_data.csv"
  = Some (to_csv (result_frame fresh_run)) /\
  (exists dfs, dfs <> [] /\ (length dfs <= length two_teams)%nat /\
               pd_concat dfs = Ok (result_frame fresh_run) /\
               Forall (fun d => exists raw, clean_matchlog raw = Ok d) dfs) /\
  NoDup (columns (result_frame fresh_run)) /\
  (forall c, c ∈ columns (result_frame fresh_run) -> c ∈ useful_cols ++ derived_cols) /\
  (forall c, c ∈ required_cols ++ derived_cols -> c ∈ columns (result_frame fresh_run)).
Proof.
  assert (Hrun : run remote_ok 1 (new_downloader (2, 6)) "data/all_teams_training_data.csv"
                   two_teams ["2025-2026"] world0
                 = Some (Ok (Some (result_frame fresh_run)), result_world fresh_run world0))
    by (apply (returned_frame_eq fresh_run); vm_compute; reflexivity).
  split; [exact Hrun|].
  exact (run_output_schema remote_ok 1 (new_downloader (2, 6))
           "data/all_teams_training_data.csv" two_teams ["2025-2026"] world0 _ _ Hrun).
Defined.

End CoverageExamples.
